(** * earshot: the whisper serving layer (server.cpp)

    A shallow embedding of [backend/whisper-custom/server/server.cpp]:
    the in-memory WAV decoder, the per-request parameter overlay, the HTTP
    handlers for /inference, /stream, /hot_stream and /load, and the
    WebSocket handler for /hot_stream.

    Conventions.
    - [float] values are rationals.  Every float the decoder produces is
      [static_cast<float>(s) / 32768.0f] for a 16-bit [s]; both the cast and
      the division by a power of two are exact in binary32, so [Q] is exact
      there.
    - The inference engine (whisper.h) and the calls into the C library and
      the operating system are not part of the source; they are the fields
      of the records [whisper_api] and [system_api], which every handler
      takes as arguments.
    - A handler is a function from its inputs and the state it captures to
      an observable trace, a response and the new state. *)

From Stdlib Require Import List ZArith NArith QArith Qabs Bool Lia.
From Stdlib Require Import Strings.String Strings.Ascii Strings.Byte.
From Stdlib Require Import Numbers.DecimalString.
Import ListNotations.

Set Warnings "-register-all,-abstract-large-number".

Close Scope Q_scope.
Open Scope string_scope.
Open Scope list_scope.
Open Scope nat_scope.

(** ** Audio decoding *)

(** Sizes of vectors and buffers are [size_t] values, kept in [N]. *)
Definition vsize {A} (v : list A) : N := N.of_nat (List.length v).

Definition WHISPER_SAMPLE_RATE : N := 16000.

(** [*reinterpret_cast<const int16_t*>(data + i * 2)] on a little-endian
    host: the two bytes, low one first, as a two's-complement 16-bit value. *)
Definition int16_of_le (lo hi : byte) : Z :=
  let u := (Z.of_N (Byte.to_N lo) + 256 * Z.of_N (Byte.to_N hi))%Z in
  if (u <? 32768)%Z then u else (u - 65536)%Z.

(** [static_cast<float>(sample) / 32768.0f]. *)
Definition pcm16_to_float (sample : Z) : Q := sample # 32768.

(** The conversion loop [for (i = 0; i < n / 2; ++i)]: one sample for every
    complete pair of bytes, a trailing odd byte is never read. *)
Fixpoint pcm16_samples (data : list byte) : list Q :=
  match data with
  | lo :: hi :: rest => pcm16_to_float (int16_of_le lo hi) :: pcm16_samples rest
  | _ => []
  end.

(** The de-interleaving loop: [pcmf32s[0][i] = pcmf32[2*i]] and
    [pcmf32s[1][i] = pcmf32[2*i+1]]. *)
Fixpoint deinterleave (pcmf32 : list Q) : list Q * list Q :=
  match pcmf32 with
  | l :: r :: rest => let (ls, rs) := deinterleave rest in (l :: ls, r :: rs)
  | _ => ([], [])
  end.

(** [read_wav_content]: [None] is [return false]; [Some (pcmf32, pcmf32s)]
    is [return true] with the two output vectors (the callers pass them
    empty, so an untouched [pcmf32s] is [[]]). *)
Definition read_wav_content (content : list byte) (stereo : bool)
  : option (list Q * list (list Q)) :=
  if List.length content <? 44 then None
  else
    let data := skipn 44 content in
    let num_samples := Nat.div (List.length content - 44) 2 in
    let pcmf32 := pcm16_samples data in
    let pcmf32s :=
      if stereo && (Nat.modulo num_samples 2 =? 0)
      then let (l, r) := deinterleave pcmf32 in [l; r]
      else [] in
    Some (pcmf32, pcmf32s).

(** [read_wav] on a file: [None] for a file that cannot be opened; the
    reading loop stops at the first incomplete sample, and [seekg(44)] past
    the end of a shorter file makes the first read fail. *)
Definition read_wav (file : option (list byte)) (stereo : bool)
  : option (list Q * list (list Q)) :=
  match file with
  | None => None
  | Some bytes =>
      let pcmf32 := pcm16_samples (skipn 44 bytes) in
      let pcmf32s :=
        if stereo && (Nat.modulo (List.length pcmf32) 2 =? 0)
        then let (l, r) := deinterleave pcmf32 in [l; r]
        else [] in
      Some (pcmf32, pcmf32s)
  end.

(** ** Strings: the [std::string] operations the server uses *)

Definition size_t_max : N := 18446744073709551615.

(** [std::string::npos]. *)
Definition npos : N := size_t_max.

(** Unsigned addition on [size_t]; [npos + 1] is [0]. *)
Definition size_t_add (a b : N) : N := ((a + b) mod (size_t_max + 1))%N.

Fixpoint mem_char (c : ascii) (chars : string) : bool :=
  match chars with
  | EmptyString => false
  | String d rest => Ascii.eqb c d || mem_char c rest
  end.

(** [s.find_first_not_of(chars)]: the index of the first character of [s]
    that is not in [chars], [npos] when there is none. *)
Fixpoint find_first_not_of_from (i : N) (s chars : string) : N :=
  match s with
  | EmptyString => npos
  | String c rest =>
      if mem_char c chars then find_first_not_of_from (N.succ i) rest chars
      else i
  end.

Definition find_first_not_of (s chars : string) : N :=
  find_first_not_of_from 0 s chars.

(** [s.find_last_not_of(chars)]: the index of the last such character. *)
Fixpoint find_last_not_of_from (i : N) (s chars : string) : N :=
  match s with
  | EmptyString => npos
  | String c rest =>
      let later := find_last_not_of_from (N.succ i) rest chars in
      if (later =? npos)%N
      then (if mem_char c chars then npos else i)
      else later
  end.

Definition find_last_not_of (s chars : string) : N :=
  find_last_not_of_from 0 s chars.

Fixpoint string_firstn (n : nat) (s : string) : string :=
  match n, s with
  | S n', String c rest => String c (string_firstn n' rest)
  | _, _ => EmptyString
  end.

Fixpoint string_skipn (n : nat) (s : string) : string :=
  match n, s with
  | S n', String _ rest => string_skipn n' rest
  | _, _ => s
  end.

(** [s.erase(pos, len)]: removes [min(len, size - pos)] characters from
    [pos]; [None] is the [std::out_of_range] thrown when [pos > size]. *)
Definition erase (s : string) (pos len : N) : option string :=
  let size := N.of_nat (String.length s) in
  if (size <? pos)%N then None
  else
    let n := N.min len (size - pos) in
    Some (String.append (string_firstn (N.to_nat pos) s)
                        (string_skipn (N.to_nat (pos + n)) s)).

Definition parse_str_to_bool (s : string) : bool :=
  String.eqb s "true" || String.eqb s "1" || String.eqb s "yes"
  || String.eqb s "y".

(** *** [std::stoi] *)

(** [isspace] in the C locale. *)
Definition isspace (c : ascii) : bool :=
  let n := nat_of_ascii c in
  Nat.eqb n 32 || (Nat.leb 9 n && Nat.leb n 13).

Definition digit_value (c : ascii) : option Z :=
  let n := nat_of_ascii c in
  if Nat.leb 48 n && Nat.leb n 57 then Some (Z.of_nat (n - 48)) else None.

Fixpoint skip_spaces (s : string) : string :=
  match s with
  | String c rest => if isspace c then skip_spaces rest else s
  | EmptyString => s
  end.

(** The value of the longest prefix of decimal digits, [None] when the
    prefix is empty. *)
Fixpoint digits_prefix (acc : option Z) (s : string) : option Z :=
  match s with
  | String c rest =>
      match digit_value c with
      | Some d =>
          digits_prefix
            (Some (10 * match acc with Some a => a | None => 0 end + d)%Z) rest
      | None => acc
      end
  | EmptyString => acc
  end.

Definition INT_MIN : Z := -2147483648.
Definition INT_MAX : Z := 2147483647.

(** [std::stoi(s)]: leading white space, an optional sign, decimal digits;
    what follows the digits is ignored.  [None] is a thrown exception:
    [std::invalid_argument] when there is no digit to convert,
    [std::out_of_range] when the value does not fit [int]. *)
Definition stoi (s : string) : option Z :=
  let s1 := skip_spaces s in
  let '(negative, s2) :=
    match s1 with
    | String "-" rest => (true, rest)
    | String "+" rest => (false, rest)
    | _ => (false, s1)
    end in
  match digits_prefix None s2 with
  | None => None
  | Some v =>
      let v := if negative then (- v)%Z else v in
      if (INT_MIN <=? v)%Z && (v <=? INT_MAX)%Z then Some v else None
  end.

(** Conversion of a [float] to [int]: truncation toward zero. *)
Definition float_to_int (x : Q) : Z := Z.quot (Qnum x) (Zpos (Qden x)).

(** Decimal text of an integer, as [operator<<] and [%d] print it. *)
Definition string_of_Z (z : Z) : string :=
  NilZero.string_of_int (Z.to_int z).

(** ** JSON values *)

(** A body that is JSON text is kept as the value it denotes, whether the
    source writes it as a string literal or builds it and calls [dump].
    Object members are in insertion order ([nlohmann::ordered_json]). *)
Inductive json : Type :=
| JNull
| JBool (b : bool)
| JInt (n : Z)
| JFloat (x : Q)
| JStr (s : string)
| JArr (items : list json)
| JObj (members : list (string * json)).

Inductive content_body : Type :=
| text_body (s : string)
| json_body (j : json).

Record Response : Type := {
  body : content_body;
  content_type : string
}.

Definition set_content (b : content_body) (type : string) : Response :=
  {| body := b; content_type := type |}.

Definition error_json (message : string) : json :=
  JObj [("error", JStr message)].

(** *** [dump] with the strict error handler *)

Definition byte_in (lo hi : N) (c : ascii) : bool :=
  (lo <=? N_of_ascii c)%N && (N_of_ascii c <=? hi)%N.

(** The second byte of a sequence of three: [E0] excludes the overlong
    forms, [ED] the surrogates. *)
Definition second_of_three (lead c : ascii) : bool :=
  if byte_in 224 224 lead then byte_in 160 191 c
  else if byte_in 237 237 lead then byte_in 128 159 c
  else byte_in 128 191 c.

(** The second byte of a sequence of four: [F0] excludes the overlong
    forms, [F4] the code points above [10FFFF]. *)
Definition second_of_four (lead c : ascii) : bool :=
  if byte_in 240 240 lead then byte_in 144 191 c
  else if byte_in 244 244 lead then byte_in 128 143 c
  else byte_in 128 191 c.

(** The strings the UTF-8 decoder of the JSON serializer accepts: complete
    well-formed sequences of one to four bytes, with the lead bytes [00-7F],
    [C2-DF], [E0-EF] and [F0-F4]. *)
Fixpoint utf8_valid (s : string) : bool :=
  match s with
  | EmptyString => true
  | String c0 rest0 =>
      if byte_in 0 127 c0 then utf8_valid rest0
      else
        match rest0 with
        | EmptyString => false
        | String c1 rest1 =>
            if byte_in 194 223 c0
            then byte_in 128 191 c1 && utf8_valid rest1
            else
              match rest1 with
              | EmptyString => false
              | String c2 rest2 =>
                  if byte_in 224 239 c0
                  then second_of_three c0 c1 && byte_in 128 191 c2
                       && utf8_valid rest2
                  else
                    match rest2 with
                    | EmptyString => false
                    | String c3 rest3 =>
                        byte_in 240 244 c0 && second_of_four c0 c1
                        && byte_in 128 191 c2 && byte_in 128 191 c3
                        && utf8_valid rest3
                    end
              end
        end
  end.

(** [j.dump()] with its default arguments returns: every string and every
    key of the value is valid UTF-8.  Otherwise [dump] throws a
    [json::type_error]; the handlers that call
    [dump(-1, ' ', false, json::error_handler_t::replace)] never meet that
    exception. *)
Fixpoint dump_accepts (j : json) : bool :=
  match j with
  | JStr s => utf8_valid s
  | JArr items => forallb dump_accepts items
  | JObj members =>
      forallb (fun member => utf8_valid (fst member)
                             && dump_accepts (snd member)) members
  | _ => true
  end.

(** ** Parameter blocks *)

(** Output formats. *)
Definition json_format : string := "json".
Definition text_format : string := "text".
Definition srt_format : string := "srt".
Definition vjson_format : string := "verbose_json".
Definition vtt_format : string := "vtt".

Record server_params : Type := {
  hostname : string;
  public_path : string;
  request_path : string;
  inference_path : string;
  port : Z;
  read_timeout : Z;
  write_timeout : Z;
  ffmpeg_converter : bool
}.

Record whisper_params : Type := {
  n_threads : Z;
  n_processors : Z;
  offset_t_ms : Z;
  offset_n : Z;
  duration_ms : Z;
  progress_step : Z;
  max_context : Z;
  max_len : Z;
  best_of : Z;
  beam_size : Z;
  audio_ctx : Z;
  word_thold : Q;
  entropy_thold : Q;
  logprob_thold : Q;
  temperature : Q;
  temperature_inc : Q;
  no_speech_thold : Q;
  debug_mode : bool;
  translate : bool;
  detect_language : bool;
  diarize : bool;
  tinydiarize : bool;
  split_on_word : bool;
  no_fallback : bool;
  print_special : bool;
  print_colors : bool;
  print_realtime : bool;
  print_progress : bool;
  no_timestamps : bool;
  use_gpu : bool;
  flash_attn : bool;
  suppress_nst : bool;
  language : string;
  prompt : string;
  font_path : string;
  model : string;
  response_format : string;
  tdrz_speaker_turn : string;
  openvino_encode_device : string;
  dtw : string
}.

(** Assignment to one member, [params.f = v]; every other member is kept. *)
Definition set_offset_t_ms (v : Z) (p : whisper_params) : whisper_params :=
  {| n_threads := p.(n_threads); n_processors := p.(n_processors);
     offset_t_ms := v; offset_n := p.(offset_n);
     duration_ms := p.(duration_ms); progress_step := p.(progress_step);
     max_context := p.(max_context); max_len := p.(max_len);
     best_of := p.(best_of); beam_size := p.(beam_size);
     audio_ctx := p.(audio_ctx); word_thold := p.(word_thold);
     entropy_thold := p.(entropy_thold); logprob_thold := p.(logprob_thold);
     temperature := p.(temperature); temperature_inc := p.(temperature_inc);
     no_speech_thold := p.(no_speech_thold); debug_mode := p.(debug_mode);
     translate := p.(translate); detect_language := p.(detect_language);
     diarize := p.(diarize); tinydiarize := p.(tinydiarize);
     split_on_word := p.(split_on_word); no_fallback := p.(no_fallback);
     print_special := p.(print_special); print_colors := p.(print_colors);
     print_realtime := p.(print_realtime);
     print_progress := p.(print_progress);
     no_timestamps := p.(no_timestamps); use_gpu := p.(use_gpu);
     flash_attn := p.(flash_attn); suppress_nst := p.(suppress_nst);
     language := p.(language); prompt := p.(prompt);
     font_path := p.(font_path); model := p.(model);
     response_format := p.(response_format);
     tdrz_speaker_turn := p.(tdrz_speaker_turn);
     openvino_encode_device := p.(openvino_encode_device); dtw := p.(dtw) |}.

Definition set_offset_n (v : Z) (p : whisper_params) : whisper_params :=
  {| n_threads := p.(n_threads); n_processors := p.(n_processors);
     offset_t_ms := p.(offset_t_ms); offset_n := v;
     duration_ms := p.(duration_ms); progress_step := p.(progress_step);
     max_context := p.(max_context); max_len := p.(max_len);
     best_of := p.(best_of); beam_size := p.(beam_size);
     audio_ctx := p.(audio_ctx); word_thold := p.(word_thold);
     entropy_thold := p.(entropy_thold); logprob_thold := p.(logprob_thold);
     temperature := p.(temperature); temperature_inc := p.(temperature_inc);
     no_speech_thold := p.(no_speech_thold); debug_mode := p.(debug_mode);
     translate := p.(translate); detect_language := p.(detect_language);
     diarize := p.(diarize); tinydiarize := p.(tinydiarize);
     split_on_word := p.(split_on_word); no_fallback := p.(no_fallback);
     print_special := p.(print_special); print_colors := p.(print_colors);
     print_realtime := p.(print_realtime);
     print_progress := p.(print_progress);
     no_timestamps := p.(no_timestamps); use_gpu := p.(use_gpu);
     flash_attn := p.(flash_attn); suppress_nst := p.(suppress_nst);
     language := p.(language); prompt := p.(prompt);
     font_path := p.(font_path); model := p.(model);
     response_format := p.(response_format);
     tdrz_speaker_turn := p.(tdrz_speaker_turn);
     openvino_encode_device := p.(openvino_encode_device); dtw := p.(dtw) |}.

Definition set_duration_ms (v : Z) (p : whisper_params) : whisper_params :=
  {| n_threads := p.(n_threads); n_processors := p.(n_processors);
     offset_t_ms := p.(offset_t_ms); offset_n := p.(offset_n);
     duration_ms := v; progress_step := p.(progress_step);
     max_context := p.(max_context); max_len := p.(max_len);
     best_of := p.(best_of); beam_size := p.(beam_size);
     audio_ctx := p.(audio_ctx); word_thold := p.(word_thold);
     entropy_thold := p.(entropy_thold); logprob_thold := p.(logprob_thold);
     temperature := p.(temperature); temperature_inc := p.(temperature_inc);
     no_speech_thold := p.(no_speech_thold); debug_mode := p.(debug_mode);
     translate := p.(translate); detect_language := p.(detect_language);
     diarize := p.(diarize); tinydiarize := p.(tinydiarize);
     split_on_word := p.(split_on_word); no_fallback := p.(no_fallback);
     print_special := p.(print_special); print_colors := p.(print_colors);
     print_realtime := p.(print_realtime);
     print_progress := p.(print_progress);
     no_timestamps := p.(no_timestamps); use_gpu := p.(use_gpu);
     flash_attn := p.(flash_attn); suppress_nst := p.(suppress_nst);
     language := p.(language); prompt := p.(prompt);
     font_path := p.(font_path); model := p.(model);
     response_format := p.(response_format);
     tdrz_speaker_turn := p.(tdrz_speaker_turn);
     openvino_encode_device := p.(openvino_encode_device); dtw := p.(dtw) |}.

Definition set_max_context (v : Z) (p : whisper_params) : whisper_params :=
  {| n_threads := p.(n_threads); n_processors := p.(n_processors);
     offset_t_ms := p.(offset_t_ms); offset_n := p.(offset_n);
     duration_ms := p.(duration_ms); progress_step := p.(progress_step);
     max_context := v; max_len := p.(max_len); best_of := p.(best_of);
     beam_size := p.(beam_size); audio_ctx := p.(audio_ctx);
     word_thold := p.(word_thold); entropy_thold := p.(entropy_thold);
     logprob_thold := p.(logprob_thold); temperature := p.(temperature);
     temperature_inc := p.(temperature_inc);
     no_speech_thold := p.(no_speech_thold); debug_mode := p.(debug_mode);
     translate := p.(translate); detect_language := p.(detect_language);
     diarize := p.(diarize); tinydiarize := p.(tinydiarize);
     split_on_word := p.(split_on_word); no_fallback := p.(no_fallback);
     print_special := p.(print_special); print_colors := p.(print_colors);
     print_realtime := p.(print_realtime);
     print_progress := p.(print_progress);
     no_timestamps := p.(no_timestamps); use_gpu := p.(use_gpu);
     flash_attn := p.(flash_attn); suppress_nst := p.(suppress_nst);
     language := p.(language); prompt := p.(prompt);
     font_path := p.(font_path); model := p.(model);
     response_format := p.(response_format);
     tdrz_speaker_turn := p.(tdrz_speaker_turn);
     openvino_encode_device := p.(openvino_encode_device); dtw := p.(dtw) |}.

Definition set_max_len (v : Z) (p : whisper_params) : whisper_params :=
  {| n_threads := p.(n_threads); n_processors := p.(n_processors);
     offset_t_ms := p.(offset_t_ms); offset_n := p.(offset_n);
     duration_ms := p.(duration_ms); progress_step := p.(progress_step);
     max_context := p.(max_context); max_len := v; best_of := p.(best_of);
     beam_size := p.(beam_size); audio_ctx := p.(audio_ctx);
     word_thold := p.(word_thold); entropy_thold := p.(entropy_thold);
     logprob_thold := p.(logprob_thold); temperature := p.(temperature);
     temperature_inc := p.(temperature_inc);
     no_speech_thold := p.(no_speech_thold); debug_mode := p.(debug_mode);
     translate := p.(translate); detect_language := p.(detect_language);
     diarize := p.(diarize); tinydiarize := p.(tinydiarize);
     split_on_word := p.(split_on_word); no_fallback := p.(no_fallback);
     print_special := p.(print_special); print_colors := p.(print_colors);
     print_realtime := p.(print_realtime);
     print_progress := p.(print_progress);
     no_timestamps := p.(no_timestamps); use_gpu := p.(use_gpu);
     flash_attn := p.(flash_attn); suppress_nst := p.(suppress_nst);
     language := p.(language); prompt := p.(prompt);
     font_path := p.(font_path); model := p.(model);
     response_format := p.(response_format);
     tdrz_speaker_turn := p.(tdrz_speaker_turn);
     openvino_encode_device := p.(openvino_encode_device); dtw := p.(dtw) |}.

Definition set_best_of (v : Z) (p : whisper_params) : whisper_params :=
  {| n_threads := p.(n_threads); n_processors := p.(n_processors);
     offset_t_ms := p.(offset_t_ms); offset_n := p.(offset_n);
     duration_ms := p.(duration_ms); progress_step := p.(progress_step);
     max_context := p.(max_context); max_len := p.(max_len); best_of := v;
     beam_size := p.(beam_size); audio_ctx := p.(audio_ctx);
     word_thold := p.(word_thold); entropy_thold := p.(entropy_thold);
     logprob_thold := p.(logprob_thold); temperature := p.(temperature);
     temperature_inc := p.(temperature_inc);
     no_speech_thold := p.(no_speech_thold); debug_mode := p.(debug_mode);
     translate := p.(translate); detect_language := p.(detect_language);
     diarize := p.(diarize); tinydiarize := p.(tinydiarize);
     split_on_word := p.(split_on_word); no_fallback := p.(no_fallback);
     print_special := p.(print_special); print_colors := p.(print_colors);
     print_realtime := p.(print_realtime);
     print_progress := p.(print_progress);
     no_timestamps := p.(no_timestamps); use_gpu := p.(use_gpu);
     flash_attn := p.(flash_attn); suppress_nst := p.(suppress_nst);
     language := p.(language); prompt := p.(prompt);
     font_path := p.(font_path); model := p.(model);
     response_format := p.(response_format);
     tdrz_speaker_turn := p.(tdrz_speaker_turn);
     openvino_encode_device := p.(openvino_encode_device); dtw := p.(dtw) |}.

Definition set_beam_size (v : Z) (p : whisper_params) : whisper_params :=
  {| n_threads := p.(n_threads); n_processors := p.(n_processors);
     offset_t_ms := p.(offset_t_ms); offset_n := p.(offset_n);
     duration_ms := p.(duration_ms); progress_step := p.(progress_step);
     max_context := p.(max_context); max_len := p.(max_len);
     best_of := p.(best_of); beam_size := v; audio_ctx := p.(audio_ctx);
     word_thold := p.(word_thold); entropy_thold := p.(entropy_thold);
     logprob_thold := p.(logprob_thold); temperature := p.(temperature);
     temperature_inc := p.(temperature_inc);
     no_speech_thold := p.(no_speech_thold); debug_mode := p.(debug_mode);
     translate := p.(translate); detect_language := p.(detect_language);
     diarize := p.(diarize); tinydiarize := p.(tinydiarize);
     split_on_word := p.(split_on_word); no_fallback := p.(no_fallback);
     print_special := p.(print_special); print_colors := p.(print_colors);
     print_realtime := p.(print_realtime);
     print_progress := p.(print_progress);
     no_timestamps := p.(no_timestamps); use_gpu := p.(use_gpu);
     flash_attn := p.(flash_attn); suppress_nst := p.(suppress_nst);
     language := p.(language); prompt := p.(prompt);
     font_path := p.(font_path); model := p.(model);
     response_format := p.(response_format);
     tdrz_speaker_turn := p.(tdrz_speaker_turn);
     openvino_encode_device := p.(openvino_encode_device); dtw := p.(dtw) |}.

Definition set_audio_ctx (v : Z) (p : whisper_params) : whisper_params :=
  {| n_threads := p.(n_threads); n_processors := p.(n_processors);
     offset_t_ms := p.(offset_t_ms); offset_n := p.(offset_n);
     duration_ms := p.(duration_ms); progress_step := p.(progress_step);
     max_context := p.(max_context); max_len := p.(max_len);
     best_of := p.(best_of); beam_size := p.(beam_size); audio_ctx := v;
     word_thold := p.(word_thold); entropy_thold := p.(entropy_thold);
     logprob_thold := p.(logprob_thold); temperature := p.(temperature);
     temperature_inc := p.(temperature_inc);
     no_speech_thold := p.(no_speech_thold); debug_mode := p.(debug_mode);
     translate := p.(translate); detect_language := p.(detect_language);
     diarize := p.(diarize); tinydiarize := p.(tinydiarize);
     split_on_word := p.(split_on_word); no_fallback := p.(no_fallback);
     print_special := p.(print_special); print_colors := p.(print_colors);
     print_realtime := p.(print_realtime);
     print_progress := p.(print_progress);
     no_timestamps := p.(no_timestamps); use_gpu := p.(use_gpu);
     flash_attn := p.(flash_attn); suppress_nst := p.(suppress_nst);
     language := p.(language); prompt := p.(prompt);
     font_path := p.(font_path); model := p.(model);
     response_format := p.(response_format);
     tdrz_speaker_turn := p.(tdrz_speaker_turn);
     openvino_encode_device := p.(openvino_encode_device); dtw := p.(dtw) |}.

Definition set_word_thold (v : Q) (p : whisper_params) : whisper_params :=
  {| n_threads := p.(n_threads); n_processors := p.(n_processors);
     offset_t_ms := p.(offset_t_ms); offset_n := p.(offset_n);
     duration_ms := p.(duration_ms); progress_step := p.(progress_step);
     max_context := p.(max_context); max_len := p.(max_len);
     best_of := p.(best_of); beam_size := p.(beam_size);
     audio_ctx := p.(audio_ctx); word_thold := v;
     entropy_thold := p.(entropy_thold); logprob_thold := p.(logprob_thold);
     temperature := p.(temperature); temperature_inc := p.(temperature_inc);
     no_speech_thold := p.(no_speech_thold); debug_mode := p.(debug_mode);
     translate := p.(translate); detect_language := p.(detect_language);
     diarize := p.(diarize); tinydiarize := p.(tinydiarize);
     split_on_word := p.(split_on_word); no_fallback := p.(no_fallback);
     print_special := p.(print_special); print_colors := p.(print_colors);
     print_realtime := p.(print_realtime);
     print_progress := p.(print_progress);
     no_timestamps := p.(no_timestamps); use_gpu := p.(use_gpu);
     flash_attn := p.(flash_attn); suppress_nst := p.(suppress_nst);
     language := p.(language); prompt := p.(prompt);
     font_path := p.(font_path); model := p.(model);
     response_format := p.(response_format);
     tdrz_speaker_turn := p.(tdrz_speaker_turn);
     openvino_encode_device := p.(openvino_encode_device); dtw := p.(dtw) |}.

Definition set_entropy_thold (v : Q) (p : whisper_params) : whisper_params :=
  {| n_threads := p.(n_threads); n_processors := p.(n_processors);
     offset_t_ms := p.(offset_t_ms); offset_n := p.(offset_n);
     duration_ms := p.(duration_ms); progress_step := p.(progress_step);
     max_context := p.(max_context); max_len := p.(max_len);
     best_of := p.(best_of); beam_size := p.(beam_size);
     audio_ctx := p.(audio_ctx); word_thold := p.(word_thold);
     entropy_thold := v; logprob_thold := p.(logprob_thold);
     temperature := p.(temperature); temperature_inc := p.(temperature_inc);
     no_speech_thold := p.(no_speech_thold); debug_mode := p.(debug_mode);
     translate := p.(translate); detect_language := p.(detect_language);
     diarize := p.(diarize); tinydiarize := p.(tinydiarize);
     split_on_word := p.(split_on_word); no_fallback := p.(no_fallback);
     print_special := p.(print_special); print_colors := p.(print_colors);
     print_realtime := p.(print_realtime);
     print_progress := p.(print_progress);
     no_timestamps := p.(no_timestamps); use_gpu := p.(use_gpu);
     flash_attn := p.(flash_attn); suppress_nst := p.(suppress_nst);
     language := p.(language); prompt := p.(prompt);
     font_path := p.(font_path); model := p.(model);
     response_format := p.(response_format);
     tdrz_speaker_turn := p.(tdrz_speaker_turn);
     openvino_encode_device := p.(openvino_encode_device); dtw := p.(dtw) |}.

Definition set_logprob_thold (v : Q) (p : whisper_params) : whisper_params :=
  {| n_threads := p.(n_threads); n_processors := p.(n_processors);
     offset_t_ms := p.(offset_t_ms); offset_n := p.(offset_n);
     duration_ms := p.(duration_ms); progress_step := p.(progress_step);
     max_context := p.(max_context); max_len := p.(max_len);
     best_of := p.(best_of); beam_size := p.(beam_size);
     audio_ctx := p.(audio_ctx); word_thold := p.(word_thold);
     entropy_thold := p.(entropy_thold); logprob_thold := v;
     temperature := p.(temperature); temperature_inc := p.(temperature_inc);
     no_speech_thold := p.(no_speech_thold); debug_mode := p.(debug_mode);
     translate := p.(translate); detect_language := p.(detect_language);
     diarize := p.(diarize); tinydiarize := p.(tinydiarize);
     split_on_word := p.(split_on_word); no_fallback := p.(no_fallback);
     print_special := p.(print_special); print_colors := p.(print_colors);
     print_realtime := p.(print_realtime);
     print_progress := p.(print_progress);
     no_timestamps := p.(no_timestamps); use_gpu := p.(use_gpu);
     flash_attn := p.(flash_attn); suppress_nst := p.(suppress_nst);
     language := p.(language); prompt := p.(prompt);
     font_path := p.(font_path); model := p.(model);
     response_format := p.(response_format);
     tdrz_speaker_turn := p.(tdrz_speaker_turn);
     openvino_encode_device := p.(openvino_encode_device); dtw := p.(dtw) |}.

Definition set_debug_mode (v : bool) (p : whisper_params) : whisper_params :=
  {| n_threads := p.(n_threads); n_processors := p.(n_processors);
     offset_t_ms := p.(offset_t_ms); offset_n := p.(offset_n);
     duration_ms := p.(duration_ms); progress_step := p.(progress_step);
     max_context := p.(max_context); max_len := p.(max_len);
     best_of := p.(best_of); beam_size := p.(beam_size);
     audio_ctx := p.(audio_ctx); word_thold := p.(word_thold);
     entropy_thold := p.(entropy_thold); logprob_thold := p.(logprob_thold);
     temperature := p.(temperature); temperature_inc := p.(temperature_inc);
     no_speech_thold := p.(no_speech_thold); debug_mode := v;
     translate := p.(translate); detect_language := p.(detect_language);
     diarize := p.(diarize); tinydiarize := p.(tinydiarize);
     split_on_word := p.(split_on_word); no_fallback := p.(no_fallback);
     print_special := p.(print_special); print_colors := p.(print_colors);
     print_realtime := p.(print_realtime);
     print_progress := p.(print_progress);
     no_timestamps := p.(no_timestamps); use_gpu := p.(use_gpu);
     flash_attn := p.(flash_attn); suppress_nst := p.(suppress_nst);
     language := p.(language); prompt := p.(prompt);
     font_path := p.(font_path); model := p.(model);
     response_format := p.(response_format);
     tdrz_speaker_turn := p.(tdrz_speaker_turn);
     openvino_encode_device := p.(openvino_encode_device); dtw := p.(dtw) |}.

Definition set_translate (v : bool) (p : whisper_params) : whisper_params :=
  {| n_threads := p.(n_threads); n_processors := p.(n_processors);
     offset_t_ms := p.(offset_t_ms); offset_n := p.(offset_n);
     duration_ms := p.(duration_ms); progress_step := p.(progress_step);
     max_context := p.(max_context); max_len := p.(max_len);
     best_of := p.(best_of); beam_size := p.(beam_size);
     audio_ctx := p.(audio_ctx); word_thold := p.(word_thold);
     entropy_thold := p.(entropy_thold); logprob_thold := p.(logprob_thold);
     temperature := p.(temperature); temperature_inc := p.(temperature_inc);
     no_speech_thold := p.(no_speech_thold); debug_mode := p.(debug_mode);
     translate := v; detect_language := p.(detect_language);
     diarize := p.(diarize); tinydiarize := p.(tinydiarize);
     split_on_word := p.(split_on_word); no_fallback := p.(no_fallback);
     print_special := p.(print_special); print_colors := p.(print_colors);
     print_realtime := p.(print_realtime);
     print_progress := p.(print_progress);
     no_timestamps := p.(no_timestamps); use_gpu := p.(use_gpu);
     flash_attn := p.(flash_attn); suppress_nst := p.(suppress_nst);
     language := p.(language); prompt := p.(prompt);
     font_path := p.(font_path); model := p.(model);
     response_format := p.(response_format);
     tdrz_speaker_turn := p.(tdrz_speaker_turn);
     openvino_encode_device := p.(openvino_encode_device); dtw := p.(dtw) |}.

Definition set_diarize (v : bool) (p : whisper_params) : whisper_params :=
  {| n_threads := p.(n_threads); n_processors := p.(n_processors);
     offset_t_ms := p.(offset_t_ms); offset_n := p.(offset_n);
     duration_ms := p.(duration_ms); progress_step := p.(progress_step);
     max_context := p.(max_context); max_len := p.(max_len);
     best_of := p.(best_of); beam_size := p.(beam_size);
     audio_ctx := p.(audio_ctx); word_thold := p.(word_thold);
     entropy_thold := p.(entropy_thold); logprob_thold := p.(logprob_thold);
     temperature := p.(temperature); temperature_inc := p.(temperature_inc);
     no_speech_thold := p.(no_speech_thold); debug_mode := p.(debug_mode);
     translate := p.(translate); detect_language := p.(detect_language);
     diarize := v; tinydiarize := p.(tinydiarize);
     split_on_word := p.(split_on_word); no_fallback := p.(no_fallback);
     print_special := p.(print_special); print_colors := p.(print_colors);
     print_realtime := p.(print_realtime);
     print_progress := p.(print_progress);
     no_timestamps := p.(no_timestamps); use_gpu := p.(use_gpu);
     flash_attn := p.(flash_attn); suppress_nst := p.(suppress_nst);
     language := p.(language); prompt := p.(prompt);
     font_path := p.(font_path); model := p.(model);
     response_format := p.(response_format);
     tdrz_speaker_turn := p.(tdrz_speaker_turn);
     openvino_encode_device := p.(openvino_encode_device); dtw := p.(dtw) |}.

Definition set_tinydiarize (v : bool) (p : whisper_params) : whisper_params :=
  {| n_threads := p.(n_threads); n_processors := p.(n_processors);
     offset_t_ms := p.(offset_t_ms); offset_n := p.(offset_n);
     duration_ms := p.(duration_ms); progress_step := p.(progress_step);
     max_context := p.(max_context); max_len := p.(max_len);
     best_of := p.(best_of); beam_size := p.(beam_size);
     audio_ctx := p.(audio_ctx); word_thold := p.(word_thold);
     entropy_thold := p.(entropy_thold); logprob_thold := p.(logprob_thold);
     temperature := p.(temperature); temperature_inc := p.(temperature_inc);
     no_speech_thold := p.(no_speech_thold); debug_mode := p.(debug_mode);
     translate := p.(translate); detect_language := p.(detect_language);
     diarize := p.(diarize); tinydiarize := v;
     split_on_word := p.(split_on_word); no_fallback := p.(no_fallback);
     print_special := p.(print_special); print_colors := p.(print_colors);
     print_realtime := p.(print_realtime);
     print_progress := p.(print_progress);
     no_timestamps := p.(no_timestamps); use_gpu := p.(use_gpu);
     flash_attn := p.(flash_attn); suppress_nst := p.(suppress_nst);
     language := p.(language); prompt := p.(prompt);
     font_path := p.(font_path); model := p.(model);
     response_format := p.(response_format);
     tdrz_speaker_turn := p.(tdrz_speaker_turn);
     openvino_encode_device := p.(openvino_encode_device); dtw := p.(dtw) |}.

Definition set_split_on_word (v : bool) (p : whisper_params) : whisper_params :=
  {| n_threads := p.(n_threads); n_processors := p.(n_processors);
     offset_t_ms := p.(offset_t_ms); offset_n := p.(offset_n);
     duration_ms := p.(duration_ms); progress_step := p.(progress_step);
     max_context := p.(max_context); max_len := p.(max_len);
     best_of := p.(best_of); beam_size := p.(beam_size);
     audio_ctx := p.(audio_ctx); word_thold := p.(word_thold);
     entropy_thold := p.(entropy_thold); logprob_thold := p.(logprob_thold);
     temperature := p.(temperature); temperature_inc := p.(temperature_inc);
     no_speech_thold := p.(no_speech_thold); debug_mode := p.(debug_mode);
     translate := p.(translate); detect_language := p.(detect_language);
     diarize := p.(diarize); tinydiarize := p.(tinydiarize);
     split_on_word := v; no_fallback := p.(no_fallback);
     print_special := p.(print_special); print_colors := p.(print_colors);
     print_realtime := p.(print_realtime);
     print_progress := p.(print_progress);
     no_timestamps := p.(no_timestamps); use_gpu := p.(use_gpu);
     flash_attn := p.(flash_attn); suppress_nst := p.(suppress_nst);
     language := p.(language); prompt := p.(prompt);
     font_path := p.(font_path); model := p.(model);
     response_format := p.(response_format);
     tdrz_speaker_turn := p.(tdrz_speaker_turn);
     openvino_encode_device := p.(openvino_encode_device); dtw := p.(dtw) |}.

Definition set_no_timestamps (v : bool) (p : whisper_params) : whisper_params :=
  {| n_threads := p.(n_threads); n_processors := p.(n_processors);
     offset_t_ms := p.(offset_t_ms); offset_n := p.(offset_n);
     duration_ms := p.(duration_ms); progress_step := p.(progress_step);
     max_context := p.(max_context); max_len := p.(max_len);
     best_of := p.(best_of); beam_size := p.(beam_size);
     audio_ctx := p.(audio_ctx); word_thold := p.(word_thold);
     entropy_thold := p.(entropy_thold); logprob_thold := p.(logprob_thold);
     temperature := p.(temperature); temperature_inc := p.(temperature_inc);
     no_speech_thold := p.(no_speech_thold); debug_mode := p.(debug_mode);
     translate := p.(translate); detect_language := p.(detect_language);
     diarize := p.(diarize); tinydiarize := p.(tinydiarize);
     split_on_word := p.(split_on_word); no_fallback := p.(no_fallback);
     print_special := p.(print_special); print_colors := p.(print_colors);
     print_realtime := p.(print_realtime);
     print_progress := p.(print_progress); no_timestamps := v;
     use_gpu := p.(use_gpu); flash_attn := p.(flash_attn);
     suppress_nst := p.(suppress_nst); language := p.(language);
     prompt := p.(prompt); font_path := p.(font_path); model := p.(model);
     response_format := p.(response_format);
     tdrz_speaker_turn := p.(tdrz_speaker_turn);
     openvino_encode_device := p.(openvino_encode_device); dtw := p.(dtw) |}.

Definition set_language (v : string) (p : whisper_params) : whisper_params :=
  {| n_threads := p.(n_threads); n_processors := p.(n_processors);
     offset_t_ms := p.(offset_t_ms); offset_n := p.(offset_n);
     duration_ms := p.(duration_ms); progress_step := p.(progress_step);
     max_context := p.(max_context); max_len := p.(max_len);
     best_of := p.(best_of); beam_size := p.(beam_size);
     audio_ctx := p.(audio_ctx); word_thold := p.(word_thold);
     entropy_thold := p.(entropy_thold); logprob_thold := p.(logprob_thold);
     temperature := p.(temperature); temperature_inc := p.(temperature_inc);
     no_speech_thold := p.(no_speech_thold); debug_mode := p.(debug_mode);
     translate := p.(translate); detect_language := p.(detect_language);
     diarize := p.(diarize); tinydiarize := p.(tinydiarize);
     split_on_word := p.(split_on_word); no_fallback := p.(no_fallback);
     print_special := p.(print_special); print_colors := p.(print_colors);
     print_realtime := p.(print_realtime);
     print_progress := p.(print_progress);
     no_timestamps := p.(no_timestamps); use_gpu := p.(use_gpu);
     flash_attn := p.(flash_attn); suppress_nst := p.(suppress_nst);
     language := v; prompt := p.(prompt); font_path := p.(font_path);
     model := p.(model); response_format := p.(response_format);
     tdrz_speaker_turn := p.(tdrz_speaker_turn);
     openvino_encode_device := p.(openvino_encode_device); dtw := p.(dtw) |}.

Definition set_detect_language (v : bool) (p : whisper_params) : whisper_params :=
  {| n_threads := p.(n_threads); n_processors := p.(n_processors);
     offset_t_ms := p.(offset_t_ms); offset_n := p.(offset_n);
     duration_ms := p.(duration_ms); progress_step := p.(progress_step);
     max_context := p.(max_context); max_len := p.(max_len);
     best_of := p.(best_of); beam_size := p.(beam_size);
     audio_ctx := p.(audio_ctx); word_thold := p.(word_thold);
     entropy_thold := p.(entropy_thold); logprob_thold := p.(logprob_thold);
     temperature := p.(temperature); temperature_inc := p.(temperature_inc);
     no_speech_thold := p.(no_speech_thold); debug_mode := p.(debug_mode);
     translate := p.(translate); detect_language := v;
     diarize := p.(diarize); tinydiarize := p.(tinydiarize);
     split_on_word := p.(split_on_word); no_fallback := p.(no_fallback);
     print_special := p.(print_special); print_colors := p.(print_colors);
     print_realtime := p.(print_realtime);
     print_progress := p.(print_progress);
     no_timestamps := p.(no_timestamps); use_gpu := p.(use_gpu);
     flash_attn := p.(flash_attn); suppress_nst := p.(suppress_nst);
     language := p.(language); prompt := p.(prompt);
     font_path := p.(font_path); model := p.(model);
     response_format := p.(response_format);
     tdrz_speaker_turn := p.(tdrz_speaker_turn);
     openvino_encode_device := p.(openvino_encode_device); dtw := p.(dtw) |}.

Definition set_prompt (v : string) (p : whisper_params) : whisper_params :=
  {| n_threads := p.(n_threads); n_processors := p.(n_processors);
     offset_t_ms := p.(offset_t_ms); offset_n := p.(offset_n);
     duration_ms := p.(duration_ms); progress_step := p.(progress_step);
     max_context := p.(max_context); max_len := p.(max_len);
     best_of := p.(best_of); beam_size := p.(beam_size);
     audio_ctx := p.(audio_ctx); word_thold := p.(word_thold);
     entropy_thold := p.(entropy_thold); logprob_thold := p.(logprob_thold);
     temperature := p.(temperature); temperature_inc := p.(temperature_inc);
     no_speech_thold := p.(no_speech_thold); debug_mode := p.(debug_mode);
     translate := p.(translate); detect_language := p.(detect_language);
     diarize := p.(diarize); tinydiarize := p.(tinydiarize);
     split_on_word := p.(split_on_word); no_fallback := p.(no_fallback);
     print_special := p.(print_special); print_colors := p.(print_colors);
     print_realtime := p.(print_realtime);
     print_progress := p.(print_progress);
     no_timestamps := p.(no_timestamps); use_gpu := p.(use_gpu);
     flash_attn := p.(flash_attn); suppress_nst := p.(suppress_nst);
     language := p.(language); prompt := v; font_path := p.(font_path);
     model := p.(model); response_format := p.(response_format);
     tdrz_speaker_turn := p.(tdrz_speaker_turn);
     openvino_encode_device := p.(openvino_encode_device); dtw := p.(dtw) |}.

Definition set_response_format (v : string) (p : whisper_params) : whisper_params :=
  {| n_threads := p.(n_threads); n_processors := p.(n_processors);
     offset_t_ms := p.(offset_t_ms); offset_n := p.(offset_n);
     duration_ms := p.(duration_ms); progress_step := p.(progress_step);
     max_context := p.(max_context); max_len := p.(max_len);
     best_of := p.(best_of); beam_size := p.(beam_size);
     audio_ctx := p.(audio_ctx); word_thold := p.(word_thold);
     entropy_thold := p.(entropy_thold); logprob_thold := p.(logprob_thold);
     temperature := p.(temperature); temperature_inc := p.(temperature_inc);
     no_speech_thold := p.(no_speech_thold); debug_mode := p.(debug_mode);
     translate := p.(translate); detect_language := p.(detect_language);
     diarize := p.(diarize); tinydiarize := p.(tinydiarize);
     split_on_word := p.(split_on_word); no_fallback := p.(no_fallback);
     print_special := p.(print_special); print_colors := p.(print_colors);
     print_realtime := p.(print_realtime);
     print_progress := p.(print_progress);
     no_timestamps := p.(no_timestamps); use_gpu := p.(use_gpu);
     flash_attn := p.(flash_attn); suppress_nst := p.(suppress_nst);
     language := p.(language); prompt := p.(prompt);
     font_path := p.(font_path); model := p.(model); response_format := v;
     tdrz_speaker_turn := p.(tdrz_speaker_turn);
     openvino_encode_device := p.(openvino_encode_device); dtw := p.(dtw) |}.

Definition set_temperature (v : Q) (p : whisper_params) : whisper_params :=
  {| n_threads := p.(n_threads); n_processors := p.(n_processors);
     offset_t_ms := p.(offset_t_ms); offset_n := p.(offset_n);
     duration_ms := p.(duration_ms); progress_step := p.(progress_step);
     max_context := p.(max_context); max_len := p.(max_len);
     best_of := p.(best_of); beam_size := p.(beam_size);
     audio_ctx := p.(audio_ctx); word_thold := p.(word_thold);
     entropy_thold := p.(entropy_thold); logprob_thold := p.(logprob_thold);
     temperature := v; temperature_inc := p.(temperature_inc);
     no_speech_thold := p.(no_speech_thold); debug_mode := p.(debug_mode);
     translate := p.(translate); detect_language := p.(detect_language);
     diarize := p.(diarize); tinydiarize := p.(tinydiarize);
     split_on_word := p.(split_on_word); no_fallback := p.(no_fallback);
     print_special := p.(print_special); print_colors := p.(print_colors);
     print_realtime := p.(print_realtime);
     print_progress := p.(print_progress);
     no_timestamps := p.(no_timestamps); use_gpu := p.(use_gpu);
     flash_attn := p.(flash_attn); suppress_nst := p.(suppress_nst);
     language := p.(language); prompt := p.(prompt);
     font_path := p.(font_path); model := p.(model);
     response_format := p.(response_format);
     tdrz_speaker_turn := p.(tdrz_speaker_turn);
     openvino_encode_device := p.(openvino_encode_device); dtw := p.(dtw) |}.

Definition set_temperature_inc (v : Q) (p : whisper_params) : whisper_params :=
  {| n_threads := p.(n_threads); n_processors := p.(n_processors);
     offset_t_ms := p.(offset_t_ms); offset_n := p.(offset_n);
     duration_ms := p.(duration_ms); progress_step := p.(progress_step);
     max_context := p.(max_context); max_len := p.(max_len);
     best_of := p.(best_of); beam_size := p.(beam_size);
     audio_ctx := p.(audio_ctx); word_thold := p.(word_thold);
     entropy_thold := p.(entropy_thold); logprob_thold := p.(logprob_thold);
     temperature := p.(temperature); temperature_inc := v;
     no_speech_thold := p.(no_speech_thold); debug_mode := p.(debug_mode);
     translate := p.(translate); detect_language := p.(detect_language);
     diarize := p.(diarize); tinydiarize := p.(tinydiarize);
     split_on_word := p.(split_on_word); no_fallback := p.(no_fallback);
     print_special := p.(print_special); print_colors := p.(print_colors);
     print_realtime := p.(print_realtime);
     print_progress := p.(print_progress);
     no_timestamps := p.(no_timestamps); use_gpu := p.(use_gpu);
     flash_attn := p.(flash_attn); suppress_nst := p.(suppress_nst);
     language := p.(language); prompt := p.(prompt);
     font_path := p.(font_path); model := p.(model);
     response_format := p.(response_format);
     tdrz_speaker_turn := p.(tdrz_speaker_turn);
     openvino_encode_device := p.(openvino_encode_device); dtw := p.(dtw) |}.

Definition set_suppress_nst (v : bool) (p : whisper_params) : whisper_params :=
  {| n_threads := p.(n_threads); n_processors := p.(n_processors);
     offset_t_ms := p.(offset_t_ms); offset_n := p.(offset_n);
     duration_ms := p.(duration_ms); progress_step := p.(progress_step);
     max_context := p.(max_context); max_len := p.(max_len);
     best_of := p.(best_of); beam_size := p.(beam_size);
     audio_ctx := p.(audio_ctx); word_thold := p.(word_thold);
     entropy_thold := p.(entropy_thold); logprob_thold := p.(logprob_thold);
     temperature := p.(temperature); temperature_inc := p.(temperature_inc);
     no_speech_thold := p.(no_speech_thold); debug_mode := p.(debug_mode);
     translate := p.(translate); detect_language := p.(detect_language);
     diarize := p.(diarize); tinydiarize := p.(tinydiarize);
     split_on_word := p.(split_on_word); no_fallback := p.(no_fallback);
     print_special := p.(print_special); print_colors := p.(print_colors);
     print_realtime := p.(print_realtime);
     print_progress := p.(print_progress);
     no_timestamps := p.(no_timestamps); use_gpu := p.(use_gpu);
     flash_attn := p.(flash_attn); suppress_nst := v;
     language := p.(language); prompt := p.(prompt);
     font_path := p.(font_path); model := p.(model);
     response_format := p.(response_format);
     tdrz_speaker_turn := p.(tdrz_speaker_turn);
     openvino_encode_device := p.(openvino_encode_device); dtw := p.(dtw) |}.

(** The member initialisers of [struct whisper_params]; [hw] is
    [std::thread::hardware_concurrency()].  Decimal float literals stand
    for the binary32 value nearest to them. *)
Definition whisper_params_init (hw : Z) : whisper_params :=
  {| n_threads := Z.min 4 hw; n_processors := 1; offset_t_ms := 0;
     offset_n := 0; duration_ms := 0; progress_step := 5;
     max_context := -1; max_len := 0; best_of := 2; beam_size := -1;
     audio_ctx := 0;
     word_thold := (1 # 100)%Q; entropy_thold := (24 # 10)%Q;
     logprob_thold := (-1)%Q; temperature := 0%Q;
     temperature_inc := (2 # 10)%Q; no_speech_thold := (6 # 10)%Q;
     debug_mode := false; translate := false; detect_language := false;
     diarize := true; tinydiarize := false; split_on_word := false;
     no_fallback := false; print_special := false; print_colors := false;
     print_realtime := false; print_progress := false;
     no_timestamps := false; use_gpu := true; flash_attn := false;
     suppress_nst := false;
     language := "en"; prompt := "";
     font_path := "/System/Library/Fonts/Supplemental/Courier New Bold.ttf";
     model := "models/ggml-base.en.bin"; response_format := json_format;
     tdrz_speaker_turn := " [SPEAKER_TURN]";
     openvino_encode_device := "CPU"; dtw := "" |}.

(** [struct hot_path_params]; several members share their names with
    [whisper_params], so the record has a name space of its own. *)
Module Hot.
Record hot_path_params : Type := {
  step_ms : Z;
  length_ms : Z;
  keep_ms : Z;
  capture_id : Z;
  max_tokens : Z;
  audio_ctx : Z;
  vad_thold : Q;
  freq_thold : Q;
  tiny : bool;
  translate : bool;
  no_fallback : bool;
  print_special : bool;
  no_timestamps : bool;
  use_gpu : bool;
  streaming : bool;
  model : string;
  language : string
}.

Definition init : hot_path_params :=
  {| step_ms := 256; length_ms := 2000; keep_ms := 0; capture_id := -1;
     max_tokens := 32; audio_ctx := 0;
     vad_thold := (6 # 10)%Q; freq_thold := 100%Q;
     tiny := true; translate := false; no_fallback := true;
     print_special := false; no_timestamps := true; use_gpu := true;
     streaming := true;
     model := "models/ggml-tiny.en-q5_1.bin"; language := "en" |}.
End Hot.

(** ** The inference engine (whisper.h) *)

Inductive whisper_sampling_strategy : Type :=
| WHISPER_SAMPLING_GREEDY
| WHISPER_SAMPLING_BEAM_SEARCH.

(** The two engine handles of [main]: [ctx] is the cold path context and
    [hot_ctx] the hot path context. *)
Inductive whisper_context : Type :=
| ctx
| hot_ctx.

Definition whisper_context_eqb (a b : whisper_context) : bool :=
  match a, b with
  | ctx, ctx | hot_ctx, hot_ctx => true
  | _, _ => false
  end.

(** The members of [whisper_full_params] that the server assigns.  A
    callback member records whether the server installs the callback. *)
Module Full.
Record whisper_full_params : Type := {
  strategy : whisper_sampling_strategy;
  n_threads : Z;
  n_max_text_ctx : Z;
  offset_ms : Z;
  duration_ms : Z;
  translate : bool;
  no_timestamps : bool;
  print_special : bool;
  print_progress : bool;
  print_realtime : bool;
  print_timestamps : bool;
  token_timestamps : bool;
  thold_pt : Q;
  max_len : Z;
  split_on_word : bool;
  max_tokens : Z;
  step_ms : Z;
  debug_mode : bool;
  audio_ctx : Z;
  tdrz_enable : bool;
  initial_prompt : string;
  language : string;
  suppress_nst : bool;
  temperature : Q;
  entropy_thold : Q;
  logprob_thold : Q;
  no_speech_thold : Q;
  temperature_inc : Q;
  best_of : Z;
  beam_size : Z;
  new_segment_callback : bool;
  progress_callback : bool;
  encoder_begin_callback : bool;
  abort_callback : bool
}.
End Full.

(** [whisper_token_data] together with the token's text. *)
Module Token.
Record whisper_token : Type := {
  id : Z;
  text : string;
  p : Q;
  plog : Q;
  t0 : Z;
  t1 : Z;
  t_dtw : Z
}.
End Token.

(** What the [whisper_full_get_segment_*] accessors return for one
    segment. *)
Module Segment.
Record segment : Type := {
  text : string;
  t0 : Z;
  t1 : Z;
  tokens : list Token.whisper_token;
  no_speech_prob : Q;
  speaker_turn_next : bool
}.
End Segment.

(** The result a context holds after a run: its segments and the id of
    the language. *)
Record whisper_result : Type := {
  segments : list Segment.segment;
  lang_id : Z
}.

(** The engine functions the server calls.  A run returns its status
    ([0] on success) and the result the accessors then read. *)
Record whisper_api : Type := {
  whisper_full_default_params :
    whisper_sampling_strategy -> Full.whisper_full_params;
  whisper_full_parallel :
    whisper_context -> Full.whisper_full_params -> list Q -> Z ->
    Z * whisper_result;
  whisper_full :
    whisper_context -> Full.whisper_full_params -> list Q ->
    Z * whisper_result;
  whisper_is_multilingual : whisper_context -> bool;
  whisper_token_eot : whisper_context -> Z;
  whisper_lang_str_full : Z -> string;
  whisper_init_from_file_with_params : string -> bool
}.

(** What the server asks of the C library and the operating system. *)
Record system_api : Type := {
  (** [std::stof]; [None] is a thrown exception. *)
  stof : string -> option Q;
  (** the value of four bytes read through a [const float*] *)
  float_of_le_bytes : byte -> byte -> byte -> byte -> Q;
  (** [std::system] on the ffmpeg command for an uploaded blob *)
  ffmpeg_status : string -> Z;
  (** [remove] of the uploaded file succeeded *)
  remove_ok : string -> bool;
  (** [rename] of the converted file succeeded *)
  rename_ok : string -> bool;
  (** the bytes of the converted file, [None] when it cannot be opened *)
  converted_file : string -> option (list byte);
  is_file_exist : string -> bool;
  (** [json::parse] of a text frame; [None] is a thrown parse error *)
  json_parse : list byte -> option json
}.

(** ** Observable events *)

Inductive mutex : Type :=
| whisper_mutex
| hot_whisper_mutex
| ws_connections_mutex.

Definition mutex_eqb (a b : mutex) : bool :=
  match a, b with
  | whisper_mutex, whisper_mutex
  | hot_whisper_mutex, hot_whisper_mutex
  | ws_connections_mutex, ws_connections_mutex => true
  | _, _ => false
  end.

Definition OPCODE_TEXT : Z := 1.
Definition OPCODE_BINARY : Z := 2.

Inductive event : Type :=
| Lock (m : mutex)
| Unlock (m : mutex)
| FullParallel (c : whisper_context) (wparams : Full.whisper_full_params)
    (samples : list Q) (n_processors : Z)
| FullCall (c : whisper_context) (wparams : Full.whisper_full_params)
    (samples : list Q)
| Free (c : whisper_context)
| InitFromFile (c : whisper_context) (path : string)
| Send (conn : nat) (opcode : Z) (message : json)
| Exit (status : Z).

(** [std::lock_guard<std::mutex> lock(m)] around a body that returns
    normally: the guard's destructor releases [m] on every return path. *)
Definition lock_guard (m : mutex) (body : list event) : list event :=
  Lock m :: body ++ [Unlock m].

(** ** HTTP requests *)

Record MultipartFormData : Type := {
  name : string;
  content : string;
  filename : string;
  part_content_type : string
}.

Definition empty_part : MultipartFormData :=
  {| name := ""; content := ""; filename := ""; part_content_type := "" |}.

(** The multipart fields of a request, in the order they were received. *)
Record Request : Type := {
  files : list (string * MultipartFormData)
}.

Definition has_file (req : Request) (key : string) : bool :=
  existsb (fun kv => String.eqb (fst kv) key) req.(files).

(** [req.get_file_value(key)]: the first field named [key] (fields of one
    name keep their order in the multimap), an empty [MultipartFormData]
    when there is none. *)
Definition get_file_value (req : Request) (key : string) : MultipartFormData :=
  match find (fun kv => String.eqb (fst kv) key) req.(files) with
  | Some kv => snd kv
  | None => empty_part
  end.

(** ** The per-request parameter overlay *)

(** One [if (req.has_file(key)) { params.member = coercion(content); }] of
    [get_req_parameters]: the multipart key, the member it assigns and the
    coercion applied to the field's content. *)
Inductive req_field : Type :=
| int_field (key : string) (member : whisper_params -> Z)
    (assign : Z -> whisper_params -> whisper_params)
| float_field (key : string) (member : whisper_params -> Q)
    (assign : Q -> whisper_params -> whisper_params)
| float_to_int_field (key : string) (member : whisper_params -> Z)
    (assign : Z -> whisper_params -> whisper_params)
| bool_field (key : string) (member : whisper_params -> bool)
    (assign : bool -> whisper_params -> whisper_params)
| string_field (key : string) (member : whisper_params -> string)
    (assign : string -> whisper_params -> whisper_params).

Definition field_key (f : req_field) : string :=
  match f with
  | int_field key _ _ | float_field key _ _ | float_to_int_field key _ _
  | bool_field key _ _ | string_field key _ _ => key
  end.

(** The statements of [get_req_parameters], in source order. *)
Definition req_fields : list req_field :=
  [ int_field "offset_t" offset_t_ms set_offset_t_ms;
    int_field "offset_n" offset_n set_offset_n;
    int_field "duration" duration_ms set_duration_ms;
    int_field "max_context" max_context set_max_context;
    int_field "max_len" max_len set_max_len;
    int_field "best_of" best_of set_best_of;
    int_field "beam_size" beam_size set_beam_size;
    float_to_int_field "audio_ctx" audio_ctx set_audio_ctx;
    float_field "word_thold" word_thold set_word_thold;
    float_field "entropy_thold" entropy_thold set_entropy_thold;
    float_field "logprob_thold" logprob_thold set_logprob_thold;
    bool_field "debug_mode" debug_mode set_debug_mode;
    bool_field "translate" translate set_translate;
    bool_field "diarize" diarize set_diarize;
    bool_field "tinydiarize" tinydiarize set_tinydiarize;
    bool_field "split_on_word" split_on_word set_split_on_word;
    bool_field "no_timestamps" no_timestamps set_no_timestamps;
    string_field "language" language set_language;
    bool_field "detect_language" detect_language set_detect_language;
    string_field "prompt" prompt set_prompt;
    string_field "response_format" response_format set_response_format;
    float_field "temperature" temperature set_temperature;
    float_field "temperature_inc" temperature_inc set_temperature_inc;
    bool_field "suppress_non_speech" suppress_nst set_suppress_nst;
    bool_field "suppress_nst" suppress_nst set_suppress_nst ].

(** The assignment of one field from its content; [None] is the exception
    thrown by [std::stoi] or [std::stof], before anything is assigned. *)
Definition assign_field (sys : system_api) (f : req_field) (c : string)
    (params : whisper_params) : option whisper_params :=
  match f with
  | int_field _ _ assign =>
      option_map (fun v => assign v params) (stoi c)
  | float_field _ _ assign =>
      option_map (fun v => assign v params) (sys.(stof) c)
  | float_to_int_field _ _ assign =>
      option_map (fun v => assign (float_to_int v) params) (sys.(stof) c)
  | bool_field _ _ assign => Some (assign (parse_str_to_bool c) params)
  | string_field _ _ assign => Some (assign c params)
  end.

(** The body of the [try] block from a given statement on.  All the
    statements are in the one block: an exception leaves it for the
    [catch], which prints a warning, and [params] keeps what was assigned
    before the throw. *)
Fixpoint run_fields (sys : system_api) (fs : list req_field) (req : Request)
    (params : whisper_params) : whisper_params :=
  match fs with
  | [] => params
  | f :: rest =>
      if has_file req (field_key f) then
        match assign_field sys f (get_file_value req (field_key f)).(content)
                params with
        | Some params' => run_fields sys rest req params'
        | None => params
        end
      else run_fields sys rest req params
  end.

Definition get_req_parameters (sys : system_api) (req : Request)
    (params : whisper_params) : whisper_params :=
  run_fields sys req_fields req params.

(** ** Response formatting *)

Definition nl : string := String "010"%char EmptyString.

(** Wrap-around of the cast [(int) x]. *)
Definition to_int (x : Z) : Z :=
  ((x + 2147483648) mod 4294967296 - 2147483648)%Z.

Fixpoint zeros (n : nat) : string :=
  match n with
  | O => ""
  | S n' => String "0"%char (zeros n')
  end.

(** [printf] with ["%0<width>d"]. *)
Definition fmt_0d (width : nat) (z : Z) : string :=
  let sign := if (z <? 0)%Z then "-" else "" in
  let digits := string_of_Z (Z.abs z) in
  sign ++ zeros (width - String.length sign - String.length digits) ++ digits.

(** [to_timestamp(t, comma)], [t] in units of 10 ms. *)
Definition to_timestamp (t : Z) (comma : bool) : string :=
  let msec := (t * 10)%Z in
  let hr := Z.quot msec (1000 * 60 * 60) in
  let msec := (msec - hr * (1000 * 60 * 60))%Z in
  let min := Z.quot msec (1000 * 60) in
  let msec := (msec - min * (1000 * 60))%Z in
  let sec := Z.quot msec 1000 in
  let msec := (msec - sec * 1000)%Z in
  fmt_0d 2 (to_int hr) ++ ":" ++ fmt_0d 2 (to_int min) ++ ":"
  ++ fmt_0d 2 (to_int sec) ++ (if comma then "," else ".")
  ++ fmt_0d 3 (to_int msec).

Definition timestamp_to_sample (t : Z) (n_samples : Z)
    (whisper_sample_rate : Z) : Z :=
  Z.max 0 (Z.min (to_int n_samples - 1)
                 (to_int (Z.quot (t * whisper_sample_rate) 100))).

(** The sum of [fabs(channel[j])] for [is0 <= j < is1]. *)
Definition energy (channel : list Q) (is0 is1 : Z) : Q :=
  fold_left (fun acc x => Qplus acc (Qabs x))
    (firstn (Z.to_nat (is1 - is0)) (skipn (Z.to_nat is0) channel)) 0%Q.

(** [estimate_diarization_speaker].  The energies are sums of dyadic
    rationals and are exact; the products with [1.1] are rounded in the
    source and exact here. *)
Definition estimate_diarization_speaker (pcmf32s : list (list Q))
    (t0 t1 : Z) (id_only : bool) : string :=
  let ch0 := nth 0 pcmf32s [] in
  let ch1 := nth 1 pcmf32s [] in
  let n_samples := Z.of_N (vsize ch0) in
  let is0 := timestamp_to_sample t0 n_samples (Z.of_N WHISPER_SAMPLE_RATE) in
  let is1 := timestamp_to_sample t1 n_samples (Z.of_N WHISPER_SAMPLE_RATE) in
  let energy0 := energy ch0 is0 is1 in
  let energy1 := energy ch1 is0 is1 in
  let speaker :=
    if Qlt_le_dec ((11 # 10) * energy1) energy0 then "0"
    else if Qlt_le_dec ((11 # 10) * energy0) energy1 then "1"
    else "?" in
  if id_only then speaker else "(speaker " ++ speaker ++ ")".

Definition speaker_of (params : whisper_params) (pcmf32s : list (list Q))
    (seg : Segment.segment) (id_only : bool) : option string :=
  if params.(diarize) && (List.length pcmf32s =? 2)
  then Some (estimate_diarization_speaker pcmf32s seg.(Segment.t0)
               seg.(Segment.t1) id_only)
  else None.

Definition or_empty (s : option string) : string :=
  match s with Some x => x | None => "" end.

(** [output_str]: one line per segment, the speaker label in front. *)
Definition output_str (result : whisper_result) (params : whisper_params)
    (pcmf32s : list (list Q)) : string :=
  String.concat ""
    (map (fun seg =>
            (or_empty (speaker_of params pcmf32s seg false)
             ++ seg.(Segment.text) ++ nl)%string)
         result.(segments)).

(** The [i]-th element of a list paired with its index. *)
Fixpoint indexed_from {A} (i : Z) (l : list A) : list (Z * A) :=
  match l with
  | [] => []
  | x :: rest => (i, x) :: indexed_from (i + 1) rest
  end.

Definition srt_body (result : whisper_result) (params : whisper_params)
    (pcmf32s : list (list Q)) : string :=
  String.concat ""
    (map (fun '(i, seg) =>
            (string_of_Z (to_int (i + 1 + params.(offset_n))) ++ nl
             ++ to_timestamp seg.(Segment.t0) true ++ " --> "
             ++ to_timestamp seg.(Segment.t1) true ++ nl
             ++ or_empty (speaker_of params pcmf32s seg false)
             ++ seg.(Segment.text) ++ nl ++ nl)%string)
         (indexed_from 0 result.(segments))).

Definition vtt_body (result : whisper_result) (params : whisper_params)
    (pcmf32s : list (list Q)) : string :=
  "WEBVTT" ++ nl ++ nl ++
  String.concat ""
    (map (fun seg =>
            (to_timestamp seg.(Segment.t0) false ++ " --> "
             ++ to_timestamp seg.(Segment.t1) false ++ nl
             ++ match speaker_of params pcmf32s seg true with
                | Some speaker => "<v Speaker" ++ speaker ++ ">"
                | None => ""
                end
             ++ seg.(Segment.text) ++ nl ++ nl)%string)
         result.(segments)).

(** ** Engine parameters of each endpoint *)

(** The parameters of the /inference run, from the request's parameter block. *)
Definition inference_wparams (api : whisper_api) (params : whisper_params)
    : Full.whisper_full_params :=
  let d := api.(whisper_full_default_params) WHISPER_SAMPLING_GREEDY in
  {|
    Full.strategy := if (1 <? params.(beam_size))%Z
      then WHISPER_SAMPLING_BEAM_SEARCH else WHISPER_SAMPLING_GREEDY;
    Full.n_threads := params.(n_threads);
    Full.n_max_text_ctx := if (0 <=? params.(max_context))%Z
      then params.(max_context) else d.(Full.n_max_text_ctx);
    Full.offset_ms := params.(offset_t_ms);
    Full.duration_ms := params.(duration_ms);
    Full.translate := params.(translate);
    Full.no_timestamps := params.(no_timestamps);
    Full.print_special := params.(print_special);
    Full.print_progress := params.(print_progress);
    Full.print_realtime := false;
    Full.print_timestamps := negb params.(no_timestamps);
    Full.token_timestamps := negb params.(no_timestamps)
      && String.eqb params.(response_format) vjson_format;
    Full.thold_pt := params.(word_thold);
    Full.max_len := if (params.(max_len) =? 0)%Z then 60%Z else params.(max_len);
    Full.split_on_word := params.(split_on_word);
    Full.max_tokens := d.(Full.max_tokens);
    Full.step_ms := d.(Full.step_ms);
    Full.debug_mode := params.(debug_mode);
    Full.audio_ctx := params.(audio_ctx);
    Full.tdrz_enable := params.(tinydiarize);
    Full.initial_prompt := params.(prompt);
    Full.language := params.(language);
    Full.suppress_nst := params.(suppress_nst);
    Full.temperature := params.(temperature);
    Full.entropy_thold := params.(entropy_thold);
    Full.logprob_thold := params.(logprob_thold);
    Full.no_speech_thold := params.(no_speech_thold);
    Full.temperature_inc := params.(temperature_inc);
    Full.best_of := params.(best_of);
    Full.beam_size := params.(beam_size);
    Full.new_segment_callback := if params.(print_realtime) then true
      else d.(Full.new_segment_callback);
    Full.progress_callback := if params.(print_progress) then true
      else d.(Full.progress_callback);
    Full.encoder_begin_callback := true;
    Full.abort_callback := true
  |}.

(** The parameters of the /hot_stream run on an uploaded WAV blob. *)
Definition hot_stream_wparams (api : whisper_api) (hparams : Hot.hot_path_params)
    (params : whisper_params)
    : Full.whisper_full_params :=
  let d := api.(whisper_full_default_params) WHISPER_SAMPLING_GREEDY in
  {|
    Full.strategy := WHISPER_SAMPLING_GREEDY;
    Full.n_threads := Z.min 2 params.(n_threads);
    Full.n_max_text_ctx := 128%Z;
    Full.offset_ms := 0%Z;
    Full.duration_ms := 0%Z;
    Full.translate := hparams.(Hot.translate);
    Full.no_timestamps := true;
    Full.print_special := false;
    Full.print_progress := false;
    Full.print_realtime := false;
    Full.print_timestamps := false;
    Full.token_timestamps := false;
    Full.thold_pt := (5 # 100)%Q;
    Full.max_len := 32%Z;
    Full.split_on_word := true;
    Full.max_tokens := d.(Full.max_tokens);
    Full.step_ms := d.(Full.step_ms);
    Full.debug_mode := d.(Full.debug_mode);
    Full.audio_ctx := hparams.(Hot.audio_ctx);
    Full.tdrz_enable := d.(Full.tdrz_enable);
    Full.initial_prompt := d.(Full.initial_prompt);
    Full.language := hparams.(Hot.language);
    Full.suppress_nst := true;
    Full.temperature := 0%Q;
    Full.entropy_thold := 3%Q;
    Full.logprob_thold := (-5 # 10)%Q;
    Full.no_speech_thold := hparams.(Hot.vad_thold);
    Full.temperature_inc := 0%Q;
    Full.best_of := d.(Full.best_of);
    Full.beam_size := d.(Full.beam_size);
    Full.new_segment_callback := d.(Full.new_segment_callback);
    Full.progress_callback := d.(Full.progress_callback);
    Full.encoder_begin_callback := d.(Full.encoder_begin_callback);
    Full.abort_callback := d.(Full.abort_callback)
  |}.

(** The parameters of the /stream run. *)
Definition stream_wparams (api : whisper_api) (params : whisper_params)
    : Full.whisper_full_params :=
  let d := api.(whisper_full_default_params) WHISPER_SAMPLING_GREEDY in
  {|
    Full.strategy := d.(Full.strategy);
    Full.n_threads := params.(n_threads);
    Full.n_max_text_ctx := d.(Full.n_max_text_ctx);
    Full.offset_ms := d.(Full.offset_ms);
    Full.duration_ms := d.(Full.duration_ms);
    Full.translate := d.(Full.translate);
    Full.no_timestamps := d.(Full.no_timestamps);
    Full.print_special := params.(print_special);
    Full.print_progress := false;
    Full.print_realtime := d.(Full.print_realtime);
    Full.print_timestamps := d.(Full.print_timestamps);
    Full.token_timestamps := d.(Full.token_timestamps);
    Full.thold_pt := d.(Full.thold_pt);
    Full.max_len := d.(Full.max_len);
    Full.split_on_word := d.(Full.split_on_word);
    Full.max_tokens := d.(Full.max_tokens);
    Full.step_ms := d.(Full.step_ms);
    Full.debug_mode := d.(Full.debug_mode);
    Full.audio_ctx := d.(Full.audio_ctx);
    Full.tdrz_enable := d.(Full.tdrz_enable);
    Full.initial_prompt := d.(Full.initial_prompt);
    Full.language := params.(language);
    Full.suppress_nst := d.(Full.suppress_nst);
    Full.temperature := d.(Full.temperature);
    Full.entropy_thold := d.(Full.entropy_thold);
    Full.logprob_thold := d.(Full.logprob_thold);
    Full.no_speech_thold := d.(Full.no_speech_thold);
    Full.temperature_inc := d.(Full.temperature_inc);
    Full.best_of := d.(Full.best_of);
    Full.beam_size := d.(Full.beam_size);
    Full.new_segment_callback := d.(Full.new_segment_callback);
    Full.progress_callback := d.(Full.progress_callback);
    Full.encoder_begin_callback := d.(Full.encoder_begin_callback);
    Full.abort_callback := d.(Full.abort_callback)
  |}.

(** The parameters of the chunked /hot_stream run. *)
Definition hot_stream_chunked_wparams (api : whisper_api) (hparams : Hot.hot_path_params)
    (params : whisper_params)
    : Full.whisper_full_params :=
  let d := api.(whisper_full_default_params) WHISPER_SAMPLING_GREEDY in
  {|
    Full.strategy := d.(Full.strategy);
    Full.n_threads := params.(n_threads);
    Full.n_max_text_ctx := d.(Full.n_max_text_ctx);
    Full.offset_ms := d.(Full.offset_ms);
    Full.duration_ms := d.(Full.duration_ms);
    Full.translate := hparams.(Hot.translate);
    Full.no_timestamps := hparams.(Hot.no_timestamps);
    Full.print_special := hparams.(Hot.print_special);
    Full.print_progress := false;
    Full.print_realtime := d.(Full.print_realtime);
    Full.print_timestamps := d.(Full.print_timestamps);
    Full.token_timestamps := d.(Full.token_timestamps);
    Full.thold_pt := d.(Full.thold_pt);
    Full.max_len := d.(Full.max_len);
    Full.split_on_word := d.(Full.split_on_word);
    Full.max_tokens := hparams.(Hot.max_tokens);
    Full.step_ms := hparams.(Hot.step_ms);
    Full.debug_mode := d.(Full.debug_mode);
    Full.audio_ctx := hparams.(Hot.audio_ctx);
    Full.tdrz_enable := d.(Full.tdrz_enable);
    Full.initial_prompt := d.(Full.initial_prompt);
    Full.language := hparams.(Hot.language);
    Full.suppress_nst := d.(Full.suppress_nst);
    Full.temperature := d.(Full.temperature);
    Full.entropy_thold := d.(Full.entropy_thold);
    Full.logprob_thold := d.(Full.logprob_thold);
    Full.no_speech_thold := d.(Full.no_speech_thold);
    Full.temperature_inc := d.(Full.temperature_inc);
    Full.best_of := d.(Full.best_of);
    Full.beam_size := d.(Full.beam_size);
    Full.new_segment_callback := d.(Full.new_segment_callback);
    Full.progress_callback := d.(Full.progress_callback);
    Full.encoder_begin_callback := d.(Full.encoder_begin_callback);
    Full.abort_callback := d.(Full.abort_callback)
  |}.

(** The parameters of a WebSocket run. *)
Definition ws_wparams (api : whisper_api) 
    : Full.whisper_full_params :=
  let d := api.(whisper_full_default_params) WHISPER_SAMPLING_GREEDY in
  {|
    Full.strategy := WHISPER_SAMPLING_GREEDY;
    Full.n_threads := 2%Z;
    Full.n_max_text_ctx := 64%Z;
    Full.offset_ms := d.(Full.offset_ms);
    Full.duration_ms := d.(Full.duration_ms);
    Full.translate := false;
    Full.no_timestamps := true;
    Full.print_special := false;
    Full.print_progress := false;
    Full.print_realtime := false;
    Full.print_timestamps := false;
    Full.token_timestamps := d.(Full.token_timestamps);
    Full.thold_pt := d.(Full.thold_pt);
    Full.max_len := d.(Full.max_len);
    Full.split_on_word := d.(Full.split_on_word);
    Full.max_tokens := d.(Full.max_tokens);
    Full.step_ms := d.(Full.step_ms);
    Full.debug_mode := d.(Full.debug_mode);
    Full.audio_ctx := d.(Full.audio_ctx);
    Full.tdrz_enable := d.(Full.tdrz_enable);
    Full.initial_prompt := d.(Full.initial_prompt);
    Full.language := "en";
    Full.suppress_nst := true;
    Full.temperature := 0%Q;
    Full.entropy_thold := d.(Full.entropy_thold);
    Full.logprob_thold := d.(Full.logprob_thold);
    Full.no_speech_thold := (6 # 10)%Q;
    Full.temperature_inc := d.(Full.temperature_inc);
    Full.best_of := d.(Full.best_of);
    Full.beam_size := d.(Full.beam_size);
    Full.new_segment_callback := d.(Full.new_segment_callback);
    Full.progress_callback := d.(Full.progress_callback);
    Full.encoder_begin_callback := d.(Full.encoder_begin_callback);
    Full.abort_callback := d.(Full.abort_callback)
  |}.

(** ** POST /inference *)

(** [convert_to_wav] on the uploaded blob: [Some message] is [return false]
    with [error_resp] set to the error object carrying [message]. *)
Definition convert_to_wav (sys : system_api) (blob : string) : option string :=
  if negb (sys.(ffmpeg_status) blob =? 0)%Z
  then Some "FFmpeg conversion failed."
  else if negb (sys.(remove_ok) blob)
  then Some "Failed to remove the original file."
  else if negb (sys.(rename_ok) blob)
  then Some "Failed to rename the temporary file."
  else None.

(** The language block in front of the run: a model that is not
    multilingual forces English transcription, and [detect_language]
    forces the language ["auto"]. *)
Definition coerce_language (api : whisper_api) (params : whisper_params)
    : whisper_params :=
  let params :=
    if negb (api.(whisper_is_multilingual) ctx)
    then
      if negb (String.eqb params.(language) "en") || params.(translate)
      then set_translate false (set_language "en" params)
      else params
    else params in
  if params.(detect_language) then set_language "auto" params else params.

(** The parameter block the handler holds when it calls the engine. *)
Definition effective_params (api : whisper_api) (sys : system_api)
    (req : Request) (params : whisper_params) : whisper_params :=
  coerce_language api (get_req_parameters sys req params).

(** *** The verbose JSON format *)

(** [x * 0.01] on a time in units of 10 ms. *)
Definition centi (t : Z) : Q := (t # 100)%Q.

(** The state of the loop over the tokens of one segment:
    [segment["tokens"]], [segment["words"]] and [total_logprob]. *)
Record token_loop : Type := {
  tokens_json : list json;
  words_json : list json;
  total_logprob : Q
}.

(** One iteration: a token whose id is at or past the end-of-text token is
    skipped by [continue]. *)
Definition token_step (eot : Z) (no_timestamps : bool) (st : token_loop)
    (token : Token.whisper_token) : token_loop :=
  if (eot <=? token.(Token.id))%Z then st
  else
    let word :=
      JObj ([("word", JStr token.(Token.text))]
            ++ (if no_timestamps then []
                else [("start", JFloat (centi token.(Token.t0)));
                      ("end", JFloat (centi token.(Token.t1)));
                      ("t_dtw", JInt token.(Token.t_dtw))])
            ++ [("probability", JFloat token.(Token.p))]) in
    {| tokens_json := st.(tokens_json) ++ [JInt token.(Token.id)];
       words_json := st.(words_json) ++ [word];
       total_logprob := Qplus st.(total_logprob) token.(Token.plog) |}.

Definition token_loop_run (eot : Z) (no_timestamps : bool)
    (tokens : list Token.whisper_token) : token_loop :=
  fold_left (token_step eot no_timestamps) tokens
    {| tokens_json := []; words_json := []; total_logprob := 0%Q |}.

(** [total_logprob / n_tokens], where [n_tokens] is
    [whisper_full_n_tokens(ctx, i)], the number of all the tokens of the
    segment.  With no token at all the quotient is [0.0f / 0], a NaN:
    [None]. *)
Definition logprob_quotient (total : Q) (n_tokens : Z) : option Q :=
  if (n_tokens =? 0)%Z then None
  else Some (Qdiv total (inject_Z n_tokens)).

(** The value of [segment["avg_logprob"]]. *)
Definition avg_logprob (eot : Z) (no_timestamps : bool)
    (seg : Segment.segment) : option Q :=
  logprob_quotient
    (token_loop_run eot no_timestamps seg.(Segment.tokens)).(total_logprob)
    (Z.of_nat (List.length seg.(Segment.tokens))).

(** A float member; [dump] writes a NaN as [null]. *)
Definition json_of_float (x : option Q) : json :=
  match x with
  | Some q => JFloat q
  | None => JNull
  end.

Definition vjson_segment (eot : Z) (params : whisper_params) (i : Z)
    (seg : Segment.segment) : json :=
  let st := token_loop_run eot params.(no_timestamps) seg.(Segment.tokens) in
  JObj ([("id", JInt i); ("text", JStr seg.(Segment.text))]
        ++ (if params.(no_timestamps) then []
            else [("start", JFloat (centi seg.(Segment.t0)));
                  ("end", JFloat (centi seg.(Segment.t1)))])
        ++ (match st.(tokens_json) with
            | [] => []
            | _ => [("tokens", JArr st.(tokens_json));
                    ("words", JArr st.(words_json))]
            end)
        ++ [("temperature", JFloat params.(temperature));
            ("avg_logprob",
             json_of_float (avg_logprob eot params.(no_timestamps) seg));
            ("no_speech_prob", JFloat seg.(Segment.no_speech_prob))]).

Definition vjson_body (api : whisper_api) (result : whisper_result)
    (params : whisper_params) (pcmf32 : list Q) (pcmf32s : list (list Q))
    : json :=
  JObj [("task", JStr (if params.(translate) then "translate"
                       else "transcribe"));
        ("language", JStr (api.(whisper_lang_str_full) result.(lang_id)));
        ("duration", JFloat (Z.of_N (vsize pcmf32) # 16000)%Q);
        ("text", JStr (output_str result params pcmf32s));
        ("segments",
         JArr (map (fun '(i, seg) =>
                      vjson_segment (api.(whisper_token_eot) ctx) params i seg)
                   (indexed_from 0 result.(segments))))].

(** The chain of comparisons on [params.response_format]. *)
Definition format_response (api : whisper_api) (result : whisper_result)
    (params : whisper_params) (pcmf32 : list Q) (pcmf32s : list (list Q))
    : Response :=
  if String.eqb params.(response_format) text_format then
    set_content (text_body (output_str result params pcmf32s))
      "text/html; charset=utf-8"
  else if String.eqb params.(response_format) srt_format then
    set_content (text_body (srt_body result params pcmf32s))
      "application/x-subrip"
  else if String.eqb params.(response_format) vtt_format then
    set_content (text_body (vtt_body result params pcmf32s)) "text/vtt"
  else if String.eqb params.(response_format) vjson_format then
    set_content (json_body (vjson_body api result params pcmf32 pcmf32s))
      "application/json"
  else
    set_content
      (json_body (JObj [("text", JStr (output_str result params pcmf32s))]))
      "application/json".

(** *** The handler *)

(** The return statement a request leaves the handler by. *)
Inductive inference_outcome : Type :=
| no_file_field
| conversion_failed
| wav_read_failed
| engine_failed
| completed.

Record inference_result : Type := {
  outcome : inference_outcome;
  response : Response;
  trace : list event;
  params_after : whisper_params
}.

Definition error_response (message : string) : Response :=
  set_content (json_body (error_json message)) "application/json".

(** The audio arrays of a request: the uploaded blob through ffmpeg and
    [read_wav] when the converter is on, through [read_wav_content]
    otherwise. *)
Definition load_audio (sys : system_api) (sparams : server_params)
    (blob : string) (params : whisper_params)
    : inference_outcome * string + list Q * list (list Q) :=
  if sparams.(ffmpeg_converter) then
    match convert_to_wav sys blob with
    | Some message => inl (conversion_failed, message)
    | None =>
        match read_wav (sys.(converted_file) blob) params.(diarize) with
        | None => inl (wav_read_failed, "failed to read WAV file")
        | Some audio => inr audio
        end
    end
  else
    match read_wav_content (list_byte_of_string blob) params.(diarize) with
    | None => inl (wav_read_failed, "failed to read WAV file")
    | Some audio => inr audio
    end.

(** The handler of [svr.Post(request_path + inference_path)].  [params] is
    the block of [main] that the lambda captures by reference and
    [default_params] the copy taken before the server starts. *)
Definition inference_handler (api : whisper_api) (sys : system_api)
    (sparams : server_params) (default_params : whisper_params)
    (req : Request) (params : whisper_params) : inference_result :=
  if negb (has_file req "file") then
    {| outcome := no_file_field;
       response := error_response "no 'file' field in the request";
       trace := lock_guard whisper_mutex [];
       params_after := params |}
  else
    let audio_file := get_file_value req "file" in
    let params := get_req_parameters sys req params in
    match load_audio sys sparams audio_file.(content) params with
    | inl (failure, message) =>
        {| outcome := failure;
           response := error_response message;
           trace := lock_guard whisper_mutex [];
           params_after := params |}
    | inr (pcmf32, pcmf32s) =>
        let params := coerce_language api params in
        let wparams := inference_wparams api params in
        let '(status, result) :=
          api.(whisper_full_parallel) ctx wparams pcmf32
            params.(n_processors) in
        let run := FullParallel ctx wparams pcmf32 params.(n_processors) in
        if negb (status =? 0)%Z then
          {| outcome := engine_failed;
             response := error_response "failed to process audio";
             trace := lock_guard whisper_mutex [run];
             params_after := params |}
        else
          {| outcome := completed;
             response := format_response api result params pcmf32 pcmf32s;
             trace := lock_guard whisper_mutex [run];
             params_after := default_params |}
    end.

(** The /inference requests of a run of the server, one after the other:
    each request starts from the block the request before it left. *)
Fixpoint serve_inference (api : whisper_api) (sys : system_api)
    (sparams : server_params) (default_params : whisper_params)
    (reqs : list Request) (params : whisper_params)
    : list inference_result * whisper_params :=
  match reqs with
  | [] => ([], params)
  | req :: rest =>
      let r := inference_handler api sys sparams default_params req params in
      let '(rs, final) :=
        serve_inference api sys sparams default_params rest
          r.(params_after) in
      (r :: rs, final)
  end.

(** ** POST /stream, POST /hot_stream and POST /load *)

(** The samples read through [reinterpret_cast<const float*>]:
    [content.size() / sizeof(float)] values of four bytes each. *)
Fixpoint float_samples (sys : system_api) (data : list byte) : list Q :=
  match data with
  | b0 :: b1 :: b2 :: b3 :: rest =>
      sys.(float_of_le_bytes) b0 b1 b2 b3 :: float_samples sys rest
  | _ => []
  end.

(** The last [n] elements of a buffer that holds at least [n]:
    [erase(begin(), end() - n)], and the range [end() - n, end()]. *)
Definition keep_last {A} (n : N) (buffer : list A) : list A :=
  skipn (N.to_nat (vsize buffer - n)) buffer.

(** Conversion of an [int] to [size_t] in a comparison with a size. *)
Definition to_size_t (x : Z) : N := Z.to_N (x mod 18446744073709551616).

Definition segment_json (seg : Segment.segment) : json :=
  JObj [("text", JStr seg.(Segment.text));
        ("t0", JInt seg.(Segment.t0));
        ("t1", JInt seg.(Segment.t1))].

(** The last two statements of the streaming handlers; [None] is the
    exception of [response.dump()], which leaves the handler with no
    content set: the exception handler of the server writes the response. *)
Definition stream_response (segs : list json) (audio_buffer : list Q)
    : option Response :=
  let response :=
    JObj [("segments", JArr segs);
          ("buffer_size_ms",
           JInt (Z.of_N (vsize audio_buffer * 1000 / 16000)))] in
  if dump_accepts response
  then Some (set_content (json_body response) "application/json")
  else None.

Record stream_result : Type := {
  (** the response the handler sets, [None] when an exception leaves it *)
  stream_response_of : option Response;
  stream_trace : list event;
  (** the [thread_local] buffer of the handler after the request *)
  stream_buffer : list Q
}.

(** The product of two [int] values.  [None] is a product that does not
    fit [int]: signed overflow, for which the language defines no
    behaviour. *)
Definition int_mul (a b : Z) : option Z :=
  let product := (a * b)%Z in
  if (INT_MIN <=? product)%Z && (product <=? INT_MAX)%Z then Some product
  else None.

(** The handler of [svr.Post(request_path + "/stream")].  [audio_buffer]
    is the [thread_local] buffer of the thread that runs the handler. *)
Definition stream_handler (api : whisper_api) (sys : system_api)
    (params : whisper_params) (req : Request) (audio_buffer : list Q)
    : stream_result :=
  let min_samples := (WHISPER_SAMPLE_RATE + WHISPER_SAMPLE_RATE / 10)%N in
  if negb (has_file req "audio") then
    {| stream_response_of := Some (error_response "no audio data");
       stream_trace := lock_guard whisper_mutex [];
       stream_buffer := audio_buffer |}
  else
    let audio_file := get_file_value req "audio" in
    let audio_buffer :=
      audio_buffer
      ++ float_samples sys (list_byte_of_string audio_file.(content)) in
    if (min_samples <=? vsize audio_buffer)%N then
      let wparams := stream_wparams api params in
      let '(status, result) := api.(whisper_full) ctx wparams audio_buffer in
      let run := FullCall ctx wparams audio_buffer in
      if negb (status =? 0)%Z then
        {| stream_response_of :=
             Some (error_response "failed to process audio");
           stream_trace := lock_guard whisper_mutex [run];
           stream_buffer := audio_buffer |}
      else
        let overlap_samples := to_size_t (Z.quot (200 * 16000) 1000) in
        let kept :=
          if (overlap_samples <? vsize audio_buffer)%N
          then keep_last overlap_samples audio_buffer
          else [] in
        {| stream_response_of :=
             stream_response (map segment_json result.(segments)) kept;
           stream_trace := lock_guard whisper_mutex [run];
           stream_buffer := kept |}
    else
      {| stream_response_of := stream_response [] audio_buffer;
         stream_trace := lock_guard whisper_mutex [];
         stream_buffer := audio_buffer |}.

(** The handler of the second [svr.Post(request_path + "/hot_stream")],
    which takes float samples in an [audio] field.  [None] is a request on
    which the handler has no defined behaviour: one of the two products
    with [16000] overflows [int]. *)
Definition hot_stream_chunked_handler (api : whisper_api) (sys : system_api)
    (hparams : Hot.hot_path_params) (params : whisper_params)
    (req : Request) (audio_buffer : list Q) : option stream_result :=
  if negb (has_file req "audio") then
    Some {| stream_response_of := Some (error_response "no audio data");
            stream_trace := lock_guard whisper_mutex [];
            stream_buffer := audio_buffer |}
  else
    let audio_file := get_file_value req "audio" in
    let audio_buffer :=
      audio_buffer
      ++ float_samples sys (list_byte_of_string audio_file.(content)) in
    match int_mul hparams.(Hot.length_ms) 16000 with
    | None => None
    | Some length_product =>
        let min_samples := to_size_t (Z.quot length_product 1000) in
        if (min_samples <=? vsize audio_buffer)%N then
          let wparams := hot_stream_chunked_wparams api hparams params in
          let '(status, result) :=
            api.(whisper_full) ctx wparams audio_buffer in
          let run := FullCall ctx wparams audio_buffer in
          if negb (status =? 0)%Z then
            Some {| stream_response_of :=
                      Some (error_response "failed to process audio");
                    stream_trace := lock_guard whisper_mutex [run];
                    stream_buffer := audio_buffer |}
          else
            match int_mul hparams.(Hot.keep_ms) 16000 with
            | None => None
            | Some keep_product =>
                let overlap_samples :=
                  to_size_t (Z.quot keep_product 1000) in
                let kept :=
                  if (overlap_samples <? vsize audio_buffer)%N
                  then keep_last overlap_samples audio_buffer
                  else [] in
                Some {| stream_response_of :=
                          stream_response
                            (map segment_json result.(segments)) kept;
                        stream_trace := lock_guard whisper_mutex [run];
                        stream_buffer := kept |}
            end
        else
          Some {| stream_response_of := stream_response [] audio_buffer;
                  stream_trace := lock_guard whisper_mutex [];
                  stream_buffer := audio_buffer |}
    end.

(** The handler of the first [svr.Post(request_path + "/hot_stream")],
    which takes a WAV blob in a [file] field. *)
Definition hot_stream_handler (api : whisper_api)
    (hparams : Hot.hot_path_params) (params : whisper_params)
    (req : Request) : Response * list event :=
  if negb (has_file req "file") then
    (error_response "no 'file' field in the request",
     lock_guard hot_whisper_mutex [])
  else
    let audio_file := get_file_value req "file" in
    match read_wav_content (list_byte_of_string audio_file.(content)) false
    with
    | None =>
        (error_response "failed to read WAV file",
         lock_guard hot_whisper_mutex [])
    | Some (pcmf32, _) =>
        let wparams := hot_stream_wparams api hparams params in
        let '(status, result) :=
          api.(whisper_full_parallel) hot_ctx wparams pcmf32 1%Z in
        let run := FullParallel hot_ctx wparams pcmf32 1%Z in
        if negb (status =? 0)%Z then
          (error_response "hot path inference failed",
           lock_guard hot_whisper_mutex [run])
        else
          let results :=
            String.concat "" (map Segment.text result.(segments)) in
          (set_content
             (json_body
                (JObj [("text", JStr results);
                       ("is_streaming", JBool true);
                       ("model", JStr "tiny.en");
                       ("processing_time_ms", JInt 0);
                       ("segments",
                        JInt (Z.of_nat (List.length result.(segments))))]))
             "application/json",
           lock_guard hot_whisper_mutex [run])
    end.

(** The handler of [svr.Post(request_path + "/load")].  When the new model
    cannot be initialised the process exits inside the handler: there is
    no response and the guard is never released.  The OpenVINO encoder is
    initialised on the new context right after it is loaded; the call is
    part of the [InitFromFile] event. *)
Definition load_handler (api : whisper_api) (sys : system_api)
    (req : Request) : option Response * list event :=
  if negb (has_file req "model") then
    (Some (error_response "no 'model' field in the request"),
     lock_guard whisper_mutex [])
  else
    let model := (get_file_value req "model").(content) in
    if negb (sys.(is_file_exist) model) then
      (Some (error_response "model not found!"), lock_guard whisper_mutex [])
    else if negb (api.(whisper_init_from_file_with_params) model) then
      (None, [Lock whisper_mutex; Free ctx; InitFromFile ctx model; Exit 1])
    else
      (Some (set_content (text_body "Load was successful!")
               "application/text"),
       lock_guard whisper_mutex [Free ctx; InitFromFile ctx model]).

(** ** The WebSocket handler *)

(** [struct WebSocketConnection]; [ws_conn] is the address of the
    library's connection object and identifies the session. *)
Record WebSocketConnection : Type := {
  ws_conn : nat;
  audio_buffer : list Q;
  last_activity : Z;
  is_active : bool
}.

(** The global state of the WebSocket side: the registry and the context
    pointer, which is null until [main] stores [hot_ctx] in it. *)
Record ws_state : Type := {
  active_connections : list WebSocketConnection;
  ws_whisper_ctx : option whisper_context
}.

(** The characters of the literal [" \t\n\r"]. *)
Definition trim_chars : string :=
  String " "%char (String "009"%char (String "010"%char
    (String "013"%char EmptyString))).

(** [sendTranscriptionResult]; [epoch_ms] is the system clock at the call.
    [None] is the exception of [response.dump()], thrown before anything is
    sent. *)
Definition sendTranscriptionResult (conn : nat) (text : string)
    (epoch_ms : Z) : option event :=
  let response :=
    JObj [("text", JStr text);
          ("timestamp", JInt epoch_ms);
          ("is_streaming", JBool true)] in
  if dump_accepts response then Some (Send conn OPCODE_TEXT response)
  else None.

(** The loop that appends every segment text that is not empty. *)
Definition collect_transcription (result : whisper_result) : string :=
  fold_left
    (fun transcription seg =>
       if (0 <? String.length seg.(Segment.text))
       then (transcription ++ seg.(Segment.text))%string
       else transcription)
    result.(segments) "".

(** The two [erase] calls that clean the transcription up; [None] is an
    exception thrown by [erase]. *)
Definition clean_up (transcription : string) : option string :=
  match erase transcription 0 (find_first_not_of transcription trim_chars) with
  | None => None
  | Some transcription =>
      erase transcription
        (size_t_add (find_last_not_of transcription trim_chars) 1) npos
  end.

(** What a successful run sends; [None] is an exception, of [erase] or of
    [sendTranscriptionResult]. *)
Definition emit (conn : nat) (result : whisper_result) (epoch_ms : Z)
    : option (list event) :=
  let transcription := collect_transcription result in
  if negb (String.eqb transcription "") then
    match clean_up transcription with
    | None => None
    | Some transcription =>
        if negb (String.eqb transcription "")
        then option_map (fun frame => [frame])
               (sendTranscriptionResult conn transcription epoch_ms)
        else Some []
    end
  else Some [].

(** [processAudioChunk]; [None] is an exception that leaves the function:
    it goes through [processAudioData] and [onWSMsg], none of which catches
    it, and the statements after the throwing call, the pruning of the
    ring among them, are not run. *)
Definition processAudioChunk (api : whisper_api)
    (whisper_ctx : option whisper_context) (epoch_ms : Z)
    (conn : WebSocketConnection)
    : option (WebSocketConnection * list event) :=
  match whisper_ctx with
  | None => Some (conn, [])
  | Some c =>
      let window_samples := (WHISPER_SAMPLE_RATE * 2)%N in
      let process_samples :=
        (WHISPER_SAMPLE_RATE + WHISPER_SAMPLE_RATE / 10)%N in
      if (vsize conn.(audio_buffer) <? process_samples)%N then Some (conn, [])
      else
        let audio_chunk := keep_last process_samples conn.(audio_buffer) in
        let wparams := ws_wparams api in
        let '(status, result) :=
          api.(whisper_full_parallel) c wparams audio_chunk 1%Z in
        let run := FullParallel c wparams audio_chunk 1%Z in
        match (if (status =? 0)%Z
               then emit conn.(ws_conn) result epoch_ms
               else Some [])
        with
        | None => None
        | Some sent =>
            let kept :=
              if (window_samples <? vsize conn.(audio_buffer))%N
              then keep_last window_samples conn.(audio_buffer)
              else conn.(audio_buffer) in
            Some ({| ws_conn := conn.(ws_conn);
                     audio_buffer := kept;
                     last_activity := conn.(last_activity);
                     is_active := conn.(is_active) |},
                  run :: sent)
        end
  end.

(** The registry entry of a connection, as [std::find_if] finds it. *)
Definition find_connection (conn : nat)
    (connections : list WebSocketConnection) : option WebSocketConnection :=
  find (fun c => Nat.eqb c.(ws_conn) conn) connections.

(** The registry after a write through the shared pointer that
    [find_connection] returned: the first entry of [conn] is the object
    that changed. *)
Fixpoint store_connection (updated : WebSocketConnection)
    (connections : list WebSocketConnection) : list WebSocketConnection :=
  match connections with
  | [] => []
  | c :: rest =>
      if Nat.eqb c.(ws_conn) updated.(ws_conn) then updated :: rest
      else c :: store_connection updated rest
  end.

(** [processAudioData] on a binary frame; [now] is the steady clock. *)
Definition processAudioData (api : whisper_api) (st : ws_state) (conn : nat)
    (payload : list byte) (now epoch_ms : Z)
    : option (ws_state * list event) :=
  let lookup := [Lock ws_connections_mutex; Unlock ws_connections_mutex] in
  match find_connection conn st.(active_connections) with
  | None => Some (st, lookup)
  | Some c =>
      let c :=
        {| ws_conn := c.(ws_conn);
           audio_buffer := c.(audio_buffer) ++ pcm16_samples payload;
           last_activity := now;
           is_active := c.(is_active) |} in
      let min_samples := (WHISPER_SAMPLE_RATE + WHISPER_SAMPLE_RATE / 10)%N in
      let processed :=
        if (min_samples <=? vsize c.(audio_buffer))%N
        then processAudioChunk api st.(ws_whisper_ctx) epoch_ms c
        else Some (c, []) in
      match processed with
      | None => None
      | Some (c, events) =>
          Some ({| active_connections :=
                     store_connection c st.(active_connections);
                   ws_whisper_ctx := st.(ws_whisper_ctx) |},
                lookup ++ events)
      end
  end.

Definition json_member (key : string) (j : json) : option json :=
  match j with
  | JObj members =>
      option_map snd (find (fun kv => String.eqb (fst kv) key) members)
  | _ => None
  end.

(** [processTextMessage]: a ping is answered with a pong; any other
    message, and any exception of the JSON library, is dropped. *)
Definition processTextMessage (sys : system_api) (conn : nat)
    (payload : list byte) : list event :=
  match sys.(json_parse) payload with
  | Some j =>
      match json_member "type" j with
      | Some (JStr type) =>
          if String.eqb type "ping"
          then [Send conn OPCODE_TEXT (JObj [("type", JStr "pong")])]
          else []
      | _ => []
      end
  | None => []
  end.

(** [onWSMsg]: dispatch on the opcode of the frame. *)
Definition onWSMsg (api : whisper_api) (sys : system_api) (st : ws_state)
    (conn : nat) (opcode : Z) (payload : list byte) (now epoch_ms : Z)
    : option (ws_state * list event) :=
  if (opcode =? OPCODE_BINARY)%Z
  then processAudioData api st conn payload now epoch_ms
  else if (opcode =? OPCODE_TEXT)%Z
  then Some (st, processTextMessage sys conn payload)
  else Some (st, []).

(** [onWSConnect]: only the path /hot_stream is accepted. *)
Definition onWSConnect (st : ws_state) (conn : nat) (request_uri : string)
    (now : Z) : bool * ws_state :=
  if negb (String.eqb request_uri "/hot_stream") then (false, st)
  else
    (true,
     {| active_connections :=
          st.(active_connections)
          ++ [{| ws_conn := conn; audio_buffer := [];
                 last_activity := now; is_active := true |}];
        ws_whisper_ctx := st.(ws_whisper_ctx) |}).

(** [onWSClose]: every entry of the connection leaves the registry. *)
Definition onWSClose (st : ws_state) (conn : nat) : ws_state :=
  {| active_connections :=
       filter (fun c => negb (Nat.eqb c.(ws_conn) conn))
         st.(active_connections);
     ws_whisper_ctx := st.(ws_whisper_ctx) |}.

(** The state [main] leaves the WebSocket side in before it starts the
    poll thread: an empty registry and [ws_whisper_ctx = hot_ctx]. *)
Definition ws_initial : ws_state :=
  {| active_connections := []; ws_whisper_ctx := Some hot_ctx |}.

(** ** Properties of traces *)

(** The context an event runs the engine on, or frees, or loads. *)
Definition engine_use (e : event) : option whisper_context :=
  match e with
  | FullParallel c _ _ _ | FullCall c _ _ | Free c | InitFromFile c _ =>
      Some c
  | _ => None
  end.

Definition is_inference (e : event) : bool :=
  match e with
  | FullParallel _ _ _ _ | FullCall _ _ _ => true
  | _ => false
  end.

Fixpoint release (m : mutex) (held : list mutex) : list mutex :=
  match held with
  | [] => []
  | m' :: rest => if mutex_eqb m m' then rest else m' :: release m rest
  end.

(** Every use of the engine in the trace is a use of [c] made while [m]
    is held; [held] lists the mutexes held when the trace starts. *)
Fixpoint in_domain (c : whisper_context) (m : mutex) (held : list mutex)
    (tr : list event) : bool :=
  match tr with
  | [] => true
  | Lock m' :: rest => in_domain c m (m' :: held) rest
  | Unlock m' :: rest => in_domain c m (release m' held) rest
  | e :: rest =>
      match engine_use e with
      | Some c' =>
          whisper_context_eqb c' c && existsb (mutex_eqb m) held
          && in_domain c m held rest
      | None => in_domain c m held rest
      end
  end.

(** Every use of the engine in the trace is a use of [c]. *)
Definition on_handle (c : whisper_context) (tr : list event) : bool :=
  forallb (fun e =>
             match engine_use e with
             | Some c' => whisper_context_eqb c' c
             | None => true
             end) tr.

(** The trace holds a use of the engine made while no mutex of the two
    engine domains is held. *)
Fixpoint unguarded_use (held : list mutex) (tr : list event) : bool :=
  match tr with
  | [] => false
  | Lock m' :: rest => unguarded_use (m' :: held) rest
  | Unlock m' :: rest => unguarded_use (release m' held) rest
  | e :: rest =>
      match engine_use e with
      | Some _ =>
          negb (existsb (mutex_eqb whisper_mutex) held
                || existsb (mutex_eqb hot_whisper_mutex) held)
          || unguarded_use held rest
      | None => unguarded_use held rest
      end
  end.

Definition sent_frames (tr : list event) : list event :=
  filter (fun e => match e with Send _ _ _ => true | _ => false end) tr.

(** ** The statements of the specification *)

(** The little-endian signed 16-bit value of two bytes, in the words of
    the specification: the first byte counts units and the second counts
    256s; a second byte of 128 or more has the sign bit set and makes the
    value negative, 65536 less. *)
Definition le_int16 (lo hi : byte) : Z :=
  (Z.of_N (Byte.to_N lo) + 256 * Z.of_N (Byte.to_N hi)
   - (if (128 <=? Byte.to_N hi)%N then 65536 else 0))%Z.

(** Stripping, in the words of the specification: leading white space is
    dropped, then trailing white space; white space is the server's set,
    space, tab, line feed and carriage return. *)
Fixpoint drop_leading (s : string) : string :=
  match s with
  | String c rest => if mem_char c trim_chars then drop_leading rest else s
  | EmptyString => EmptyString
  end.

Fixpoint drop_trailing (s : string) : string :=
  match s with
  | String c rest =>
      match drop_trailing rest with
      | EmptyString =>
          if mem_char c trim_chars then EmptyString else String c EmptyString
      | kept => String c kept
      end
  | EmptyString => EmptyString
  end.

Definition strip (s : string) : string := drop_trailing (drop_leading s).

(** The text [T] of a run: the concatenation of all segment texts,
    stripped. *)
Definition stripped_text (result : whisper_result) : string :=
  strip (String.concat "" (map Segment.text result.(segments))).

(** The overlay in the words of the specification: every field is coerced
    on its own, a failed coercion keeps the prior value of its member and
    the fields after it are still applied. *)
Definition overlay_field (sys : system_api) (req : Request)
    (params : whisper_params) (f : req_field) : whisper_params :=
  if has_file req (field_key f) then
    match assign_field sys f (get_file_value req (field_key f)).(content)
            params with
    | Some params' => params'
    | None => params
    end
  else params.

Definition overlay_each (sys : system_api) (fs : list req_field)
    (req : Request) (params : whisper_params) : whisper_params :=
  fold_left (overlay_field sys req) fs params.

(** The coercion of a field's content succeeds. *)
Definition coerces (sys : system_api) (f : req_field) (c : string) : bool :=
  match f with
  | int_field _ _ _ => match stoi c with Some _ => true | None => false end
  | float_field _ _ _ | float_to_int_field _ _ _ =>
      match sys.(stof) c with Some _ => true | None => false end
  | bool_field _ _ _ | string_field _ _ _ => true
  end.

Definition supplied_coerces (sys : system_api) (req : Request)
    (f : req_field) : bool :=
  negb (has_file req (field_key f))
  || coerces sys f (get_file_value req (field_key f)).(content).

(** The member a field assigns has the same value in both blocks. *)
Definition member_unchanged (params params' : whisper_params)
    (f : req_field) : Prop :=
  match f with
  | int_field _ member _ | float_to_int_field _ member _ =>
      member params' = member params
  | float_field _ member _ => member params' = member params
  | bool_field _ member _ => member params' = member params
  | string_field _ member _ => member params' = member params
  end.

(** The assignment of [h] does not touch the member of [g]. *)
Definition preserves (h g : req_field) : Prop :=
  forall sys c params params',
    assign_field sys h c params = Some params' ->
    member_unchanged params params' g.

(** The tokens a verbose JSON segment lists, and the arithmetic mean of
    their [plog] values, in the words of the specification. *)
Definition listed_tokens (eot : Z) (seg : Segment.segment)
    : list Token.whisper_token :=
  filter (fun token => (token.(Token.id) <? eot)%Z) seg.(Segment.tokens).

Definition mean_plog (tokens : list Token.whisper_token) : Q :=
  Qdiv (fold_right Qplus 0%Q (map Token.plog tokens))
       (inject_Z (Z.of_nat (List.length tokens))).

(** The ring after the sliding window is maintained: its trailing two
    seconds when it holds more, itself otherwise. *)
Definition pruned_ring (ring : list Q) : list Q :=
  if (WHISPER_SAMPLE_RATE * 2 <? vsize ring)%N
  then keep_last (WHISPER_SAMPLE_RATE * 2) ring
  else ring.

(** The connection after a run: the ring is pruned, the rest is kept. *)
Definition after_run (conn : WebSocketConnection) : WebSocketConnection :=
  {| ws_conn := conn.(ws_conn);
     audio_buffer := pruned_ring conn.(audio_buffer);
     last_activity := conn.(last_activity);
     is_active := conn.(is_active) |}.

(** The transcription of a result is a string a [std::string] can hold:
    it is shorter than [npos]. *)
Definition result_fits (result : whisper_result) : Prop :=
  (N.of_nat (String.length (collect_transcription result)) < npos)%N.

(** The ring of a session in the registry. *)
Definition ring_of (conn : nat) (st : ws_state) : option (list Q) :=
  option_map audio_buffer (find_connection conn st.(active_connections)).

(** The check of [main] on the parsed command line: the server does not
    start with both diarization modes on. *)
Definition startup_accepts (params : whisper_params) : bool :=
  negb (params.(diarize) && params.(tinydiarize)).

(** ** Sample environments *)

Definition sample_wparams : Full.whisper_full_params :=
  {| Full.strategy := WHISPER_SAMPLING_GREEDY; Full.n_threads := 4;
     Full.n_max_text_ctx := 16384; Full.offset_ms := 0;
     Full.duration_ms := 0; Full.translate := false;
     Full.no_timestamps := false; Full.print_special := false;
     Full.print_progress := true; Full.print_realtime := false;
     Full.print_timestamps := true; Full.token_timestamps := false;
     Full.thold_pt := (1 # 100)%Q; Full.max_len := 0;
     Full.split_on_word := false; Full.max_tokens := 0; Full.step_ms := 0;
     Full.debug_mode := false; Full.audio_ctx := 0;
     Full.tdrz_enable := false; Full.initial_prompt := "";
     Full.language := "en"; Full.suppress_nst := false;
     Full.temperature := 0%Q; Full.entropy_thold := (24 # 10)%Q;
     Full.logprob_thold := (-1)%Q; Full.no_speech_thold := (6 # 10)%Q;
     Full.temperature_inc := (2 # 10)%Q; Full.best_of := 5;
     Full.beam_size := 5; Full.new_segment_callback := false;
     Full.progress_callback := false; Full.encoder_begin_callback := false;
     Full.abort_callback := false |}.

Definition no_result : whisper_result := {| segments := []; lang_id := 0 |}.

(** An engine whose every run returns [status] and leaves [result]. *)
Definition constant_api (status : Z) (result : whisper_result) : whisper_api :=
  {| whisper_full_default_params := fun _ => sample_wparams;
     whisper_full_parallel := fun _ _ _ _ => (status, result);
     whisper_full := fun _ _ _ => (status, result);
     whisper_is_multilingual := fun _ => false;
     whisper_token_eot := fun _ => 50256%Z;
     whisper_lang_str_full := fun _ => "english";
     whisper_init_from_file_with_params := fun _ => true |}.

(** A system for requests that carry no float field and need no file:
    [stof] is never reached with them. *)
Definition bare_system : system_api :=
  {| stof := fun _ => None;
     float_of_le_bytes := fun _ _ _ _ => 0%Q;
     ffmpeg_status := fun _ => 1%Z;
     remove_ok := fun _ => false;
     rename_ok := fun _ => false;
     converted_file := fun _ => None;
     is_file_exist := fun _ => false;
     json_parse := fun _ => None |}.

Definition default_sparams : server_params :=
  {| hostname := "127.0.0.1"; public_path := "examples/server/public";
     request_path := ""; inference_path := "/inference"; port := 8080;
     read_timeout := 600; write_timeout := 600; ffmpeg_converter := false |}.

Definition part (key value : string) : string * MultipartFormData :=
  (key, {| name := key; content := value; filename := "";
           part_content_type := "" |}).

(** A canonical WAV blob with no sample: 44 header bytes. *)
Definition empty_wav : string :=
  string_of_list_byte (repeat x00 44).

(** ** Further parts of the server *)

(** Two channels put back in one sequence: [l0 r0 l1 r1 ...]. *)
Fixpoint interleave (l r : list Q) : list Q :=
  match l, r with
  | x :: l', y :: r' => x :: y :: interleave l' r'
  | _, _ => []
  end.

(** The handler of [svr.set_error_handler], on the status and the content
    the response has when the library calls it; [path] is [req.path]. *)
Definition error_handler (path : string) (status : Z) (res : Response)
    : Z * Response :=
  if (status =? 400)%Z then
    (status, set_content (text_body "Invalid request") "text/plain")
  else if negb (status =? 500)%Z then
    (404%Z,
     set_content (text_body ("File Not Found (" ++ path ++ ")")%string)
       "text/plain")
  else (status, res).

(** The handler of [svr.set_exception_handler].  [what] is [e.what()] of a
    [std::exception], [None] for any other exception; [bufsiz] is the
    platform's [BUFSIZ], and [snprintf] keeps at most [bufsiz - 1]
    characters of the message. *)
Definition exception_handler (bufsiz : nat) (what : option string)
    : Z * Response :=
  let message :=
    ("500 Internal Server Error" ++ nl
     ++ match what with
        | Some w => w
        | None => "Unknown Exception"
        end)%string in
  (500%Z,
   set_content (text_body (string_firstn (bufsiz - 1) message)) "text/plain").

(** The binary frames of one connection, delivered in arrival order by the
    poll thread: each frame is its payload with the two clock readings of
    its callback.  An exception in a callback ends the run. *)
Fixpoint ws_frames (api : whisper_api) (st : ws_state) (conn : nat)
    (frames : list (list byte * Z * Z)) : option (ws_state * list event) :=
  match frames with
  | [] => Some (st, [])
  | (payload, now, epoch_ms) :: rest =>
      match processAudioData api st conn payload now epoch_ms with
      | None => None
      | Some (st', events) =>
          match ws_frames api st' conn rest with
          | None => None
          | Some (st'', events') => Some (st'', events ++ events')
          end
      end
  end.

(** A request with one more multipart field after the ones it has. *)
Definition add_part (req : Request) (key : string) (value : MultipartFormData)
    : Request :=
  {| files := req.(files) ++ [(key, value)] |}.

(** ** The command line *)

(** Assignment to the members of [whisper_params] that only the command
    line sets. *)
Definition set_n_threads (v : Z) (p : whisper_params) : whisper_params :=
  {| n_threads := v; n_processors := p.(n_processors);
     offset_t_ms := p.(offset_t_ms); offset_n := p.(offset_n);
     duration_ms := p.(duration_ms); progress_step := p.(progress_step);
     max_context := p.(max_context); max_len := p.(max_len);
     best_of := p.(best_of); beam_size := p.(beam_size);
     audio_ctx := p.(audio_ctx); word_thold := p.(word_thold);
     entropy_thold := p.(entropy_thold); logprob_thold := p.(logprob_thold);
     temperature := p.(temperature); temperature_inc := p.(temperature_inc);
     no_speech_thold := p.(no_speech_thold); debug_mode := p.(debug_mode);
     translate := p.(translate); detect_language := p.(detect_language);
     diarize := p.(diarize); tinydiarize := p.(tinydiarize);
     split_on_word := p.(split_on_word); no_fallback := p.(no_fallback);
     print_special := p.(print_special); print_colors := p.(print_colors);
     print_realtime := p.(print_realtime);
     print_progress := p.(print_progress);
     no_timestamps := p.(no_timestamps); use_gpu := p.(use_gpu);
     flash_attn := p.(flash_attn); suppress_nst := p.(suppress_nst);
     language := p.(language); prompt := p.(prompt);
     font_path := p.(font_path); model := p.(model);
     response_format := p.(response_format);
     tdrz_speaker_turn := p.(tdrz_speaker_turn);
     openvino_encode_device := p.(openvino_encode_device); dtw := p.(dtw) |}.

Definition set_n_processors (v : Z) (p : whisper_params) : whisper_params :=
  {| n_threads := p.(n_threads); n_processors := v;
     offset_t_ms := p.(offset_t_ms); offset_n := p.(offset_n);
     duration_ms := p.(duration_ms); progress_step := p.(progress_step);
     max_context := p.(max_context); max_len := p.(max_len);
     best_of := p.(best_of); beam_size := p.(beam_size);
     audio_ctx := p.(audio_ctx); word_thold := p.(word_thold);
     entropy_thold := p.(entropy_thold); logprob_thold := p.(logprob_thold);
     temperature := p.(temperature); temperature_inc := p.(temperature_inc);
     no_speech_thold := p.(no_speech_thold); debug_mode := p.(debug_mode);
     translate := p.(translate); detect_language := p.(detect_language);
     diarize := p.(diarize); tinydiarize := p.(tinydiarize);
     split_on_word := p.(split_on_word); no_fallback := p.(no_fallback);
     print_special := p.(print_special); print_colors := p.(print_colors);
     print_realtime := p.(print_realtime);
     print_progress := p.(print_progress);
     no_timestamps := p.(no_timestamps); use_gpu := p.(use_gpu);
     flash_attn := p.(flash_attn); suppress_nst := p.(suppress_nst);
     language := p.(language); prompt := p.(prompt);
     font_path := p.(font_path); model := p.(model);
     response_format := p.(response_format);
     tdrz_speaker_turn := p.(tdrz_speaker_turn);
     openvino_encode_device := p.(openvino_encode_device); dtw := p.(dtw) |}.

Definition set_no_speech_thold (v : Q) (p : whisper_params)
    : whisper_params :=
  {| n_threads := p.(n_threads); n_processors := p.(n_processors);
     offset_t_ms := p.(offset_t_ms); offset_n := p.(offset_n);
     duration_ms := p.(duration_ms); progress_step := p.(progress_step);
     max_context := p.(max_context); max_len := p.(max_len);
     best_of := p.(best_of); beam_size := p.(beam_size);
     audio_ctx := p.(audio_ctx); word_thold := p.(word_thold);
     entropy_thold := p.(entropy_thold); logprob_thold := p.(logprob_thold);
     temperature := p.(temperature); temperature_inc := p.(temperature_inc);
     no_speech_thold := v; debug_mode := p.(debug_mode);
     translate := p.(translate); detect_language := p.(detect_language);
     diarize := p.(diarize); tinydiarize := p.(tinydiarize);
     split_on_word := p.(split_on_word); no_fallback := p.(no_fallback);
     print_special := p.(print_special); print_colors := p.(print_colors);
     print_realtime := p.(print_realtime);
     print_progress := p.(print_progress);
     no_timestamps := p.(no_timestamps); use_gpu := p.(use_gpu);
     flash_attn := p.(flash_attn); suppress_nst := p.(suppress_nst);
     language := p.(language); prompt := p.(prompt);
     font_path := p.(font_path); model := p.(model);
     response_format := p.(response_format);
     tdrz_speaker_turn := p.(tdrz_speaker_turn);
     openvino_encode_device := p.(openvino_encode_device); dtw := p.(dtw) |}.

Definition set_no_fallback (v : bool) (p : whisper_params) : whisper_params :=
  {| n_threads := p.(n_threads); n_processors := p.(n_processors);
     offset_t_ms := p.(offset_t_ms); offset_n := p.(offset_n);
     duration_ms := p.(duration_ms); progress_step := p.(progress_step);
     max_context := p.(max_context); max_len := p.(max_len);
     best_of := p.(best_of); beam_size := p.(beam_size);
     audio_ctx := p.(audio_ctx); word_thold := p.(word_thold);
     entropy_thold := p.(entropy_thold); logprob_thold := p.(logprob_thold);
     temperature := p.(temperature); temperature_inc := p.(temperature_inc);
     no_speech_thold := p.(no_speech_thold); debug_mode := p.(debug_mode);
     translate := p.(translate); detect_language := p.(detect_language);
     diarize := p.(diarize); tinydiarize := p.(tinydiarize);
     split_on_word := p.(split_on_word); no_fallback := v;
     print_special := p.(print_special); print_colors := p.(print_colors);
     print_realtime := p.(print_realtime);
     print_progress := p.(print_progress);
     no_timestamps := p.(no_timestamps); use_gpu := p.(use_gpu);
     flash_attn := p.(flash_attn); suppress_nst := p.(suppress_nst);
     language := p.(language); prompt := p.(prompt);
     font_path := p.(font_path); model := p.(model);
     response_format := p.(response_format);
     tdrz_speaker_turn := p.(tdrz_speaker_turn);
     openvino_encode_device := p.(openvino_encode_device); dtw := p.(dtw) |}.

Definition set_print_special (v : bool) (p : whisper_params)
    : whisper_params :=
  {| n_threads := p.(n_threads); n_processors := p.(n_processors);
     offset_t_ms := p.(offset_t_ms); offset_n := p.(offset_n);
     duration_ms := p.(duration_ms); progress_step := p.(progress_step);
     max_context := p.(max_context); max_len := p.(max_len);
     best_of := p.(best_of); beam_size := p.(beam_size);
     audio_ctx := p.(audio_ctx); word_thold := p.(word_thold);
     entropy_thold := p.(entropy_thold); logprob_thold := p.(logprob_thold);
     temperature := p.(temperature); temperature_inc := p.(temperature_inc);
     no_speech_thold := p.(no_speech_thold); debug_mode := p.(debug_mode);
     translate := p.(translate); detect_language := p.(detect_language);
     diarize := p.(diarize); tinydiarize := p.(tinydiarize);
     split_on_word := p.(split_on_word); no_fallback := p.(no_fallback);
     print_special := v; print_colors := p.(print_colors);
     print_realtime := p.(print_realtime);
     print_progress := p.(print_progress);
     no_timestamps := p.(no_timestamps); use_gpu := p.(use_gpu);
     flash_attn := p.(flash_attn); suppress_nst := p.(suppress_nst);
     language := p.(language); prompt := p.(prompt);
     font_path := p.(font_path); model := p.(model);
     response_format := p.(response_format);
     tdrz_speaker_turn := p.(tdrz_speaker_turn);
     openvino_encode_device := p.(openvino_encode_device); dtw := p.(dtw) |}.

Definition set_print_colors (v : bool) (p : whisper_params)
    : whisper_params :=
  {| n_threads := p.(n_threads); n_processors := p.(n_processors);
     offset_t_ms := p.(offset_t_ms); offset_n := p.(offset_n);
     duration_ms := p.(duration_ms); progress_step := p.(progress_step);
     max_context := p.(max_context); max_len := p.(max_len);
     best_of := p.(best_of); beam_size := p.(beam_size);
     audio_ctx := p.(audio_ctx); word_thold := p.(word_thold);
     entropy_thold := p.(entropy_thold); logprob_thold := p.(logprob_thold);
     temperature := p.(temperature); temperature_inc := p.(temperature_inc);
     no_speech_thold := p.(no_speech_thold); debug_mode := p.(debug_mode);
     translate := p.(translate); detect_language := p.(detect_language);
     diarize := p.(diarize); tinydiarize := p.(tinydiarize);
     split_on_word := p.(split_on_word); no_fallback := p.(no_fallback);
     print_special := p.(print_special); print_colors := v;
     print_realtime := p.(print_realtime);
     print_progress := p.(print_progress);
     no_timestamps := p.(no_timestamps); use_gpu := p.(use_gpu);
     flash_attn := p.(flash_attn); suppress_nst := p.(suppress_nst);
     language := p.(language); prompt := p.(prompt);
     font_path := p.(font_path); model := p.(model);
     response_format := p.(response_format);
     tdrz_speaker_turn := p.(tdrz_speaker_turn);
     openvino_encode_device := p.(openvino_encode_device); dtw := p.(dtw) |}.

Definition set_print_realtime (v : bool) (p : whisper_params)
    : whisper_params :=
  {| n_threads := p.(n_threads); n_processors := p.(n_processors);
     offset_t_ms := p.(offset_t_ms); offset_n := p.(offset_n);
     duration_ms := p.(duration_ms); progress_step := p.(progress_step);
     max_context := p.(max_context); max_len := p.(max_len);
     best_of := p.(best_of); beam_size := p.(beam_size);
     audio_ctx := p.(audio_ctx); word_thold := p.(word_thold);
     entropy_thold := p.(entropy_thold); logprob_thold := p.(logprob_thold);
     temperature := p.(temperature); temperature_inc := p.(temperature_inc);
     no_speech_thold := p.(no_speech_thold); debug_mode := p.(debug_mode);
     translate := p.(translate); detect_language := p.(detect_language);
     diarize := p.(diarize); tinydiarize := p.(tinydiarize);
     split_on_word := p.(split_on_word); no_fallback := p.(no_fallback);
     print_special := p.(print_special); print_colors := p.(print_colors);
     print_realtime := v; print_progress := p.(print_progress);
     no_timestamps := p.(no_timestamps); use_gpu := p.(use_gpu);
     flash_attn := p.(flash_attn); suppress_nst := p.(suppress_nst);
     language := p.(language); prompt := p.(prompt);
     font_path := p.(font_path); model := p.(model);
     response_format := p.(response_format);
     tdrz_speaker_turn := p.(tdrz_speaker_turn);
     openvino_encode_device := p.(openvino_encode_device); dtw := p.(dtw) |}.

Definition set_print_progress (v : bool) (p : whisper_params)
    : whisper_params :=
  {| n_threads := p.(n_threads); n_processors := p.(n_processors);
     offset_t_ms := p.(offset_t_ms); offset_n := p.(offset_n);
     duration_ms := p.(duration_ms); progress_step := p.(progress_step);
     max_context := p.(max_context); max_len := p.(max_len);
     best_of := p.(best_of); beam_size := p.(beam_size);
     audio_ctx := p.(audio_ctx); word_thold := p.(word_thold);
     entropy_thold := p.(entropy_thold); logprob_thold := p.(logprob_thold);
     temperature := p.(temperature); temperature_inc := p.(temperature_inc);
     no_speech_thold := p.(no_speech_thold); debug_mode := p.(debug_mode);
     translate := p.(translate); detect_language := p.(detect_language);
     diarize := p.(diarize); tinydiarize := p.(tinydiarize);
     split_on_word := p.(split_on_word); no_fallback := p.(no_fallback);
     print_special := p.(print_special); print_colors := p.(print_colors);
     print_realtime := p.(print_realtime); print_progress := v;
     no_timestamps := p.(no_timestamps); use_gpu := p.(use_gpu);
     flash_attn := p.(flash_attn); suppress_nst := p.(suppress_nst);
     language := p.(language); prompt := p.(prompt);
     font_path := p.(font_path); model := p.(model);
     response_format := p.(response_format);
     tdrz_speaker_turn := p.(tdrz_speaker_turn);
     openvino_encode_device := p.(openvino_encode_device); dtw := p.(dtw) |}.

Definition set_use_gpu (v : bool) (p : whisper_params) : whisper_params :=
  {| n_threads := p.(n_threads); n_processors := p.(n_processors);
     offset_t_ms := p.(offset_t_ms); offset_n := p.(offset_n);
     duration_ms := p.(duration_ms); progress_step := p.(progress_step);
     max_context := p.(max_context); max_len := p.(max_len);
     best_of := p.(best_of); beam_size := p.(beam_size);
     audio_ctx := p.(audio_ctx); word_thold := p.(word_thold);
     entropy_thold := p.(entropy_thold); logprob_thold := p.(logprob_thold);
     temperature := p.(temperature); temperature_inc := p.(temperature_inc);
     no_speech_thold := p.(no_speech_thold); debug_mode := p.(debug_mode);
     translate := p.(translate); detect_language := p.(detect_language);
     diarize := p.(diarize); tinydiarize := p.(tinydiarize);
     split_on_word := p.(split_on_word); no_fallback := p.(no_fallback);
     print_special := p.(print_special); print_colors := p.(print_colors);
     print_realtime := p.(print_realtime);
     print_progress := p.(print_progress);
     no_timestamps := p.(no_timestamps); use_gpu := v;
     flash_attn := p.(flash_attn); suppress_nst := p.(suppress_nst);
     language := p.(language); prompt := p.(prompt);
     font_path := p.(font_path); model := p.(model);
     response_format := p.(response_format);
     tdrz_speaker_turn := p.(tdrz_speaker_turn);
     openvino_encode_device := p.(openvino_encode_device); dtw := p.(dtw) |}.

Definition set_flash_attn (v : bool) (p : whisper_params) : whisper_params :=
  {| n_threads := p.(n_threads); n_processors := p.(n_processors);
     offset_t_ms := p.(offset_t_ms); offset_n := p.(offset_n);
     duration_ms := p.(duration_ms); progress_step := p.(progress_step);
     max_context := p.(max_context); max_len := p.(max_len);
     best_of := p.(best_of); beam_size := p.(beam_size);
     audio_ctx := p.(audio_ctx); word_thold := p.(word_thold);
     entropy_thold := p.(entropy_thold); logprob_thold := p.(logprob_thold);
     temperature := p.(temperature); temperature_inc := p.(temperature_inc);
     no_speech_thold := p.(no_speech_thold); debug_mode := p.(debug_mode);
     translate := p.(translate); detect_language := p.(detect_language);
     diarize := p.(diarize); tinydiarize := p.(tinydiarize);
     split_on_word := p.(split_on_word); no_fallback := p.(no_fallback);
     print_special := p.(print_special); print_colors := p.(print_colors);
     print_realtime := p.(print_realtime);
     print_progress := p.(print_progress);
     no_timestamps := p.(no_timestamps); use_gpu := p.(use_gpu);
     flash_attn := v; suppress_nst := p.(suppress_nst);
     language := p.(language); prompt := p.(prompt);
     font_path := p.(font_path); model := p.(model);
     response_format := p.(response_format);
     tdrz_speaker_turn := p.(tdrz_speaker_turn);
     openvino_encode_device := p.(openvino_encode_device); dtw := p.(dtw) |}.

Definition set_font_path (v : string) (p : whisper_params) : whisper_params :=
  {| n_threads := p.(n_threads); n_processors := p.(n_processors);
     offset_t_ms := p.(offset_t_ms); offset_n := p.(offset_n);
     duration_ms := p.(duration_ms); progress_step := p.(progress_step);
     max_context := p.(max_context); max_len := p.(max_len);
     best_of := p.(best_of); beam_size := p.(beam_size);
     audio_ctx := p.(audio_ctx); word_thold := p.(word_thold);
     entropy_thold := p.(entropy_thold); logprob_thold := p.(logprob_thold);
     temperature := p.(temperature); temperature_inc := p.(temperature_inc);
     no_speech_thold := p.(no_speech_thold); debug_mode := p.(debug_mode);
     translate := p.(translate); detect_language := p.(detect_language);
     diarize := p.(diarize); tinydiarize := p.(tinydiarize);
     split_on_word := p.(split_on_word); no_fallback := p.(no_fallback);
     print_special := p.(print_special); print_colors := p.(print_colors);
     print_realtime := p.(print_realtime);
     print_progress := p.(print_progress);
     no_timestamps := p.(no_timestamps); use_gpu := p.(use_gpu);
     flash_attn := p.(flash_attn); suppress_nst := p.(suppress_nst);
     language := p.(language); prompt := p.(prompt); font_path := v;
     model := p.(model); response_format := p.(response_format);
     tdrz_speaker_turn := p.(tdrz_speaker_turn);
     openvino_encode_device := p.(openvino_encode_device); dtw := p.(dtw) |}.

Definition set_model (v : string) (p : whisper_params) : whisper_params :=
  {| n_threads := p.(n_threads); n_processors := p.(n_processors);
     offset_t_ms := p.(offset_t_ms); offset_n := p.(offset_n);
     duration_ms := p.(duration_ms); progress_step := p.(progress_step);
     max_context := p.(max_context); max_len := p.(max_len);
     best_of := p.(best_of); beam_size := p.(beam_size);
     audio_ctx := p.(audio_ctx); word_thold := p.(word_thold);
     entropy_thold := p.(entropy_thold); logprob_thold := p.(logprob_thold);
     temperature := p.(temperature); temperature_inc := p.(temperature_inc);
     no_speech_thold := p.(no_speech_thold); debug_mode := p.(debug_mode);
     translate := p.(translate); detect_language := p.(detect_language);
     diarize := p.(diarize); tinydiarize := p.(tinydiarize);
     split_on_word := p.(split_on_word); no_fallback := p.(no_fallback);
     print_special := p.(print_special); print_colors := p.(print_colors);
     print_realtime := p.(print_realtime);
     print_progress := p.(print_progress);
     no_timestamps := p.(no_timestamps); use_gpu := p.(use_gpu);
     flash_attn := p.(flash_attn); suppress_nst := p.(suppress_nst);
     language := p.(language); prompt := p.(prompt);
     font_path := p.(font_path); model := v;
     response_format := p.(response_format);
     tdrz_speaker_turn := p.(tdrz_speaker_turn);
     openvino_encode_device := p.(openvino_encode_device); dtw := p.(dtw) |}.

Definition set_openvino_encode_device (v : string) (p : whisper_params)
    : whisper_params :=
  {| n_threads := p.(n_threads); n_processors := p.(n_processors);
     offset_t_ms := p.(offset_t_ms); offset_n := p.(offset_n);
     duration_ms := p.(duration_ms); progress_step := p.(progress_step);
     max_context := p.(max_context); max_len := p.(max_len);
     best_of := p.(best_of); beam_size := p.(beam_size);
     audio_ctx := p.(audio_ctx); word_thold := p.(word_thold);
     entropy_thold := p.(entropy_thold); logprob_thold := p.(logprob_thold);
     temperature := p.(temperature); temperature_inc := p.(temperature_inc);
     no_speech_thold := p.(no_speech_thold); debug_mode := p.(debug_mode);
     translate := p.(translate); detect_language := p.(detect_language);
     diarize := p.(diarize); tinydiarize := p.(tinydiarize);
     split_on_word := p.(split_on_word); no_fallback := p.(no_fallback);
     print_special := p.(print_special); print_colors := p.(print_colors);
     print_realtime := p.(print_realtime);
     print_progress := p.(print_progress);
     no_timestamps := p.(no_timestamps); use_gpu := p.(use_gpu);
     flash_attn := p.(flash_attn); suppress_nst := p.(suppress_nst);
     language := p.(language); prompt := p.(prompt);
     font_path := p.(font_path); model := p.(model);
     response_format := p.(response_format);
     tdrz_speaker_turn := p.(tdrz_speaker_turn); openvino_encode_device := v;
     dtw := p.(dtw) |}.

Definition set_dtw (v : string) (p : whisper_params) : whisper_params :=
  {| n_threads := p.(n_threads); n_processors := p.(n_processors);
     offset_t_ms := p.(offset_t_ms); offset_n := p.(offset_n);
     duration_ms := p.(duration_ms); progress_step := p.(progress_step);
     max_context := p.(max_context); max_len := p.(max_len);
     best_of := p.(best_of); beam_size := p.(beam_size);
     audio_ctx := p.(audio_ctx); word_thold := p.(word_thold);
     entropy_thold := p.(entropy_thold); logprob_thold := p.(logprob_thold);
     temperature := p.(temperature); temperature_inc := p.(temperature_inc);
     no_speech_thold := p.(no_speech_thold); debug_mode := p.(debug_mode);
     translate := p.(translate); detect_language := p.(detect_language);
     diarize := p.(diarize); tinydiarize := p.(tinydiarize);
     split_on_word := p.(split_on_word); no_fallback := p.(no_fallback);
     print_special := p.(print_special); print_colors := p.(print_colors);
     print_realtime := p.(print_realtime);
     print_progress := p.(print_progress);
     no_timestamps := p.(no_timestamps); use_gpu := p.(use_gpu);
     flash_attn := p.(flash_attn); suppress_nst := p.(suppress_nst);
     language := p.(language); prompt := p.(prompt);
     font_path := p.(font_path); model := p.(model);
     response_format := p.(response_format);
     tdrz_speaker_turn := p.(tdrz_speaker_turn);
     openvino_encode_device := p.(openvino_encode_device); dtw := v |}.

(** Assignment to one member of [server_params]. *)
Definition set_port (v : Z) (s : server_params) : server_params :=
  {| hostname := s.(hostname); public_path := s.(public_path);
     request_path := s.(request_path); inference_path := s.(inference_path);
     port := v; read_timeout := s.(read_timeout);
     write_timeout := s.(write_timeout);
     ffmpeg_converter := s.(ffmpeg_converter) |}.

Definition set_hostname (v : string) (s : server_params) : server_params :=
  {| hostname := v; public_path := s.(public_path);
     request_path := s.(request_path); inference_path := s.(inference_path);
     port := s.(port); read_timeout := s.(read_timeout);
     write_timeout := s.(write_timeout);
     ffmpeg_converter := s.(ffmpeg_converter) |}.

Definition set_public_path (v : string) (s : server_params) : server_params :=
  {| hostname := s.(hostname); public_path := v;
     request_path := s.(request_path); inference_path := s.(inference_path);
     port := s.(port); read_timeout := s.(read_timeout);
     write_timeout := s.(write_timeout);
     ffmpeg_converter := s.(ffmpeg_converter) |}.

Definition set_request_path (v : string) (s : server_params)
    : server_params :=
  {| hostname := s.(hostname); public_path := s.(public_path);
     request_path := v; inference_path := s.(inference_path);
     port := s.(port); read_timeout := s.(read_timeout);
     write_timeout := s.(write_timeout);
     ffmpeg_converter := s.(ffmpeg_converter) |}.

Definition set_inference_path (v : string) (s : server_params)
    : server_params :=
  {| hostname := s.(hostname); public_path := s.(public_path);
     request_path := s.(request_path); inference_path := v; port := s.(port);
     read_timeout := s.(read_timeout); write_timeout := s.(write_timeout);
     ffmpeg_converter := s.(ffmpeg_converter) |}.

Definition set_ffmpeg_converter (v : bool) (s : server_params)
    : server_params :=
  {| hostname := s.(hostname); public_path := s.(public_path);
     request_path := s.(request_path); inference_path := s.(inference_path);
     port := s.(port); read_timeout := s.(read_timeout);
     write_timeout := s.(write_timeout); ffmpeg_converter := v |}.

(** Assignment to one member of [hot_path_params]. *)
Module HotAssign.
Definition set_step_ms (v : Z) (h : Hot.hot_path_params)
    : Hot.hot_path_params :=
  {| Hot.step_ms := v; Hot.length_ms := h.(Hot.length_ms);
     Hot.keep_ms := h.(Hot.keep_ms); Hot.capture_id := h.(Hot.capture_id);
     Hot.max_tokens := h.(Hot.max_tokens);
     Hot.audio_ctx := h.(Hot.audio_ctx); Hot.vad_thold := h.(Hot.vad_thold);
     Hot.freq_thold := h.(Hot.freq_thold); Hot.tiny := h.(Hot.tiny);
     Hot.translate := h.(Hot.translate);
     Hot.no_fallback := h.(Hot.no_fallback);
     Hot.print_special := h.(Hot.print_special);
     Hot.no_timestamps := h.(Hot.no_timestamps);
     Hot.use_gpu := h.(Hot.use_gpu); Hot.streaming := h.(Hot.streaming);
     Hot.model := h.(Hot.model); Hot.language := h.(Hot.language) |}.

Definition set_length_ms (v : Z) (h : Hot.hot_path_params)
    : Hot.hot_path_params :=
  {| Hot.step_ms := h.(Hot.step_ms); Hot.length_ms := v;
     Hot.keep_ms := h.(Hot.keep_ms); Hot.capture_id := h.(Hot.capture_id);
     Hot.max_tokens := h.(Hot.max_tokens);
     Hot.audio_ctx := h.(Hot.audio_ctx); Hot.vad_thold := h.(Hot.vad_thold);
     Hot.freq_thold := h.(Hot.freq_thold); Hot.tiny := h.(Hot.tiny);
     Hot.translate := h.(Hot.translate);
     Hot.no_fallback := h.(Hot.no_fallback);
     Hot.print_special := h.(Hot.print_special);
     Hot.no_timestamps := h.(Hot.no_timestamps);
     Hot.use_gpu := h.(Hot.use_gpu); Hot.streaming := h.(Hot.streaming);
     Hot.model := h.(Hot.model); Hot.language := h.(Hot.language) |}.

Definition set_keep_ms (v : Z) (h : Hot.hot_path_params)
    : Hot.hot_path_params :=
  {| Hot.step_ms := h.(Hot.step_ms); Hot.length_ms := h.(Hot.length_ms);
     Hot.keep_ms := v; Hot.capture_id := h.(Hot.capture_id);
     Hot.max_tokens := h.(Hot.max_tokens);
     Hot.audio_ctx := h.(Hot.audio_ctx); Hot.vad_thold := h.(Hot.vad_thold);
     Hot.freq_thold := h.(Hot.freq_thold); Hot.tiny := h.(Hot.tiny);
     Hot.translate := h.(Hot.translate);
     Hot.no_fallback := h.(Hot.no_fallback);
     Hot.print_special := h.(Hot.print_special);
     Hot.no_timestamps := h.(Hot.no_timestamps);
     Hot.use_gpu := h.(Hot.use_gpu); Hot.streaming := h.(Hot.streaming);
     Hot.model := h.(Hot.model); Hot.language := h.(Hot.language) |}.

Definition set_capture_id (v : Z) (h : Hot.hot_path_params)
    : Hot.hot_path_params :=
  {| Hot.step_ms := h.(Hot.step_ms); Hot.length_ms := h.(Hot.length_ms);
     Hot.keep_ms := h.(Hot.keep_ms); Hot.capture_id := v;
     Hot.max_tokens := h.(Hot.max_tokens);
     Hot.audio_ctx := h.(Hot.audio_ctx); Hot.vad_thold := h.(Hot.vad_thold);
     Hot.freq_thold := h.(Hot.freq_thold); Hot.tiny := h.(Hot.tiny);
     Hot.translate := h.(Hot.translate);
     Hot.no_fallback := h.(Hot.no_fallback);
     Hot.print_special := h.(Hot.print_special);
     Hot.no_timestamps := h.(Hot.no_timestamps);
     Hot.use_gpu := h.(Hot.use_gpu); Hot.streaming := h.(Hot.streaming);
     Hot.model := h.(Hot.model); Hot.language := h.(Hot.language) |}.

Definition set_max_tokens (v : Z) (h : Hot.hot_path_params)
    : Hot.hot_path_params :=
  {| Hot.step_ms := h.(Hot.step_ms); Hot.length_ms := h.(Hot.length_ms);
     Hot.keep_ms := h.(Hot.keep_ms); Hot.capture_id := h.(Hot.capture_id);
     Hot.max_tokens := v; Hot.audio_ctx := h.(Hot.audio_ctx);
     Hot.vad_thold := h.(Hot.vad_thold);
     Hot.freq_thold := h.(Hot.freq_thold); Hot.tiny := h.(Hot.tiny);
     Hot.translate := h.(Hot.translate);
     Hot.no_fallback := h.(Hot.no_fallback);
     Hot.print_special := h.(Hot.print_special);
     Hot.no_timestamps := h.(Hot.no_timestamps);
     Hot.use_gpu := h.(Hot.use_gpu); Hot.streaming := h.(Hot.streaming);
     Hot.model := h.(Hot.model); Hot.language := h.(Hot.language) |}.

Definition set_audio_ctx (v : Z) (h : Hot.hot_path_params)
    : Hot.hot_path_params :=
  {| Hot.step_ms := h.(Hot.step_ms); Hot.length_ms := h.(Hot.length_ms);
     Hot.keep_ms := h.(Hot.keep_ms); Hot.capture_id := h.(Hot.capture_id);
     Hot.max_tokens := h.(Hot.max_tokens); Hot.audio_ctx := v;
     Hot.vad_thold := h.(Hot.vad_thold);
     Hot.freq_thold := h.(Hot.freq_thold); Hot.tiny := h.(Hot.tiny);
     Hot.translate := h.(Hot.translate);
     Hot.no_fallback := h.(Hot.no_fallback);
     Hot.print_special := h.(Hot.print_special);
     Hot.no_timestamps := h.(Hot.no_timestamps);
     Hot.use_gpu := h.(Hot.use_gpu); Hot.streaming := h.(Hot.streaming);
     Hot.model := h.(Hot.model); Hot.language := h.(Hot.language) |}.

Definition set_vad_thold (v : Q) (h : Hot.hot_path_params)
    : Hot.hot_path_params :=
  {| Hot.step_ms := h.(Hot.step_ms); Hot.length_ms := h.(Hot.length_ms);
     Hot.keep_ms := h.(Hot.keep_ms); Hot.capture_id := h.(Hot.capture_id);
     Hot.max_tokens := h.(Hot.max_tokens);
     Hot.audio_ctx := h.(Hot.audio_ctx); Hot.vad_thold := v;
     Hot.freq_thold := h.(Hot.freq_thold); Hot.tiny := h.(Hot.tiny);
     Hot.translate := h.(Hot.translate);
     Hot.no_fallback := h.(Hot.no_fallback);
     Hot.print_special := h.(Hot.print_special);
     Hot.no_timestamps := h.(Hot.no_timestamps);
     Hot.use_gpu := h.(Hot.use_gpu); Hot.streaming := h.(Hot.streaming);
     Hot.model := h.(Hot.model); Hot.language := h.(Hot.language) |}.

Definition set_freq_thold (v : Q) (h : Hot.hot_path_params)
    : Hot.hot_path_params :=
  {| Hot.step_ms := h.(Hot.step_ms); Hot.length_ms := h.(Hot.length_ms);
     Hot.keep_ms := h.(Hot.keep_ms); Hot.capture_id := h.(Hot.capture_id);
     Hot.max_tokens := h.(Hot.max_tokens);
     Hot.audio_ctx := h.(Hot.audio_ctx); Hot.vad_thold := h.(Hot.vad_thold);
     Hot.freq_thold := v; Hot.tiny := h.(Hot.tiny);
     Hot.translate := h.(Hot.translate);
     Hot.no_fallback := h.(Hot.no_fallback);
     Hot.print_special := h.(Hot.print_special);
     Hot.no_timestamps := h.(Hot.no_timestamps);
     Hot.use_gpu := h.(Hot.use_gpu); Hot.streaming := h.(Hot.streaming);
     Hot.model := h.(Hot.model); Hot.language := h.(Hot.language) |}.

Definition set_tiny (v : bool) (h : Hot.hot_path_params)
    : Hot.hot_path_params :=
  {| Hot.step_ms := h.(Hot.step_ms); Hot.length_ms := h.(Hot.length_ms);
     Hot.keep_ms := h.(Hot.keep_ms); Hot.capture_id := h.(Hot.capture_id);
     Hot.max_tokens := h.(Hot.max_tokens);
     Hot.audio_ctx := h.(Hot.audio_ctx); Hot.vad_thold := h.(Hot.vad_thold);
     Hot.freq_thold := h.(Hot.freq_thold); Hot.tiny := v;
     Hot.translate := h.(Hot.translate);
     Hot.no_fallback := h.(Hot.no_fallback);
     Hot.print_special := h.(Hot.print_special);
     Hot.no_timestamps := h.(Hot.no_timestamps);
     Hot.use_gpu := h.(Hot.use_gpu); Hot.streaming := h.(Hot.streaming);
     Hot.model := h.(Hot.model); Hot.language := h.(Hot.language) |}.

Definition set_translate (v : bool) (h : Hot.hot_path_params)
    : Hot.hot_path_params :=
  {| Hot.step_ms := h.(Hot.step_ms); Hot.length_ms := h.(Hot.length_ms);
     Hot.keep_ms := h.(Hot.keep_ms); Hot.capture_id := h.(Hot.capture_id);
     Hot.max_tokens := h.(Hot.max_tokens);
     Hot.audio_ctx := h.(Hot.audio_ctx); Hot.vad_thold := h.(Hot.vad_thold);
     Hot.freq_thold := h.(Hot.freq_thold); Hot.tiny := h.(Hot.tiny);
     Hot.translate := v; Hot.no_fallback := h.(Hot.no_fallback);
     Hot.print_special := h.(Hot.print_special);
     Hot.no_timestamps := h.(Hot.no_timestamps);
     Hot.use_gpu := h.(Hot.use_gpu); Hot.streaming := h.(Hot.streaming);
     Hot.model := h.(Hot.model); Hot.language := h.(Hot.language) |}.

Definition set_no_fallback (v : bool) (h : Hot.hot_path_params)
    : Hot.hot_path_params :=
  {| Hot.step_ms := h.(Hot.step_ms); Hot.length_ms := h.(Hot.length_ms);
     Hot.keep_ms := h.(Hot.keep_ms); Hot.capture_id := h.(Hot.capture_id);
     Hot.max_tokens := h.(Hot.max_tokens);
     Hot.audio_ctx := h.(Hot.audio_ctx); Hot.vad_thold := h.(Hot.vad_thold);
     Hot.freq_thold := h.(Hot.freq_thold); Hot.tiny := h.(Hot.tiny);
     Hot.translate := h.(Hot.translate); Hot.no_fallback := v;
     Hot.print_special := h.(Hot.print_special);
     Hot.no_timestamps := h.(Hot.no_timestamps);
     Hot.use_gpu := h.(Hot.use_gpu); Hot.streaming := h.(Hot.streaming);
     Hot.model := h.(Hot.model); Hot.language := h.(Hot.language) |}.

Definition set_print_special (v : bool) (h : Hot.hot_path_params)
    : Hot.hot_path_params :=
  {| Hot.step_ms := h.(Hot.step_ms); Hot.length_ms := h.(Hot.length_ms);
     Hot.keep_ms := h.(Hot.keep_ms); Hot.capture_id := h.(Hot.capture_id);
     Hot.max_tokens := h.(Hot.max_tokens);
     Hot.audio_ctx := h.(Hot.audio_ctx); Hot.vad_thold := h.(Hot.vad_thold);
     Hot.freq_thold := h.(Hot.freq_thold); Hot.tiny := h.(Hot.tiny);
     Hot.translate := h.(Hot.translate);
     Hot.no_fallback := h.(Hot.no_fallback); Hot.print_special := v;
     Hot.no_timestamps := h.(Hot.no_timestamps);
     Hot.use_gpu := h.(Hot.use_gpu); Hot.streaming := h.(Hot.streaming);
     Hot.model := h.(Hot.model); Hot.language := h.(Hot.language) |}.

Definition set_no_timestamps (v : bool) (h : Hot.hot_path_params)
    : Hot.hot_path_params :=
  {| Hot.step_ms := h.(Hot.step_ms); Hot.length_ms := h.(Hot.length_ms);
     Hot.keep_ms := h.(Hot.keep_ms); Hot.capture_id := h.(Hot.capture_id);
     Hot.max_tokens := h.(Hot.max_tokens);
     Hot.audio_ctx := h.(Hot.audio_ctx); Hot.vad_thold := h.(Hot.vad_thold);
     Hot.freq_thold := h.(Hot.freq_thold); Hot.tiny := h.(Hot.tiny);
     Hot.translate := h.(Hot.translate);
     Hot.no_fallback := h.(Hot.no_fallback);
     Hot.print_special := h.(Hot.print_special); Hot.no_timestamps := v;
     Hot.use_gpu := h.(Hot.use_gpu); Hot.streaming := h.(Hot.streaming);
     Hot.model := h.(Hot.model); Hot.language := h.(Hot.language) |}.

Definition set_use_gpu (v : bool) (h : Hot.hot_path_params)
    : Hot.hot_path_params :=
  {| Hot.step_ms := h.(Hot.step_ms); Hot.length_ms := h.(Hot.length_ms);
     Hot.keep_ms := h.(Hot.keep_ms); Hot.capture_id := h.(Hot.capture_id);
     Hot.max_tokens := h.(Hot.max_tokens);
     Hot.audio_ctx := h.(Hot.audio_ctx); Hot.vad_thold := h.(Hot.vad_thold);
     Hot.freq_thold := h.(Hot.freq_thold); Hot.tiny := h.(Hot.tiny);
     Hot.translate := h.(Hot.translate);
     Hot.no_fallback := h.(Hot.no_fallback);
     Hot.print_special := h.(Hot.print_special);
     Hot.no_timestamps := h.(Hot.no_timestamps); Hot.use_gpu := v;
     Hot.streaming := h.(Hot.streaming); Hot.model := h.(Hot.model);
     Hot.language := h.(Hot.language) |}.

Definition set_model (v : string) (h : Hot.hot_path_params)
    : Hot.hot_path_params :=
  {| Hot.step_ms := h.(Hot.step_ms); Hot.length_ms := h.(Hot.length_ms);
     Hot.keep_ms := h.(Hot.keep_ms); Hot.capture_id := h.(Hot.capture_id);
     Hot.max_tokens := h.(Hot.max_tokens);
     Hot.audio_ctx := h.(Hot.audio_ctx); Hot.vad_thold := h.(Hot.vad_thold);
     Hot.freq_thold := h.(Hot.freq_thold); Hot.tiny := h.(Hot.tiny);
     Hot.translate := h.(Hot.translate);
     Hot.no_fallback := h.(Hot.no_fallback);
     Hot.print_special := h.(Hot.print_special);
     Hot.no_timestamps := h.(Hot.no_timestamps);
     Hot.use_gpu := h.(Hot.use_gpu); Hot.streaming := h.(Hot.streaming);
     Hot.model := v; Hot.language := h.(Hot.language) |}.

Definition set_language (v : string) (h : Hot.hot_path_params)
    : Hot.hot_path_params :=
  {| Hot.step_ms := h.(Hot.step_ms); Hot.length_ms := h.(Hot.length_ms);
     Hot.keep_ms := h.(Hot.keep_ms); Hot.capture_id := h.(Hot.capture_id);
     Hot.max_tokens := h.(Hot.max_tokens);
     Hot.audio_ctx := h.(Hot.audio_ctx); Hot.vad_thold := h.(Hot.vad_thold);
     Hot.freq_thold := h.(Hot.freq_thold); Hot.tiny := h.(Hot.tiny);
     Hot.translate := h.(Hot.translate);
     Hot.no_fallback := h.(Hot.no_fallback);
     Hot.print_special := h.(Hot.print_special);
     Hot.no_timestamps := h.(Hot.no_timestamps);
     Hot.use_gpu := h.(Hot.use_gpu); Hot.streaming := h.(Hot.streaming);
     Hot.model := h.(Hot.model); Hot.language := v |}.
End HotAssign.
(** The three structures [whisper_params_parse] writes through its
    reference parameters. *)
Record cli_state : Type := {
  cli_params : whisper_params;
  cli_sparams : server_params;
  cli_hparams : Hot.hot_path_params
}.

Definition on_params (f : whisper_params -> whisper_params) (st : cli_state)
    : cli_state :=
  {| cli_params := f st.(cli_params); cli_sparams := st.(cli_sparams);
     cli_hparams := st.(cli_hparams) |}.

Definition on_sparams (f : server_params -> server_params) (st : cli_state)
    : cli_state :=
  {| cli_params := st.(cli_params); cli_sparams := f st.(cli_sparams);
     cli_hparams := st.(cli_hparams) |}.

Definition on_hparams (f : Hot.hot_path_params -> Hot.hot_path_params)
    (st : cli_state) : cli_state :=
  {| cli_params := st.(cli_params); cli_sparams := st.(cli_sparams);
     cli_hparams := f st.(cli_hparams) |}.

(** What one branch of the [if]/[else if] chain does with its argument:
    print the usage and exit, assign at once, assign the converted next
    argument ([None] is the exception of the conversion), check for a
    next argument and use nothing ([--backend]), or reject the argument. *)
Inductive cli_branch : Type :=
| br_help
| br_flag (assign : cli_state -> cli_state)
| br_value (assign : string -> cli_state -> option cli_state)
| br_backend
| br_unknown.

Section Branches.
Context {T : Type} (lift : (T -> T) -> cli_state -> cli_state).

(** [m = true;] or [m = false;] *)
Definition flag (set : bool -> T -> T) (b : bool) : cli_branch :=
  br_flag (lift (set b)).

(** [m = std::stoi(argv[++i]);] *)
Definition int_value (set : Z -> T -> T) : cli_branch :=
  br_value (fun v st => option_map (fun n => lift (set n) st) (stoi v)).

(** [m = std::stof(argv[++i]);] *)
Definition float_value (sys : system_api) (set : Q -> T -> T) : cli_branch :=
  br_value (fun v st => option_map (fun x => lift (set x) st) (sys.(stof) v)).

(** [m = argv[++i];] *)
Definition string_value (set : string -> T -> T) : cli_branch :=
  br_value (fun v st => Some (lift (set v) st)).

(** [m = parse_str_to_bool(argv[++i]);] *)
Definition bool_value (set : bool -> T -> T) : cli_branch :=
  br_value (fun v st => Some (lift (set (parse_str_to_bool v)) st)).
End Branches.

(** [arg == short || arg == long] *)
Definition arg_is (arg short long : string) : bool :=
  String.eqb arg short || String.eqb arg long.

(** The chain of [whisper_params_parse], in the order of the source: the
    first test that holds selects the branch. *)
Definition branch_of (sys : system_api) (arg : string) : cli_branch :=
  if arg_is arg "-h" "--help" then br_help
  else if arg_is arg "-t" "--threads" then int_value on_params set_n_threads
  else if arg_is arg "-p" "--processors"
  then int_value on_params set_n_processors
  else if arg_is arg "-ot" "--offset-t" then int_value on_params set_offset_t_ms
  else if arg_is arg "-on" "--offset-n" then int_value on_params set_offset_n
  else if arg_is arg "-d" "--duration" then int_value on_params set_duration_ms
  else if arg_is arg "-mc" "--max-context"
  then int_value on_params set_max_context
  else if arg_is arg "-ml" "--max-len" then int_value on_params set_max_len
  else if arg_is arg "-bo" "--best-of" then int_value on_params set_best_of
  else if arg_is arg "-bs" "--beam-size" then int_value on_params set_beam_size
  else if arg_is arg "-ac" "--audio-ctx" then int_value on_params set_audio_ctx
  else if arg_is arg "-wt" "--word-thold"
  then float_value on_params sys set_word_thold
  else if arg_is arg "-et" "--entropy-thold"
  then float_value on_params sys set_entropy_thold
  else if arg_is arg "-lpt" "--logprob-thold"
  then float_value on_params sys set_logprob_thold
  else if arg_is arg "-debug" "--debug-mode"
  then flag on_params set_debug_mode true
  else if arg_is arg "-tr" "--translate" then flag on_params set_translate true
  else if arg_is arg "-di" "--diarize" then flag on_params set_diarize true
  else if arg_is arg "-tdrz" "--tinydiarize"
  then flag on_params set_tinydiarize true
  else if arg_is arg "-sow" "--split-on-word"
  then flag on_params set_split_on_word true
  else if arg_is arg "-nf" "--no-fallback"
  then flag on_params set_no_fallback true
  else if arg_is arg "-fp" "--font-path"
  then string_value on_params set_font_path
  else if arg_is arg "-ps" "--print-special"
  then flag on_params set_print_special true
  else if arg_is arg "-pc" "--print-colors"
  then flag on_params set_print_colors true
  else if arg_is arg "-pr" "--print-realtime"
  then flag on_params set_print_realtime true
  else if arg_is arg "-pp" "--print-progress"
  then flag on_params set_print_progress true
  else if arg_is arg "-nt" "--no-timestamps"
  then flag on_params set_no_timestamps true
  else if arg_is arg "-l" "--language" then string_value on_params set_language
  else if arg_is arg "-dl" "--detect-language"
  then flag on_params set_detect_language true
  else if String.eqb arg "--prompt" then string_value on_params set_prompt
  else if arg_is arg "-m" "--model" then string_value on_params set_model
  else if arg_is arg "-oved" "--ov-e-device"
  then string_value on_params set_openvino_encode_device
  else if arg_is arg "-dtw" "--dtw" then string_value on_params set_dtw
  else if arg_is arg "-ng" "--no-gpu" then flag on_params set_use_gpu false
  else if arg_is arg "-fa" "--flash-attn"
  then flag on_params set_flash_attn true
  else if arg_is arg "-sns" "--suppress-nst"
  then flag on_params set_suppress_nst true
  else if arg_is arg "-nth" "--no-speech-thold"
  then float_value on_params sys set_no_speech_thold
  else if String.eqb arg "--port" then int_value on_sparams set_port
  else if String.eqb arg "--host" then string_value on_sparams set_hostname
  else if String.eqb arg "--public"
  then string_value on_sparams set_public_path
  else if String.eqb arg "--request-path"
  then string_value on_sparams set_request_path
  else if String.eqb arg "--inference-path"
  then string_value on_sparams set_inference_path
  else if String.eqb arg "--convert"
  then flag on_sparams set_ffmpeg_converter true
  else if String.eqb arg "--step-ms"
  then int_value on_hparams HotAssign.set_step_ms
  else if String.eqb arg "--length-ms"
  then int_value on_hparams HotAssign.set_length_ms
  else if String.eqb arg "--keep-ms"
  then int_value on_hparams HotAssign.set_keep_ms
  else if String.eqb arg "--capture-id"
  then int_value on_hparams HotAssign.set_capture_id
  else if String.eqb arg "--max-tokens"
  then int_value on_hparams HotAssign.set_max_tokens
  else if String.eqb arg "--audio-ctx"
  then int_value on_hparams HotAssign.set_audio_ctx
  else if String.eqb arg "--vad-thold"
  then float_value on_hparams sys HotAssign.set_vad_thold
  else if String.eqb arg "--freq-thold"
  then float_value on_hparams sys HotAssign.set_freq_thold
  else if String.eqb arg "--tiny"
  then bool_value on_hparams HotAssign.set_tiny
  else if String.eqb arg "--translate"
  then bool_value on_hparams HotAssign.set_translate
  else if String.eqb arg "--no-fallback"
  then bool_value on_hparams HotAssign.set_no_fallback
  else if String.eqb arg "--print-special"
  then bool_value on_hparams HotAssign.set_print_special
  else if String.eqb arg "--no-timestamps"
  then bool_value on_hparams HotAssign.set_no_timestamps
  else if String.eqb arg "--use-gpu"
  then bool_value on_hparams HotAssign.set_use_gpu
  else if String.eqb arg "--model"
  then string_value on_hparams HotAssign.set_model
  else if String.eqb arg "--language"
  then string_value on_hparams HotAssign.set_language
  else if String.eqb arg "--backend" then br_backend
  else br_unknown.

(** How [whisper_params_parse] ends: it returns [true] or [false] with the
    three structures as it leaves them, it calls [exit], or an exception of
    [std::stoi] or [std::stof] leaves it. *)
Inductive parse_result : Type :=
| returned (ok : bool) (st : cli_state)
| exited (status : Z)
| thrown.

(** [whisper_params_parse] on [argv[1]] ... [argv[argc - 1]]. *)
Fixpoint whisper_params_parse (sys : system_api) (args : list string)
    (st : cli_state) : parse_result :=
  match args with
  | [] => returned true st
  | arg :: rest =>
      match branch_of sys arg with
      | br_help => exited 0
      | br_flag assign => whisper_params_parse sys rest (assign st)
      | br_value assign =>
          match rest with
          | [] => returned false st
          | value :: rest' =>
              match assign value st with
              | Some st' => whisper_params_parse sys rest' st'
              | None => thrown
              end
          end
      | br_backend =>
          match rest with
          | [] => returned false st
          | _ :: _ => whisper_params_parse sys rest st
          end
      | br_unknown => exited 0
      end
  end.

(** The structures [main] declares before it parses; [hw] is
    [std::thread::hardware_concurrency()]. *)
Definition cli_initial (hw : Z) : cli_state :=
  {| cli_params := whisper_params_init hw;
     cli_sparams :=
       {| hostname := "127.0.0.1"; public_path := "examples/server/public";
          request_path := ""; inference_path := "/inference"; port := 8080;
          read_timeout := 600; write_timeout := 600;
          ffmpeg_converter := false |};
     cli_hparams := Hot.init |}.

(** How the first part of [main] ends: [return], [exit], an uncaught
    exception, or the start of the server with the parsed structures. *)
Inductive startup : Type :=
| startup_return (code : Z)
| startup_exit (code : Z)
| startup_throw
| startup_proceeds (st : cli_state).

(** [main] from the parse of the command line to the check of the two
    diarization modes; [whisper_lang_id] is the engine's. *)
Definition main_arguments (sys : system_api) (whisper_lang_id : string -> Z)
    (hw : Z) (args : list string) : startup :=
  match whisper_params_parse sys args (cli_initial hw) with
  | returned false _ => startup_return 1
  | exited status => startup_exit status
  | thrown => startup_throw
  | returned true st =>
      let params := st.(cli_params) in
      if negb (String.eqb params.(language) "auto")
         && (whisper_lang_id params.(language) =? -1)%Z
      then startup_exit 0
      else if params.(diarize) && params.(tinydiarize) then startup_exit 0
      else startup_proceeds st
  end.

(** The branch reads the argument that follows its option. *)
Definition takes_value (br : cli_branch) : bool :=
  match br with
  | br_value _ | br_backend => true
  | _ => false
  end.

(** Every assignment of the branch keeps [I]. *)
Definition branch_preserves (I : cli_state -> Prop) (br : cli_branch) : Prop :=
  match br with
  | br_flag assign => forall st, I st -> I (assign st)
  | br_value assign =>
      forall value st st', I st -> assign value st = Some st' -> I st'
  | _ => True
  end.

(** The members of [hot_path_params] whose options come after an option
    of the same name in the chain. *)
Definition shadowed_members (h : Hot.hot_path_params)
    : Z * bool * bool * bool * bool * string * string :=
  (h.(Hot.audio_ctx), h.(Hot.translate), h.(Hot.no_fallback),
   h.(Hot.print_special), h.(Hot.no_timestamps), h.(Hot.model),
   h.(Hot.language)).

(** * Proofs *)

(** ** The WAV decoder *)

Lemma int16_of_le_range lo hi :
  (-32768 <= int16_of_le lo hi < 32768)%Z.
Proof.
  unfold int16_of_le.
  pose proof (Byte.to_N_bounded lo) as Hlo.
  pose proof (Byte.to_N_bounded hi) as Hhi.
  destruct (Z.ltb_spec (Z.of_N (Byte.to_N lo) + 256 * Z.of_N (Byte.to_N hi))
              32768); lia.
Qed.

Lemma pcm16_to_float_div s :
  (pcm16_to_float s == inject_Z s / inject_Z 32768)%Q.
Proof.
  unfold pcm16_to_float, Qeq, Qdiv, Qmult, Qinv, inject_Z; simpl. lia.
Qed.

Lemma pcm16_to_float_range s :
  (-32768 <= s < 32768)%Z ->
  (-1 <= pcm16_to_float s)%Q /\ (pcm16_to_float s < 1)%Q.
Proof.
  intros Hs. unfold pcm16_to_float, Qle, Qlt; simpl. lia.
Qed.

Lemma pcm16_samples_length data :
  List.length (pcm16_samples data) = Nat.div (List.length data) 2.
Proof.
  induction data as [data IH] using (well_founded_induction
    (Wf_nat.well_founded_ltof _ (@List.length byte))).
  destruct data as [|lo [|hi rest]]; try reflexivity.
  cbn [pcm16_samples List.length].
  rewrite IH by (unfold Wf_nat.ltof; simpl; lia).
  change (S (S (List.length rest))) with (2 + List.length rest).
  replace (2 + List.length rest) with (List.length rest + 1 * 2) by lia.
  rewrite Nat.div_add by lia. lia.
Qed.

Lemma pcm16_samples_nth data i :
  i < List.length (pcm16_samples data) ->
  exists lo hi,
    nth_error data (2 * i) = Some lo /\
    nth_error data (2 * i + 1) = Some hi /\
    nth_error (pcm16_samples data) i
    = Some (pcm16_to_float (int16_of_le lo hi)).
Proof.
  revert data. induction i as [|i IH]; intros data Hi.
  - destruct data as [|lo [|hi rest]]; simpl in Hi; try lia.
    exists lo, hi. repeat split.
  - destruct data as [|lo [|hi rest]]; simpl in Hi; try lia.
    destruct (IH rest) as (lo' & hi' & H0 & H1 & H2); [lia|].
    exists lo', hi'.
    replace (2 * S i) with (S (S (2 * i))) by lia.
    replace (S (S (2 * i)) + 1) with (S (S (2 * i + 1))) by lia.
    cbn [nth_error pcm16_samples]. auto.
Qed.

Lemma nth_error_skipn_add {A} (l : list A) k n :
  nth_error (skipn k l) n = nth_error l (k + n).
Proof.
  revert l. induction k as [|k IH]; intros l; [reflexivity|].
  destruct l as [|x l]; simpl.
  - now destruct n.
  - apply IH.
Qed.

(** The value the decoder reads from two bytes is their little-endian
    signed 16-bit value. *)
Lemma int16_of_le_value lo hi : int16_of_le lo hi = le_int16 lo hi.
Proof.
  unfold int16_of_le, le_int16.
  pose proof (Byte.to_N_bounded lo) as Hlo.
  pose proof (Byte.to_N_bounded hi) as Hhi.
  destruct (Z.ltb_spec (Z.of_N (Byte.to_N lo) + 256 * Z.of_N (Byte.to_N hi))
              32768);
    destruct (N.leb_spec 128 (Byte.to_N hi)); lia.
Qed.

Lemma le_int16_range lo hi : (-32768 <= le_int16 lo hi < 32768)%Z.
Proof. rewrite <- int16_of_le_value. apply int16_of_le_range. Qed.

(** C4.  [read_wav_content] fails on every blob shorter than 44 bytes; on a
    blob of [N >= 44] bytes it succeeds with exactly [(N - 44) / 2] mono
    samples (none for 44 bytes), the [i]-th being the little-endian signed
    16-bit value of bytes [44 + 2i] and [44 + 2i + 1] divided by 32768, a
    value of [[-1, 1)]. *)
Theorem read_wav_content_decodes (content : list byte) (stereo : bool) :
  (List.length content < 44 -> read_wav_content content stereo = None) /\
  (44 <= List.length content ->
   exists pcmf32 pcmf32s,
     read_wav_content content stereo = Some (pcmf32, pcmf32s) /\
     List.length pcmf32 = Nat.div (List.length content - 44) 2 /\
     forall i, i < List.length pcmf32 ->
       exists lo hi,
         nth_error content (44 + 2 * i) = Some lo /\
         nth_error content (44 + 2 * i + 1) = Some hi /\
         nth_error pcmf32 i = Some (le_int16 lo hi # 32768)%Q /\
         (le_int16 lo hi # 32768
          == inject_Z (le_int16 lo hi) / inject_Z 32768)%Q /\
         (-1 <= le_int16 lo hi # 32768)%Q /\
         (le_int16 lo hi # 32768 < 1)%Q).
Proof.
  unfold read_wav_content. split; intros Hlen.
  - apply Nat.ltb_lt in Hlen. now rewrite Hlen.
  - destruct (Nat.ltb_spec (List.length content) 44) as [Hlt|_]; [lia|].
    eexists _, _. split; [reflexivity|]. split.
    + rewrite pcm16_samples_length, length_skipn. reflexivity.
    + intros i Hi.
      destruct (pcm16_samples_nth _ _ Hi) as (lo & hi & H0 & H1 & H2).
      rewrite nth_error_skipn_add in H0, H1.
      rewrite int16_of_le_value in H2.
      exists lo, hi.
      replace (44 + 2 * i + 1) with (44 + (2 * i + 1)) by lia.
      split; [exact H0|]. split; [exact H1|]. split; [exact H2|].
      split; [apply (pcm16_to_float_div (le_int16 lo hi))|].
      apply (pcm16_to_float_range (le_int16 lo hi)), le_int16_range.
Qed.

(** A blob of 43 bytes fails.  A header of 44 bytes followed by the bytes
    [FF 7F 00 80 FE FF] decodes to the three samples [32767/32768], [-1]
    and [-2/32768]: the second byte of each pair carries the high bits and
    the sign. *)
Lemma read_wav_content_decodes_witness :
  read_wav_content (repeat x00 43) false = None /\
  exists pcmf32 pcmf32s,
    read_wav_content (repeat x00 44 ++ [xff; x7f; x00; x80; xfe; xff]) false
    = Some (pcmf32, pcmf32s) /\
    List.length pcmf32 = 3 /\
    nth_error pcmf32 0 = Some (32767 # 32768)%Q /\
    nth_error pcmf32 1 = Some (-32768 # 32768)%Q /\
    nth_error pcmf32 2 = Some (-2 # 32768)%Q.
Proof.
  split.
  - apply (proj1 (read_wav_content_decodes (repeat x00 43) false)).
    simpl. lia.
  - destruct (proj2 (read_wav_content_decodes
                       (repeat x00 44 ++ [xff; x7f; x00; x80; xfe; xff])
                       false))
      as (pcmf32 & pcmf32s & Hread & Hlen & Hsample).
    + simpl. lia.
    + exists pcmf32, pcmf32s. split; [exact Hread|].
      change (Nat.div (List.length (repeat x00 44
                                    ++ [xff; x7f; x00; x80; xfe; xff]) - 44)
                2) with 3 in Hlen.
      split; [exact Hlen|].
      destruct (Hsample 0) as (lo0 & hi0 & Hlo0 & Hhi0 & H0 & _);
        [rewrite Hlen; lia|].
      destruct (Hsample 1) as (lo1 & hi1 & Hlo1 & Hhi1 & H1 & _);
        [rewrite Hlen; lia|].
      destruct (Hsample 2) as (lo2 & hi2 & Hlo2 & Hhi2 & H2 & _);
        [rewrite Hlen; lia|].
      cbn in Hlo0, Hhi0, Hlo1, Hhi1, Hlo2, Hhi2.
      injection Hlo0 as <-. injection Hhi0 as <-.
      injection Hlo1 as <-. injection Hhi1 as <-.
      injection Hlo2 as <-. injection Hhi2 as <-.
      split; [exact H0|]. split; [exact H1|exact H2].
Defined.

(** ** POST /inference: what happens to the parameter block *)

(** Splits the handler along its return statements. *)
Ltac inference_paths api sys sparams req params :=
  unfold inference_handler;
  destruct (has_file req "file"); cbn [negb];
  [ destruct (load_audio sys sparams
                (get_file_value req "file").(content)
                (get_req_parameters sys req params))
      as [[failure message]|[pcmf32 pcmf32s]] eqn:?;
    [ | destruct (api.(whisper_full_parallel) ctx
                    (inference_wparams api
                       (coerce_language api
                          (get_req_parameters sys req params)))
                    pcmf32
                    (coerce_language api
                       (get_req_parameters sys req params)).(n_processors))
          as [status result] eqn:?;
        destruct (status =? 0)%Z eqn:?; cbn [negb] ]
  | ];
  cbn [outcome params_after trace response].

Lemma load_audio_failure sys sparams blob params failure message :
  load_audio sys sparams blob params = inl (failure, message) ->
  failure = conversion_failed \/ failure = wav_read_failed.
Proof.
  unfold load_audio.
  destruct (ffmpeg_converter sparams).
  - destruct (convert_to_wav sys blob).
    + intros [= <- _]. now left.
    + destruct (read_wav _ _); [discriminate|]. intros [= <- _]. now right.
  - destruct (read_wav_content _ _); [discriminate|].
    intros [= <- _]. now right.
Qed.

Lemma serve_inference_step api sys sparams default_params req rest params :
  serve_inference api sys sparams default_params (req :: rest) params
  = (inference_handler api sys sparams default_params req params
     :: fst (serve_inference api sys sparams default_params rest
               (inference_handler api sys sparams default_params req
                  params).(params_after)),
     snd (serve_inference api sys sparams default_params rest
            (inference_handler api sys sparams default_params req
               params).(params_after))).
Proof.
  cbn [serve_inference].
  now destruct (serve_inference api sys sparams default_params rest _).
Qed.

(** C6.  When a POST /inference request completes (the handler reaches its
    last statement instead of one of the error returns), the parameter
    block it leaves is the copy of the startup defaults, so the request
    after it starts from the defaults. *)
Theorem inference_completed_resets_params (api : whisper_api)
    (sys : system_api) (sparams : server_params)
    (default_params : whisper_params) (req : Request)
    (params : whisper_params) :
  (inference_handler api sys sparams default_params req params).(outcome)
  = completed ->
  (inference_handler api sys sparams default_params req params).(params_after)
  = default_params /\
  forall rest,
    serve_inference api sys sparams default_params (req :: rest) params
    = (inference_handler api sys sparams default_params req params
       :: fst (serve_inference api sys sparams default_params rest
                 default_params),
       snd (serve_inference api sys sparams default_params rest
              default_params)).
Proof.
  intros Hdone.
  assert (Hreset :
    (inference_handler api sys sparams default_params req params)
      .(params_after) = default_params).
  { revert Hdone. inference_paths api sys sparams req params;
      try discriminate; try reflexivity.
    intros ->.
    match goal with
    | H : load_audio _ _ _ _ = _ |- _ =>
        destruct (load_audio_failure _ _ _ _ _ _ H); discriminate
    end. }
  split; [exact Hreset|].
  intros rest. rewrite serve_inference_step, Hreset. reflexivity.
Qed.

Lemma inference_completed_resets_params_witness :
  (inference_handler (constant_api 0 no_result) bare_system default_sparams
     (whisper_params_init 4)
     {| files := [part "file" empty_wav; part "response_format" "srt"] |}
     (whisper_params_init 4)).(params_after)
  = whisper_params_init 4.
Proof.
  apply (inference_completed_resets_params (constant_api 0 no_result)
           bare_system default_sparams (whisper_params_init 4)
           {| files := [part "file" empty_wav;
                        part "response_format" "srt"] |}
           (whisper_params_init 4)).
  vm_compute. reflexivity.
Defined.



(** ** POST /inference: the two diarization modes *)

(** C5, evaluated.  The server starts with its defaults ([diarize] on,
    [tinydiarize] off), which pass the check of [main]; a request whose
    only parameter field is [tinydiarize=true] is then processed to
    completion with both modes on: the block in effect at the engine call
    has [diarize] and [tinydiarize] true, and the engine runs with
    [tdrz_enable]. *)
Theorem inference_runs_with_both_diarize_modes :
  let req := {| files := [part "file" empty_wav;
                          part "tinydiarize" "true"] |} in
  let api := constant_api 0 no_result in
  let params := whisper_params_init 4 in
  let r := inference_handler api bare_system default_sparams params req
             params in
  startup_accepts params = true /\
  r.(outcome) = completed /\
  (effective_params api bare_system req params).(diarize) = true /\
  (effective_params api bare_system req params).(tinydiarize) = true /\
  r.(trace)
  = lock_guard whisper_mutex
      [FullParallel ctx
         (inference_wparams api (effective_params api bare_system req params))
         [] 1%Z] /\
  (inference_wparams api (effective_params api bare_system req params))
    .(Full.tdrz_enable) = true.
Proof.
  cbv zeta. repeat split; vm_compute; reflexivity.
Qed.

(** ** The parameter overlay *)

Create HintDb overlay.

Section Overlay.

Variable sys : system_api.
Variable req : Request.

Lemma assign_field_coerces f c params :
  coerces sys f c = true ->
  exists params', assign_field sys f c params = Some params'.
Proof.
  destruct f; cbn [coerces assign_field]; intros H;
    try (destruct (stoi c); [|discriminate]);
    try (destruct (sys.(stof) c); [|discriminate]);
    eexists; reflexivity.
Qed.

Lemma assign_field_fails f c params :
  coerces sys f c = false -> assign_field sys f c params = None.
Proof.
  destruct f; cbn [coerces assign_field]; intros H;
    try discriminate;
    try (destruct (stoi c); [discriminate|reflexivity]);
    try (destruct (sys.(stof) c); [discriminate|reflexivity]).
Qed.

(** Without a failing field the [try] block is the field-wise overlay. *)
Lemma run_fields_all_coerce fs params :
  forallb (supplied_coerces sys req) fs = true ->
  run_fields sys fs req params = overlay_each sys fs req params.
Proof.
  revert params. induction fs as [|f fs IH]; intros params Hall;
    [reflexivity|].
  cbn [forallb] in Hall. apply andb_true_iff in Hall as [Hf Hall].
  cbn [run_fields overlay_each fold_left]. unfold overlay_field at 2.
  unfold supplied_coerces in Hf.
  destruct (has_file req (field_key f)); cbn [negb orb] in Hf.
  - destruct (assign_field_coerces f _ params Hf) as [params' ->].
    now apply IH.
  - now apply IH.
Qed.

(** The block leaves the [try] at the first supplied field that fails. *)
Lemma run_fields_first_failure pre f post params :
  forallb (supplied_coerces sys req) pre = true ->
  supplied_coerces sys req f = false ->
  run_fields sys (pre ++ f :: post) req params
  = overlay_each sys pre req params.
Proof.
  revert params. induction pre as [|g pre IH]; intros params Hall Hf.
  - cbn [app run_fields overlay_each fold_left].
    unfold supplied_coerces in Hf.
    destruct (has_file req (field_key f)); cbn [negb orb] in Hf;
      [|discriminate].
    now rewrite (assign_field_fails f _ params Hf).
  - cbn [forallb] in Hall. apply andb_true_iff in Hall as [Hg Hall].
    cbn [app run_fields overlay_each fold_left]. unfold overlay_field at 2.
    unfold supplied_coerces in Hg.
    destruct (has_file req (field_key g)); cbn [negb orb] in Hg.
    + destruct (assign_field_coerces g _ params Hg) as [params' ->].
      now apply IH.
    + now apply IH.
Qed.

Lemma member_unchanged_refl params g : member_unchanged params params g.
Proof. destruct g; reflexivity. Qed.

#[local] Hint Resolve member_unchanged_refl : overlay.

Lemma member_unchanged_trans p1 p2 p3 g :
  member_unchanged p1 p2 g -> member_unchanged p2 p3 g ->
  member_unchanged p1 p3 g.
Proof. destruct g; cbn [member_unchanged]; congruence. Qed.

Lemma overlay_each_preserves fs g params :
  Forall (fun h => preserves h g) fs ->
  member_unchanged params (overlay_each sys fs req params) g.
Proof.
  revert params. induction fs as [|h fs IH]; intros params Hfs.
  - auto with overlay.
  - inversion Hfs as [|? ? Hh Hrest]; subst.
    cbn [overlay_each fold_left].
    apply member_unchanged_trans with (p2 := overlay_field sys req params h).
    + unfold overlay_field.
      destruct (has_file req (field_key h)); [|auto with overlay].
      destruct (assign_field sys h _ params) eqn:E; [|auto with overlay].
      exact (Hh _ _ _ _ E).
    + now apply IH.
Qed.

Ltac solve_preserves :=
  let sys := fresh in
  let c := fresh in
  let p := fresh in
  let p' := fresh in
  let E := fresh in
  intros sys c p p' E; cbn [assign_field] in E;
  try (destruct (stoi c); cbn [option_map] in E; [|discriminate E]);
  try (destruct (sys.(stof) c); cbn [option_map] in E; [|discriminate E]);
  injection E as <-; reflexivity.

Ltac solve_suffix :=
  repeat match goal with
  | |- Forall _ [] => constructor
  | |- Forall _ (_ :: _) => constructor; [solve_preserves|]
  end.

(** A field whose coercion can fail is a numeric one; the statements in
    front of it assign other members than it and the statements after it
    do. *)
Lemma fields_before_failure pre f post c :
  req_fields = pre ++ f :: post ->
  coerces sys f c = false ->
  Forall (fun g => Forall (fun h => preserves h g) pre) (f :: post).
Proof.
  unfold req_fields. intros Hsplit Hfail.
  repeat
    (destruct pre as [|? pre]; cbn [app] in Hsplit;
     [ injection Hsplit as <- <-; cbn [coerces] in Hfail;
       try discriminate Hfail;
       repeat (constructor; [solve_suffix|]); constructor
     | injection Hsplit as <- Hsplit ]).
  destruct pre; discriminate Hsplit.
Qed.

(** C9, as the code has it.  The overlay never fails and the request goes
    on to its audio.  When every supplied field coerces, all of them are
    applied.  When a supplied field fails to coerce, the first such field
    [f] in the order of the statements ends the overlay: the result is the
    overlay of the fields in front of [f], and the member of [f] and the
    members of all the fields after [f] keep their prior values, whether
    those fields are supplied or not. *)
Theorem get_req_parameters_stops_at_first_failure (params : whisper_params) :
  (forallb (supplied_coerces sys req) req_fields = true ->
   get_req_parameters sys req params
   = overlay_each sys req_fields req params) /\
  (forall pre f post,
     req_fields = pre ++ f :: post ->
     forallb (supplied_coerces sys req) pre = true ->
     supplied_coerces sys req f = false ->
     get_req_parameters sys req params = overlay_each sys pre req params /\
     Forall (member_unchanged params (get_req_parameters sys req params))
       (f :: post)) /\
  (forall api sparams default_params,
     has_file req "file" = true ->
     (inference_handler api sys sparams default_params req params).(outcome)
     <> no_file_field).
Proof.
  split; [|split].
  - apply run_fields_all_coerce.
  - intros pre f post Hsplit Hpre Hf.
    assert (Hrun : get_req_parameters sys req params
                   = overlay_each sys pre req params).
    { unfold get_req_parameters. rewrite Hsplit.
      now apply run_fields_first_failure. }
    split; [exact Hrun|].
    rewrite Hrun.
    assert (Hfail : coerces sys f (get_file_value req (field_key f)).(content)
                    = false).
    { unfold supplied_coerces in Hf.
      destruct (has_file req (field_key f)); cbn [negb orb] in Hf;
        [exact Hf|discriminate]. }
    pose proof (fields_before_failure pre f post _ Hsplit Hfail) as Hpres.
    apply Forall_forall. intros g Hg.
    apply overlay_each_preserves.
    exact (proj1 (Forall_forall _ _) Hpres g Hg).
  - intros api sparams default_params Hfile.
    inference_paths api sys sparams req params;
      try discriminate.
    intros ->.
    match goal with
    | E : load_audio _ _ _ _ = inl _ |- _ =>
        destruct (load_audio_failure _ _ _ _ _ _ E); discriminate
    end.
Qed.

End Overlay.

(** A request with [offset_t=5], [offset_n=x] and [language=fr]: the first
    is applied, the second fails, the third is not applied.  Without the
    failing field both of the others are applied. *)
Lemma get_req_parameters_stops_at_first_failure_witness :
  let req := {| files := [part "file" empty_wav; part "offset_t" "5";
                          part "offset_n" "x"; part "language" "fr"] |} in
  let good := {| files := [part "file" empty_wav; part "offset_t" "5";
                           part "language" "fr"] |} in
  let params := whisper_params_init 4 in
  (get_req_parameters bare_system req params = set_offset_t_ms 5 params /\
   (get_req_parameters bare_system req params).(offset_n) = params.(offset_n)
   /\
   (get_req_parameters bare_system req params).(language) = "en") /\
  get_req_parameters bare_system good params
  = overlay_each bare_system req_fields good params /\
  (inference_handler (constant_api 0 no_result) bare_system default_sparams
     params req params).(outcome) <> no_file_field.
Proof.
  cbv zeta.
  destruct (get_req_parameters_stops_at_first_failure bare_system
              {| files := [part "file" empty_wav; part "offset_t" "5";
                           part "offset_n" "x"; part "language" "fr"] |}
              (whisper_params_init 4)) as [_ [Hfirst Hgoes]].
  destruct (get_req_parameters_stops_at_first_failure bare_system
              {| files := [part "file" empty_wav; part "offset_t" "5";
                           part "language" "fr"] |}
              (whisper_params_init 4)) as [Hall _].
  split; [|split].
  - destruct (Hfirst [int_field "offset_t" offset_t_ms set_offset_t_ms]
                (int_field "offset_n" offset_n set_offset_n)
                (skipn 2 req_fields))
      as [Hrun Hkept].
    + reflexivity.
    + vm_compute. reflexivity.
    + vm_compute. reflexivity.
    + split; [rewrite Hrun; vm_compute; reflexivity|].
      split.
      * exact (Forall_inv Hkept).
      * rewrite Hrun. vm_compute. reflexivity.
  - apply Hall. vm_compute. reflexivity.
  - apply Hgoes. vm_compute. reflexivity.
Defined.

(** C9, as the claim states it, fails: with [offset_t=abc] and
    [response_format=srt] the coercion of the first field throws, and the
    second field, which the field-wise overlay of the claim applies, is not
    applied by [get_req_parameters]. *)
Lemma get_req_parameters_not_fieldwise :
  let req := {| files := [part "file" empty_wav; part "offset_t" "abc";
                          part "response_format" "srt"] |} in
  let params := whisper_params_init 4 in
  stoi "abc" = None /\
  has_file req "response_format" = true /\
  (overlay_each bare_system req_fields req params).(response_format) = "srt"
  /\
  (get_req_parameters bare_system req params).(response_format) = "json" /\
  get_req_parameters bare_system req params
  <> overlay_each bare_system req_fields req params.
Proof.
  cbv zeta. repeat split; try (vm_compute; reflexivity).
  intros H. apply (f_equal response_format) in H.
  vm_compute in H. discriminate H.
Qed.

(** ** The verbose JSON segment *)

Lemma token_step_total eot no_timestamps st token :
  ((token_step eot no_timestamps st token).(total_logprob)
   == st.(total_logprob)
      + (if (token.(Token.id) <? eot)%Z then token.(Token.plog) else 0))%Q.
Proof.
  unfold token_step.
  rewrite Z.ltb_antisym.
  destruct (eot <=? token.(Token.id))%Z; cbn [negb total_logprob]; ring.
Qed.

(** The loop sums [plog] over the tokens it lists. *)
Lemma token_loop_total eot no_timestamps tokens st :
  ((fold_left (token_step eot no_timestamps) tokens st).(total_logprob)
   == st.(total_logprob)
      + fold_right Qplus 0
          (map Token.plog
             (filter (fun token => (token.(Token.id) <? eot)%Z) tokens)))%Q.
Proof.
  revert st. induction tokens as [|token tokens IH]; intros st.
  - cbn. ring.
  - cbn [fold_left filter]. rewrite IH, token_step_total.
    destruct (token.(Token.id) <? eot)%Z; cbn [map fold_right]; ring.
Qed.

(** What the code computes: the sum over the listed tokens divided by the
    number of all the tokens of the segment. *)
Lemma avg_logprob_quotient eot no_timestamps seg :
  seg.(Segment.tokens) <> [] ->
  exists x,
    avg_logprob eot no_timestamps seg = Some x /\
    (x == fold_right Qplus 0 (map Token.plog (listed_tokens eot seg))
          / inject_Z (Z.of_nat (List.length seg.(Segment.tokens))))%Q.
Proof.
  intros Hne. unfold avg_logprob, logprob_quotient, token_loop_run.
  destruct (Z.eqb_spec (Z.of_nat (List.length seg.(Segment.tokens))) 0)
    as [Hz|_].
  - destruct seg.(Segment.tokens); [congruence|discriminate Hz].
  - eexists. split; [reflexivity|].
    rewrite token_loop_total. cbn [total_logprob]. unfold listed_tokens.
    rewrite Qplus_0_l. reflexivity.
Qed.

(** It is the mean over the listed tokens when no token is skipped. *)
Lemma avg_logprob_mean_when_all_listed eot no_timestamps seg :
  seg.(Segment.tokens) <> [] ->
  listed_tokens eot seg = seg.(Segment.tokens) ->
  exists x,
    avg_logprob eot no_timestamps seg = Some x /\
    (x == mean_plog (listed_tokens eot seg))%Q.
Proof.
  intros Hne Hall.
  destruct (avg_logprob_quotient eot no_timestamps seg Hne) as (x & Hx & Heq).
  exists x. split; [exact Hx|].
  rewrite Heq. unfold mean_plog. rewrite Hall. reflexivity.
Qed.

(** C8, evaluated.  A segment with one text token ([plog = -1]) and the
    end-of-text token ([plog = -3]): the verbose JSON lists the text token
    only, the mean of [plog] over the listed tokens is [-1], and the
    [avg_logprob] member is [-1/2], the sum over the listed tokens divided
    by the number of all the tokens. *)
Theorem avg_logprob_counts_skipped_tokens :
  let eot := 50256%Z in
  let hi := {| Token.id := 10; Token.text := " hi"; Token.p := 1%Q;
               Token.plog := (-1)%Q; Token.t0 := 0; Token.t1 := 50;
               Token.t_dtw := -1 |} in
  let eot_token := {| Token.id := eot; Token.text := "[_EOT_]";
                      Token.p := 1%Q; Token.plog := (-3)%Q; Token.t0 := 50;
                      Token.t1 := 50; Token.t_dtw := -1 |} in
  let seg := {| Segment.text := " hi"; Segment.t0 := 0; Segment.t1 := 50;
                Segment.tokens := [hi; eot_token];
                Segment.no_speech_prob := 0%Q;
                Segment.speaker_turn_next := false |} in
  let params := set_response_format vjson_format (whisper_params_init 4) in
  listed_tokens eot seg = [hi] /\
  (mean_plog (listed_tokens eot seg) == -1)%Q /\
  avg_logprob eot params.(no_timestamps) seg = Some (-1 # 2)%Q /\
  ~ ((-1 # 2) == mean_plog (listed_tokens eot seg))%Q /\
  json_member "tokens" (vjson_segment eot params 0 seg) = Some (JArr [JInt 10])
  /\
  json_member "avg_logprob" (vjson_segment eot params 0 seg)
  = Some (JFloat (-1 # 2)%Q).
Proof.
  cbv zeta. repeat split; try (vm_compute; reflexivity).
  vm_compute. discriminate.
Qed.

(** ** The clean-up of the transcription *)

Lemma string_skipn_all s : string_skipn (String.length s) s = "".
Proof. induction s as [|c s IH]; [reflexivity|exact IH]. Qed.

Lemma string_append_nil_r s : (s ++ "")%string = s.
Proof. induction s as [|c s IH]; [reflexivity|]. cbn. now rewrite IH. Qed.

Lemma drop_leading_length s :
  String.length (drop_leading s) <= String.length s.
Proof.
  induction s as [|c s IH]; [reflexivity|].
  cbn [drop_leading]. destruct (mem_char c trim_chars); cbn [String.length];
    lia.
Qed.

(** [find_first_not_of] counts the leading trim characters. *)
Lemma find_first_not_of_from_spec s i :
  (find_first_not_of_from i s trim_chars = npos /\ drop_leading s = "") \/
  (exists k,
     find_first_not_of_from i s trim_chars = (i + N.of_nat k)%N /\
     k < String.length s /\
     string_skipn k s = drop_leading s).
Proof.
  revert i. induction s as [|c s IH]; intros i.
  - left. split; reflexivity.
  - cbn [find_first_not_of_from drop_leading].
    destruct (mem_char c trim_chars).
    + destruct (IH (N.succ i)) as [[Hnone Hdrop]|(k & Hk & Hlt & Hskip)].
      * left. split; assumption.
      * right. exists (S k). split; [|split].
        -- rewrite Hk. lia.
        -- cbn [String.length]. lia.
        -- exact Hskip.
    + right. exists 0. split; [|split].
      * lia.
      * cbn [String.length]. lia.
      * reflexivity.
Qed.

(** The first [erase] drops the leading trim characters. *)
Lemma erase_leading s :
  (N.of_nat (String.length s) <= npos)%N ->
  erase s 0 (find_first_not_of s trim_chars) = Some (drop_leading s).
Proof.
  intros Hfit. unfold erase, find_first_not_of.
  destruct (N.ltb_spec (N.of_nat (String.length s)) 0) as [Hlt|_]; [lia|].
  cbn [N.to_nat string_firstn String.append]. f_equal.
  destruct (find_first_not_of_from_spec s 0)
    as [[-> Hdrop]|(k & -> & Hlt & Hskip)].
  - rewrite Hdrop.
    replace (N.to_nat (0 + N.min npos (N.of_nat (String.length s) - 0)))
      with (String.length s) by lia.
    apply string_skipn_all.
  - rewrite <- Hskip. f_equal. lia.
Qed.

(** [find_last_not_of] finds the end of what [drop_trailing] keeps. *)
Lemma find_last_not_of_from_spec t i :
  (i + N.of_nat (String.length t) < npos)%N ->
  (find_last_not_of_from i t trim_chars = npos /\ drop_trailing t = "") \/
  (exists k,
     find_last_not_of_from i t trim_chars = (i + N.of_nat k)%N /\
     k < String.length t /\
     string_firstn (S k) t = drop_trailing t).
Proof.
  revert i. induction t as [|c t IH]; intros i Hfit.
  - left. split; reflexivity.
  - cbn [String.length] in Hfit.
    cbn [find_last_not_of_from drop_trailing].
    destruct (IH (N.succ i)) as [[Hnone Hdrop]|(k & Hk & Hlt & Hfirst)];
      [lia| |].
    + rewrite Hnone, N.eqb_refl, Hdrop.
      destruct (mem_char c trim_chars).
      * left. split; reflexivity.
      * right. exists 0. split; [|split].
        -- lia.
        -- cbn [String.length]. lia.
        -- cbn [string_firstn]. now destruct t.
    + rewrite Hk.
      destruct (N.eqb_spec (N.succ i + N.of_nat k) npos) as [Heq|_]; [lia|].
      right. exists (S k). split; [|split].
      * lia.
      * cbn [String.length]. lia.
      * change (string_firstn (S (S k)) (String c t))
          with (String c (string_firstn (S k) t)).
        rewrite Hfirst.
        destruct (drop_trailing t) eqn:Hkept; [|reflexivity].
        destruct t; [cbn in Hlt; lia|discriminate Hfirst].
Qed.

(** The second [erase] drops the trailing trim characters. *)
Lemma erase_trailing t :
  (N.of_nat (String.length t) < npos)%N ->
  erase t (size_t_add (find_last_not_of t trim_chars) 1) npos
  = Some (drop_trailing t).
Proof.
  intros Hfit. unfold find_last_not_of.
  destruct (find_last_not_of_from_spec t 0)
    as [[-> Hdrop]|(k & -> & Hlt & Hfirst)]; [lia| |].
  - rewrite Hdrop.
    change (size_t_add npos 1) with 0%N.
    unfold erase.
    destruct (N.ltb_spec (N.of_nat (String.length t)) 0) as [H|_]; [lia|].
    cbn [N.to_nat string_firstn String.append]. f_equal.
    replace (N.to_nat (0 + N.min npos (N.of_nat (String.length t) - 0)))
      with (String.length t) by lia.
    apply string_skipn_all.
  - assert (Hadd : size_t_add (0 + N.of_nat k) 1 = N.of_nat (S k)).
    { unfold size_t_add. rewrite N.mod_small;
        unfold npos, size_t_max in *; lia. }
    rewrite Hadd. unfold erase.
    destruct (N.ltb_spec (N.of_nat (String.length t)) (N.of_nat (S k)))
      as [H|_]; [lia|].
    f_equal.
    replace (N.to_nat (N.of_nat (S k)
                       + N.min npos
                           (N.of_nat (String.length t) - N.of_nat (S k))))
      with (String.length t) by (unfold npos, size_t_max in *; lia).
    rewrite string_skipn_all, string_append_nil_r, Nat2N.id.
    exact Hfirst.
Qed.

(** The two calls strip the transcription and throw nothing, for every
    transcription a [std::string] can hold. *)
Lemma clean_up_strip transcription :
  (N.of_nat (String.length transcription) < npos)%N ->
  clean_up transcription = Some (strip transcription).
Proof.
  intros Hfit. unfold clean_up, strip.
  rewrite erase_leading by lia.
  apply erase_trailing.
  pose proof (drop_leading_length transcription). lia.
Qed.

Lemma string_append_assoc (a b c : string) :
  ((a ++ b) ++ c = a ++ (b ++ c))%string.
Proof. induction a as [|x a IH]; [reflexivity|]. cbn. now rewrite IH. Qed.

Lemma concat_empty_cons s ss :
  String.concat "" (s :: ss) = (s ++ String.concat "" ss)%string.
Proof.
  destruct ss as [|s' ss]; cbn [String.concat].
  - now rewrite string_append_nil_r.
  - reflexivity.
Qed.

(** The loop concatenates all the segment texts. *)
Lemma collect_transcription_concat result :
  collect_transcription result
  = String.concat "" (map Segment.text result.(segments)).
Proof.
  unfold collect_transcription.
  assert (H : forall segs acc,
    fold_left
      (fun transcription seg =>
         if 0 <? String.length seg.(Segment.text)
         then (transcription ++ seg.(Segment.text))%string
         else transcription) segs acc
    = (acc ++ String.concat "" (map Segment.text segs))%string).
  { induction segs as [|seg segs IH]; intros acc.
    - cbn. now rewrite string_append_nil_r.
    - cbn [fold_left map]. rewrite IH, concat_empty_cons.
      destruct (Segment.text seg) as [|c text]; cbn [String.length Nat.ltb Nat.leb].
      + reflexivity.
      + now rewrite string_append_assoc. }
  now rewrite H.
Qed.

(** ** The WebSocket session *)

Section Session.

Variable api : whisper_api.

(** The serializer accepts the frame of a transcription exactly when the
    transcription is valid UTF-8. *)
Lemma dump_accepts_transcription text epoch_ms :
  dump_accepts (JObj [("text", JStr text);
                      ("timestamp", JInt epoch_ms);
                      ("is_streaming", JBool true)])
  = utf8_valid text.
Proof.
  cbn [dump_accepts forallb fst snd].
  change (utf8_valid "text") with true.
  change (utf8_valid "timestamp") with true.
  change (utf8_valid "is_streaming") with true.
  cbn [andb]. now rewrite andb_true_r.
Qed.

Lemma emit_spec conn result epoch_ms :
  result_fits result ->
  emit conn result epoch_ms
  = if String.eqb (stripped_text result) "" then Some []
    else if utf8_valid (stripped_text result)
    then Some [Send conn OPCODE_TEXT
                 (JObj [("text", JStr (stripped_text result));
                        ("timestamp", JInt epoch_ms);
                        ("is_streaming", JBool true)])]
    else None.
Proof.
  intros Hfit. unfold emit, stripped_text.
  rewrite <- collect_transcription_concat.
  destruct (String.eqb_spec (collect_transcription result) "") as [->|Hne];
    cbn [negb]; [reflexivity|].
  rewrite (clean_up_strip _ Hfit).
  destruct (String.eqb (strip (collect_transcription result)) "");
    cbn [negb]; [reflexivity|].
  unfold sendTranscriptionResult. cbv zeta.
  rewrite dump_accepts_transcription.
  now destruct (utf8_valid (strip (collect_transcription result))).
Qed.

Lemma emit_sends_only conn result epoch_ms sent :
  emit conn result epoch_ms = Some sent ->
  sent_frames sent = sent /\ on_handle hot_ctx sent = true /\
  on_handle ctx sent = true.
Proof.
  unfold emit.
  destruct (negb (String.eqb (collect_transcription result) ""));
    [|intros [= <-]; repeat split].
  destruct (clean_up (collect_transcription result)) as [t|]; [|discriminate].
  destruct (negb (String.eqb t "")); [|intros [= <-]; repeat split].
  unfold sendTranscriptionResult. cbv zeta.
  destruct (dump_accepts _); [|discriminate].
  intros [= <-]; repeat split.
Qed.

(** The shape of every normal return of [processAudioChunk]. *)
Lemma processAudioChunk_returns whisper_ctx epoch_ms conn conn' tr :
  processAudioChunk api whisper_ctx epoch_ms conn = Some (conn', tr) ->
  (conn' = conn /\ tr = [] /\
   (whisper_ctx = None
    \/ (vsize conn.(audio_buffer) < WHISPER_SAMPLE_RATE
                                    + WHISPER_SAMPLE_RATE / 10)%N)) \/
  (exists c sent,
     whisper_ctx = Some c /\
     (WHISPER_SAMPLE_RATE + WHISPER_SAMPLE_RATE / 10
      <= vsize conn.(audio_buffer))%N /\
     conn' = after_run conn /\
     tr = FullParallel c (ws_wparams api)
            (keep_last (WHISPER_SAMPLE_RATE + WHISPER_SAMPLE_RATE / 10)
               conn.(audio_buffer)) 1%Z :: sent /\
     sent_frames sent = sent /\
     on_handle c sent = true).
Proof.
  unfold processAudioChunk.
  destruct whisper_ctx as [c|]; [|intros [= <- <-]; left; auto].
  destruct (N.ltb_spec (vsize conn.(audio_buffer))
              (WHISPER_SAMPLE_RATE + WHISPER_SAMPLE_RATE / 10)) as [Hlt|Hge].
  - intros [= <- <-]. left. auto.
  - destruct (api.(whisper_full_parallel) c (ws_wparams api) _ 1%Z)
      as [status result].
    destruct (if (status =? 0)%Z then emit conn.(ws_conn) result epoch_ms
              else Some []) as [sent|] eqn:Hsent; [|discriminate].
    intros [= <- <-]. right. exists c, sent.
    repeat split; try assumption.
    + destruct (status =? 0)%Z.
      * now apply emit_sends_only in Hsent.
      * now injection Hsent as <-.
    + destruct (status =? 0)%Z.
      * apply emit_sends_only in Hsent. now destruct c.
      * now injection Hsent as <-.
Qed.


Lemma vsize_keep_last {A} (n : N) (l : list A) :
  (n <= vsize l)%N -> vsize (keep_last n l) = n.
Proof.
  unfold keep_last, vsize. intros Hn. rewrite length_skipn. lia.
Qed.





(** *** Binary frames *)

Lemma find_connection_id conn connections c :
  find_connection conn connections = Some c -> c.(ws_conn) = conn.
Proof.
  unfold find_connection. intros H. apply find_some in H as [_ H].
  now apply Nat.eqb_eq in H.
Qed.

Lemma find_store_connection conn updated connections c :
  find_connection conn connections = Some c ->
  updated.(ws_conn) = conn ->
  find_connection conn (store_connection updated connections) = Some updated.
Proof.
  intros Hfind Hid. induction connections as [|x rest IH]; [discriminate|].
  unfold find_connection in *. cbn [find store_connection] in *. rewrite Hid.
  destruct (Nat.eqb x.(ws_conn) conn) eqn:Hx.
  - cbn [find]. now rewrite Hid, Nat.eqb_refl.
  - cbn [find]. rewrite Hx. now apply IH.
Qed.


(** A frame never raises when the transcriptions of the engine fit a
    [std::string] and are valid UTF-8 once stripped. *)
Lemma processAudioData_returns st conn payload now epoch_ms :
  (forall c wparams samples n,
     let result := snd (api.(whisper_full_parallel) c wparams samples n) in
     result_fits result /\ utf8_valid (stripped_text result) = true) ->
  exists st' tr,
    processAudioData api st conn payload now epoch_ms = Some (st', tr).
Proof.
  intros Hfit. unfold processAudioData.
  destruct (find_connection conn st.(active_connections)) as [c|];
    [|eexists _, _; reflexivity].
  cbv zeta.
  destruct (_ <=? _)%N; [|eexists _, _; reflexivity].
  unfold processAudioChunk.
  destruct st.(ws_whisper_ctx) as [c'|]; [|eexists _, _; reflexivity].
  destruct (_ <? _)%N; [eexists _, _; reflexivity|].
  match goal with
  | |- context [api.(whisper_full_parallel) ?c ?w ?s ?n] =>
      pose proof (Hfit c w s n) as Hres;
      destruct (api.(whisper_full_parallel) c w s n) as [status result]
  end.
  cbn [snd] in Hres. cbv zeta in Hres. destruct Hres as [Hres Hvalid].
  destruct (status =? 0)%Z; [|eexists _, _; reflexivity].
  rewrite (emit_spec _ _ _ Hres), Hvalid.
  destruct (String.eqb (stripped_text result) ""); eexists _, _; reflexivity.
Qed.

(** A WebSocket run holds neither engine mutex: the handler only takes the
    registry mutex, and releases it before the run. *)
Lemma ws_run_is_unguarded st conn payload now epoch_ms st' tr :
  processAudioData api st conn payload now epoch_ms = Some (st', tr) ->
  existsb is_inference tr = true ->
  unguarded_use [] tr = true.
Proof.
  unfold processAudioData.
  destruct (find_connection conn st.(active_connections)) as [c|];
    [|intros [= <- <-]; discriminate].
  cbv zeta. destruct (_ <=? _)%N; [|intros [= <- <-]; discriminate].
  destruct (processAudioChunk api st.(ws_whisper_ctx) epoch_ms _)
    as [[c2 events]|] eqn:Hchunk; [|discriminate].
  intros [= <- <-].
  apply processAudioChunk_returns in Hchunk
    as [(_ & -> & _)|(c' & sent & _ & _ & _ & -> & _)].
  - discriminate.
  - reflexivity.
Qed.

End Session.

(** *** Sessions at work *)







(** ** The engine handle and the mutex of each endpoint *)

(** The chunked /hot_stream handler runs the cold context under the cold
    mutex, as /stream does. *)
Lemma hot_stream_chunked_in_cold_domain api sys hparams params req buffer r :
  hot_stream_chunked_handler api sys hparams params req buffer = Some r ->
  in_domain ctx whisper_mutex [] r.(stream_trace) = true.
Proof.
  unfold hot_stream_chunked_handler.
  destruct (has_file req "audio"); cbn [negb]; [|intros [= <-]; reflexivity].
  cbv zeta. destruct (int_mul _ 16000); [|discriminate].
  destruct (_ <=? _)%N; [|intros [= <-]; reflexivity].
  destruct (api.(whisper_full) ctx _ _) as [status result].
  destruct (status =? 0)%Z; cbn [negb]; [|intros [= <-]; reflexivity].
  destruct (int_mul _ 16000); [|discriminate].
  intros [= <-]; reflexivity.
Qed.

(** C1, as the code has it.  POST /inference, POST /load and POST /stream
    use the cold context [ctx] and only while [whisper_mutex] is held, so
    that no inference of the /stream handler is on the hot context; the
    POST /hot_stream handler that takes a WAV [file] uses the hot context
    [hot_ctx] and only while [hot_whisper_mutex] is held; the WebSocket
    /hot_stream path, with the context [main] gives it, uses the hot
    context. *)
Theorem endpoints_use_their_handles (api : whisper_api) (sys : system_api)
    (sparams : server_params) (hparams : Hot.hot_path_params)
    (default_params params : whisper_params) (req : Request)
    (buffer : list Q) (st : ws_state) (conn : nat) (payload : list byte)
    (now epoch_ms : Z) :
  in_domain ctx whisper_mutex []
    (inference_handler api sys sparams default_params req params).(trace)
  = true /\
  in_domain ctx whisper_mutex [] (snd (load_handler api sys req)) = true /\
  in_domain ctx whisper_mutex []
    (stream_handler api sys params req buffer).(stream_trace) = true /\
  (forall e,
     In e (stream_handler api sys params req buffer).(stream_trace) ->
     is_inference e = true -> engine_use e = Some ctx) /\
  in_domain hot_ctx hot_whisper_mutex []
    (snd (hot_stream_handler api hparams params req)) = true /\
  (forall st' tr,
     st.(ws_whisper_ctx) = Some hot_ctx ->
     processAudioData api st conn payload now epoch_ms = Some (st', tr) ->
     on_handle hot_ctx tr = true).
Proof.
  split; [|split; [|split; [|split; [|split]]]].
  - inference_paths api sys sparams req params; reflexivity.
  - unfold load_handler.
    destruct (has_file req "model"); cbn [negb]; [|reflexivity].
    cbv zeta. destruct (sys.(is_file_exist) _); cbn [negb]; [|reflexivity].
    destruct (api.(whisper_init_from_file_with_params) _); reflexivity.
  - unfold stream_handler.
    destruct (has_file req "audio"); cbn [negb]; [|reflexivity].
    cbv zeta. destruct (_ <=? _)%N; [|reflexivity].
    destruct (api.(whisper_full) ctx _ _) as [status result].
    destruct (status =? 0)%Z; reflexivity.
  - intros e. unfold stream_handler.
    destruct (has_file req "audio"); cbn [negb].
    + cbv zeta. destruct (_ <=? _)%N.
      * destruct (api.(whisper_full) ctx _ _) as [status result].
        destruct (status =? 0)%Z; cbn [stream_trace lock_guard app In];
          intros [<-|[<-|[<-|[]]]]; try discriminate; reflexivity.
      * cbn [stream_trace lock_guard app In].
        intros [<-|[<-|[]]]; discriminate.
    + cbn [stream_trace lock_guard app In].
      intros [<-|[<-|[]]]; discriminate.
  - unfold hot_stream_handler.
    destruct (has_file req "file"); cbn [negb]; [|reflexivity].
    cbv zeta. destruct (read_wav_content _ false) as [[pcmf32 pcmf32s]|];
      [|reflexivity].
    destruct (api.(whisper_full_parallel) hot_ctx _ _ _) as [status result].
    destruct (status =? 0)%Z; reflexivity.
  - intros st' tr Hctx. unfold processAudioData.
    destruct (find_connection conn st.(active_connections)) as [c|];
      [|intros [= <- <-]; reflexivity].
    cbv zeta. destruct (_ <=? _)%N; [|intros [= <- <-]; reflexivity].
    destruct (processAudioChunk api st.(ws_whisper_ctx) epoch_ms _)
      as [[c2 events]|] eqn:Hchunk; [|discriminate].
    intros [= <- <-].
    apply processAudioChunk_returns in Hchunk
      as [(_ & -> & _)|(c' & sent & Hc & _ & _ & -> & _ & Hsent)].
    + reflexivity.
    + rewrite Hctx in Hc. injection Hc as <-.
      cbn [app on_handle forallb engine_use whisper_context_eqb andb].
      exact Hsent.
Qed.

(** A session whose ring reaches 1.1 s: the run is on the hot context. *)
Lemma endpoints_use_their_handles_witness :
  let st := {| active_connections :=
                 [{| ws_conn := 7; audio_buffer := repeat 0%Q 17599;
                     last_activity := 0; is_active := true |}];
               ws_whisper_ctx := Some hot_ctx |} in
  exists st' tr,
    processAudioData (constant_api 0 no_result) st 7 [x00; x00] 1 1
    = Some (st', tr) /\
    on_handle hot_ctx tr = true.
Proof.
  cbv zeta.
  destruct (processAudioData_returns (constant_api 0 no_result)
              {| active_connections :=
                   [{| ws_conn := 7; audio_buffer := repeat 0%Q 17599;
                       last_activity := 0; is_active := true |}];
                 ws_whisper_ctx := Some hot_ctx |} 7 [x00; x00] 1 1)
    as (st' & tr & Hrun).
  - intros c wparams samples n. split; vm_compute; reflexivity.
  - exists st', tr. split; [exact Hrun|].
    exact (proj2 (proj2 (proj2 (proj2 (proj2
             (endpoints_use_their_handles (constant_api 0 no_result)
                bare_system default_sparams Hot.init (whisper_params_init 4)
                (whisper_params_init 4) {| files := [] |} []
                {| active_connections :=
                     [{| ws_conn := 7; audio_buffer := repeat 0%Q 17599;
                         last_activity := 0; is_active := true |}];
                   ws_whisper_ctx := Some hot_ctx |} 7 [x00; x00] 1 1)))))
             st' tr eq_refl Hrun).
Defined.

(** C1, as the claim states it, fails: a POST /stream request that brings
    1.1 s of samples makes the handler run an inference, on the cold
    context and under the cold mutex; the trace is not in the hot
    domain. *)
Lemma stream_runs_on_cold_context :
  let req := {| files := [part "audio"
                            (string_of_list_byte (repeat x00 70400))] |} in
  let r := stream_handler (constant_api 0 no_result) bare_system
             (whisper_params_init 4) req [] in
  map engine_use r.(stream_trace) = [None; Some ctx; None] /\
  existsb is_inference r.(stream_trace) = true /\
  on_handle hot_ctx r.(stream_trace) = false /\
  in_domain hot_ctx hot_whisper_mutex [] r.(stream_trace) = false /\
  in_domain ctx whisper_mutex [] r.(stream_trace) = true.
Proof.
  cbv zeta. repeat split; vm_compute; reflexivity.
Qed.


(** * Further properties *)

(** ** Decoding *)

Lemma stereo_channels pcmf32 stereo :
  (if stereo && (Nat.modulo (List.length pcmf32) 2 =? 0)
   then let (l, r) := deinterleave pcmf32 in [l; r]
   else [])
  = (if stereo && Nat.even (List.length pcmf32)
     then [fst (deinterleave pcmf32); snd (deinterleave pcmf32)]
     else []).
Proof.
  replace (Nat.modulo (List.length pcmf32) 2 =? 0)
    with (Nat.even (List.length pcmf32)).
  - now destruct (deinterleave pcmf32).
  - rewrite <- Nat.negb_odd. unfold Nat.odd at 1.
    rewrite Nat.negb_even. unfold Nat.odd.
    destruct (Nat.even (List.length pcmf32)) eqn:E.
    + apply Nat.even_spec in E. destruct E as [k ->].
      rewrite Nat.mul_comm, Nat.Div0.mod_mul. reflexivity.
    + assert (O : Nat.odd (List.length pcmf32) = true)
        by (unfold Nat.odd; now rewrite E).
      apply Nat.odd_spec in O. destruct O as [k ->].
      rewrite Nat.add_comm, Nat.mul_comm, Nat.Div0.mod_add. reflexivity.
Qed.

(** X1.  On a blob of at least 44 bytes the file decoder [read_wav] and
    the in-memory decoder [read_wav_content] give the same audio.  On a
    shorter blob they differ: the in-memory decoder fails, the file decoder
    succeeds with no sample (and two empty channels when stereo is asked
    for). *)
Theorem read_wav_agrees_with_read_wav_content (content : list byte)
    (stereo : bool) :
  (44 <= List.length content ->
   read_wav (Some content) stereo = read_wav_content content stereo) /\
  (List.length content < 44 ->
   read_wav_content content stereo = None /\
   read_wav (Some content) stereo
   = Some ([], if stereo then [[]; []] else [])).
Proof.
  split; intros Hlen.
  - unfold read_wav, read_wav_content.
    destruct (Nat.ltb_spec (List.length content) 44) as [H|_]; [lia|].
    cbv zeta. rewrite <- (length_skipn 44 content).
    rewrite <- pcm16_samples_length. reflexivity.
  - split.
    + unfold read_wav_content. apply Nat.ltb_lt in Hlen. now rewrite Hlen.
    + unfold read_wav. rewrite skipn_all2 by lia. cbn.
      now destruct stereo.
Qed.

Lemma read_wav_agrees_with_read_wav_content_witness :
  read_wav (Some (repeat x00 44 ++ [x01; x00])) true
  = read_wav_content (repeat x00 44 ++ [x01; x00]) true /\
  read_wav_content [x52; x49] true = None /\
  read_wav (Some [x52; x49]) true = Some ([], [[]; []]).
Proof.
  split.
  - apply (proj1 (read_wav_agrees_with_read_wav_content
                    (repeat x00 44 ++ [x01; x00]) true)).
    simpl. lia.
  - apply (proj2 (read_wav_agrees_with_read_wav_content [x52; x49] true)).
    simpl. lia.
Defined.

Lemma deinterleave_interleave pcmf32 :
  Nat.even (List.length pcmf32) = true ->
  List.length (fst (deinterleave pcmf32)) = Nat.div (List.length pcmf32) 2 /\
  List.length (snd (deinterleave pcmf32)) = Nat.div (List.length pcmf32) 2 /\
  interleave (fst (deinterleave pcmf32)) (snd (deinterleave pcmf32)) = pcmf32.
Proof.
  induction pcmf32 as [pcmf32 IH] using (well_founded_induction
    (Wf_nat.well_founded_ltof _ (@List.length Q))).
  destruct pcmf32 as [|l [|r rest]]; intros Heven.
  - repeat split.
  - discriminate Heven.
  - cbn [List.length Nat.even] in Heven.
    destruct (IH rest) as (Hl & Hr & Hi);
      [unfold Wf_nat.ltof; simpl; lia|exact Heven|].
    cbn [deinterleave]. destruct (deinterleave rest) as [ls rs].
    cbn [fst snd List.length interleave] in *.
    replace (S (S (List.length rest))) with (List.length rest + 1 * 2) by lia.
    rewrite Nat.div_add by lia.
    split; [lia|]. split; [lia|]. now rewrite Hi.
Qed.

Lemma read_wav_content_some content stereo pcmf32 pcmf32s :
  read_wav_content content stereo = Some (pcmf32, pcmf32s) ->
  pcmf32 = pcm16_samples (skipn 44 content) /\
  pcmf32s = if stereo && Nat.even (List.length pcmf32)
            then [fst (deinterleave pcmf32); snd (deinterleave pcmf32)]
            else [].
Proof.
  unfold read_wav_content.
  destruct (List.length content <? 44); [discriminate|].
  cbv zeta. rewrite <- (length_skipn 44 content).
  generalize (skipn 44 content) as data. intros data H.
  rewrite <- pcm16_samples_length, stereo_channels in H.
  injection H as <- <-. split; reflexivity.
Qed.

(** X2.  The stereo output of [read_wav_content].  When stereo is asked
    for and the number of samples is even, [pcmf32s] is two channels of
    half that many samples each, and interleaving them gives [pcmf32]
    back.  When the number is odd, or stereo is not asked for, [pcmf32s]
    stays empty. *)
Theorem read_wav_content_stereo (content : list byte) (stereo : bool)
    (pcmf32 : list Q) (pcmf32s : list (list Q)) :
  read_wav_content content stereo = Some (pcmf32, pcmf32s) ->
  if stereo && Nat.even (List.length pcmf32) then
    exists left right,
      pcmf32s = [left; right] /\
      List.length left = Nat.div (List.length pcmf32) 2 /\
      List.length right = Nat.div (List.length pcmf32) 2 /\
      interleave left right = pcmf32
  else pcmf32s = [].
Proof.
  intros H. apply read_wav_content_some in H as [_ ->].
  destruct (stereo && Nat.even (List.length pcmf32)) eqn:E; [|reflexivity].
  apply andb_true_iff in E as [_ Heven].
  destruct (deinterleave_interleave _ Heven) as (Hl & Hr & Hi).
  eexists _, _. repeat split; eassumption.
Qed.

Lemma read_wav_content_stereo_witness :
  exists left right,
    [[pcm16_to_float 1; pcm16_to_float 3];
     [pcm16_to_float 2; pcm16_to_float 4]] = [left; right] /\
    List.length left = 2 /\ List.length right = 2 /\
    interleave left right
    = [pcm16_to_float 1; pcm16_to_float 2; pcm16_to_float 3;
       pcm16_to_float 4].
Proof.
  pose proof (read_wav_content_stereo
                (repeat x00 44 ++ [x01; x00; x02; x00; x03; x00; x04; x00])
                true
                [pcm16_to_float 1; pcm16_to_float 2; pcm16_to_float 3;
                 pcm16_to_float 4]
                [[pcm16_to_float 1; pcm16_to_float 3];
                 [pcm16_to_float 2; pcm16_to_float 4]]
                eq_refl) as H.
  exact H.
Defined.

(** ** Formatting *)

Lemma string_length_append (a b : string) :
  String.length (a ++ b) = String.length a + String.length b.
Proof. induction a as [|c a IH]; [reflexivity|]. cbn. now rewrite IH. Qed.

Lemma to_int_small x :
  (-2147483648 <= x <= 2147483647)%Z -> to_int x = x.
Proof. intros H. unfold to_int. rewrite Z.mod_small; lia. Qed.

Lemma fmt_0d_2_length z :
  (0 <= z < 100)%Z -> String.length (fmt_0d 2 z) = 2.
Proof.
  intros Hz.
  assert (Hall : forallb (fun n => String.length (fmt_0d 2 (Z.of_nat n)) =? 2)
                   (seq 0 100) = true) by (vm_compute; reflexivity).
  rewrite forallb_forall in Hall.
  specialize (Hall (Z.to_nat z)). rewrite Z2Nat.id in Hall by lia.
  apply Nat.eqb_eq, Hall, in_seq. lia.
Qed.

Lemma fmt_0d_3_length z :
  (0 <= z < 1000)%Z -> String.length (fmt_0d 3 z) = 3.
Proof.
  intros Hz.
  assert (Hall : forallb (fun n => String.length (fmt_0d 3 (Z.of_nat n)) =? 3)
                   (seq 0 1000) = true) by (vm_compute; reflexivity).
  rewrite forallb_forall in Hall.
  specialize (Hall (Z.to_nat z)). rewrite Z2Nat.id in Hall by lia.
  apply Nat.eqb_eq, Hall, in_seq. lia.
Qed.

Lemma split_time t :
  (0 <= t)%Z ->
  exists h m s c,
    (t = 360000 * h + 6000 * m + 100 * s + c /\
     0 <= h /\ 0 <= m < 60 /\ 0 <= s < 60 /\ 0 <= c < 100 /\
     h = t / 360000 /\ m = t / 6000 mod 60 /\ s = t / 100 mod 60 /\
     c = t mod 100)%Z.
Proof.
  intros Ht.
  exists (t / 360000)%Z, (t / 6000 mod 60)%Z, (t / 100 mod 60)%Z,
    (t mod 100)%Z.
  pose proof (Z.rem_mul_r t 6000 60 ltac:(lia) ltac:(lia)) as Hm.
  pose proof (Z.rem_mul_r t 100 60 ltac:(lia) ltac:(lia)) as Hs.
  pose proof (Z.div_mod t (6000 * 60) ltac:(lia)) as Hd1.
  pose proof (Z.div_mod t (100 * 60) ltac:(lia)) as Hd2.
  pose proof (Z.mod_pos_bound (t / 6000) 60 ltac:(lia)).
  pose proof (Z.mod_pos_bound (t / 100) 60 ltac:(lia)).
  pose proof (Z.mod_pos_bound t 100 ltac:(lia)).
  pose proof (Z.div_pos t 360000 ltac:(lia) ltac:(lia)).
  change (6000 * 60)%Z with 360000%Z in *.
  change (100 * 60)%Z with 6000%Z in *.
  repeat split; try lia.
Qed.

Lemma quot_unique a b q r :
  (0 <= a)%Z -> (0 <= r < b)%Z -> (a = b * q + r)%Z -> Z.quot a b = q.
Proof.
  intros Ha Hr Heq. rewrite Z.quot_div_nonneg by lia.
  symmetry. apply (Z.div_unique a b q r); [left; exact Hr|exact Heq].
Qed.

(** X3.  For a time [t] (in units of 10 ms) below one hundred hours,
    [to_timestamp] prints the hours, the minutes below 60, the seconds below
    60 and the milliseconds (always a multiple of ten), each padded with
    zeros, and the result has exactly twelve characters. *)
Theorem to_timestamp_fields (t : Z) (comma : bool) :
  (0 <= t < 36000000)%Z ->
  to_timestamp t comma
  = (fmt_0d 2 (t / 360000) ++ ":" ++ fmt_0d 2 (t / 6000 mod 60) ++ ":"
     ++ fmt_0d 2 (t / 100 mod 60) ++ (if comma then "," else ".")
     ++ fmt_0d 3 (t mod 100 * 10))%string /\
  String.length (to_timestamp t comma) = 12.
Proof.
  intros Ht.
  destruct (split_time t ltac:(lia))
    as (h & m & s & c & Heq & Hh & Hm & Hs & Hc & <- & <- & <- & <-).
  assert (Hh100 : (h < 100)%Z) by lia.
  assert (Hfmt : to_timestamp t comma
    = (fmt_0d 2 h ++ ":" ++ fmt_0d 2 m ++ ":" ++ fmt_0d 2 s
       ++ (if comma then "," else ".") ++ fmt_0d 3 (c * 10))%string).
  { unfold to_timestamp. cbv zeta.
    change (1000 * 60 * 60)%Z with 3600000%Z.
    change (1000 * 60)%Z with 60000%Z.
    rewrite (quot_unique (t * 10) 3600000 h
               (60000 * m + 1000 * s + 10 * c)) by lia.
    rewrite (quot_unique (t * 10 - h * 3600000) 60000 m
               (1000 * s + 10 * c)) by lia.
    rewrite (quot_unique (t * 10 - h * 3600000 - m * 60000) 1000 s
               (10 * c)) by lia.
    replace (t * 10 - h * 3600000 - m * 60000 - s * 1000)%Z
      with (c * 10)%Z by lia.
    rewrite !to_int_small by lia. reflexivity. }
  split; [exact Hfmt|].
  rewrite Hfmt, !string_length_append.
  rewrite !fmt_0d_2_length, fmt_0d_3_length by lia.
  now destruct comma.
Qed.

Lemma to_timestamp_fields_witness :
  to_timestamp 366101 true
  = (fmt_0d 2 (366101 / 360000) ++ ":" ++ fmt_0d 2 (366101 / 6000 mod 60)
     ++ ":" ++ fmt_0d 2 (366101 / 100 mod 60) ++ ","
     ++ fmt_0d 3 (366101 mod 100 * 10))%string /\
  String.length (to_timestamp 366101 true) = 12.
Proof.
  apply (to_timestamp_fields 366101 true). lia.
Defined.

(** X4.  [timestamp_to_sample] clamps: whatever the time and the rate,
    the index it returns for a channel of [n_samples] samples lies between
    [0] and [n_samples - 1] (and is [0] for an empty channel); when
    [t * 160] is an index of the channel, that is the index returned at
    the rate 16000. *)
Theorem timestamp_to_sample_clamps (t n_samples rate : Z) :
  (0 <= n_samples <= INT_MAX)%Z ->
  (0 <= timestamp_to_sample t n_samples rate <= Z.max 0 (n_samples - 1))%Z /\
  ((0 <= t * 160 <= n_samples - 1)%Z ->
   timestamp_to_sample t n_samples 16000 = (t * 160)%Z).
Proof.
  unfold INT_MAX. intros Hn. unfold timestamp_to_sample.
  rewrite (to_int_small n_samples) by lia.
  split; [lia|].
  intros Ht.
  rewrite Z.quot_div_nonneg by lia.
  replace (t * 16000)%Z with (t * 160 * 100)%Z by lia.
  rewrite Z.div_mul by lia.
  rewrite to_int_small by lia. lia.
Qed.

Lemma timestamp_to_sample_clamps_witness :
  (0 <= timestamp_to_sample 1000000 32000 16000 <= Z.max 0 (32000 - 1))%Z /\
  timestamp_to_sample 100 32000 16000 = (100 * 160)%Z.
Proof.
  split.
  - apply (timestamp_to_sample_clamps 1000000 32000 16000).
    unfold INT_MAX. lia.
  - apply (timestamp_to_sample_clamps 100 32000 16000);
      unfold INT_MAX; lia.
Defined.

Lemma energy_nonneg channel is0 is1 : (0 <= energy channel is0 is1)%Q.
Proof.
  unfold energy.
  assert (H : forall l acc, (0 <= acc)%Q ->
            (0 <= fold_left (fun a x => Qplus a (Qabs x)) l acc)%Q).
  { induction l as [|x l IH]; intros acc Hacc; [exact Hacc|].
    cbn [fold_left]. apply IH.
    apply Qle_trans with (y := (0 + 0)%Q); [apply Qle_refl|].
    apply Qplus_le_compat; [exact Hacc|apply Qabs_nonneg]. }
  apply H. apply Qle_refl.
Qed.

Lemma not_louder_than_itself e :
  (0 <= e)%Q -> ~ ((11 # 10) * e < e)%Q.
Proof.
  destruct e as [n d]. unfold Qle, Qlt, Qmult. cbn [Qnum Qden].
  rewrite Pos2Z.inj_mul. intros H1 H2.
  assert (0 < Z.pos d)%Z by lia. nia.
Qed.

(** X5.  The speaker the diarization heuristic names is ["0"], ["1"] or
    ["?"], wrapped as ["(speaker X)"] unless the id alone is asked for;
    two channels with the same samples give ["?"]. *)
Theorem estimate_diarization_speaker_labels (pcmf32s : list (list Q))
    (t0 t1 : Z) :
  let id := estimate_diarization_speaker pcmf32s t0 t1 true in
  (id = "0" \/ id = "1" \/ id = "?") /\
  estimate_diarization_speaker pcmf32s t0 t1 false
  = ("(speaker " ++ id ++ ")")%string /\
  (nth 0 pcmf32s [] = nth 1 pcmf32s [] -> id = "?").
Proof.
  cbv zeta. unfold estimate_diarization_speaker. cbv zeta.
  split; [|split].
  - repeat match goal with
           | |- context [Qlt_le_dec ?a ?b] => destruct (Qlt_le_dec a b)
           end; auto.
  - reflexivity.
  - intros <-.
    repeat match goal with
           | |- context [Qlt_le_dec ?a ?b] =>
               destruct (Qlt_le_dec a b) as [H|_];
               [exfalso;
                exact (not_louder_than_itself _ (energy_nonneg _ _ _) H)|]
           end.
    reflexivity.
Qed.

Lemma estimate_diarization_speaker_labels_witness :
  estimate_diarization_speaker
    [[(1 # 2)%Q; (1 # 4)%Q; 0%Q]; [(1 # 2)%Q; (1 # 4)%Q; 0%Q]] 0 1 true
  = "?".
Proof.
  apply (estimate_diarization_speaker_labels
           [[(1 # 2)%Q; (1 # 4)%Q; 0%Q]; [(1 # 2)%Q; (1 # 4)%Q; 0%Q]] 0 1).
  reflexivity.
Defined.

Lemma token_loop_lists eot no_timestamps tokens st :
  (fold_left (token_step eot no_timestamps) tokens st).(tokens_json)
  = st.(tokens_json)
    ++ map (fun token => JInt token.(Token.id))
         (filter (fun token => (token.(Token.id) <? eot)%Z) tokens) /\
  List.length
    (fold_left (token_step eot no_timestamps) tokens st).(words_json)
  = List.length st.(words_json)
    + List.length (filter (fun token => (token.(Token.id) <? eot)%Z) tokens).
Proof.
  revert st. induction tokens as [|token tokens IH]; intros st.
  - cbn. rewrite app_nil_r. split; [reflexivity|lia].
  - cbn [fold_left filter].
    destruct (IH (token_step eot no_timestamps st token))
      as [Ht Hw]. rewrite Ht, Hw. unfold token_step.
    rewrite Z.ltb_antisym.
    destruct (eot <=? token.(Token.id))%Z; cbn [negb].
    + split; reflexivity.
    + cbn [tokens_json words_json map List.length].
      rewrite <- app_assoc, length_app. cbn. split; [reflexivity|lia].
Qed.

(** X6.  In a verbose JSON segment the [tokens] array holds the ids of
    exactly the tokens below the end-of-text token, in order, and [words]
    has one entry per such token; when the segment has no such token the
    two members are absent. *)
Theorem vjson_segment_tokens (eot : Z) (params : whisper_params) (i : Z)
    (seg : Segment.segment) :
  let st := token_loop_run eot params.(no_timestamps) seg.(Segment.tokens) in
  st.(tokens_json)
  = map (fun token => JInt token.(Token.id)) (listed_tokens eot seg) /\
  List.length st.(words_json) = List.length (listed_tokens eot seg) /\
  Forall (fun token => (token.(Token.id) < eot)%Z) (listed_tokens eot seg) /\
  json_member "tokens" (vjson_segment eot params i seg)
  = match listed_tokens eot seg with
    | [] => None
    | _ => Some (JArr (map (fun token => JInt token.(Token.id))
                         (listed_tokens eot seg)))
    end /\
  json_member "words" (vjson_segment eot params i seg)
  = match listed_tokens eot seg with
    | [] => None
    | _ => Some (JArr st.(words_json))
    end.
Proof.
  cbv zeta. unfold token_loop_run.
  destruct (token_loop_lists eot params.(no_timestamps) seg.(Segment.tokens)
              {| tokens_json := []; words_json := [];
                 total_logprob := 0%Q |}) as [Ht Hw].
  cbn [tokens_json words_json app List.length Nat.add] in Ht, Hw.
  fold (listed_tokens eot seg) in Ht, Hw.
  split; [exact Ht|]. split; [exact Hw|]. split.
  - unfold listed_tokens. apply Forall_forall. intros token Hin.
    apply filter_In in Hin as [_ Hlt]. now apply Z.ltb_lt.
  - unfold vjson_segment, token_loop_run. cbv zeta. rewrite Ht.
    destruct (listed_tokens eot seg) as [|token rest];
      destruct params.(no_timestamps); split; reflexivity.
Qed.

(** ** POST /inference *)

(** X7.  A POST /inference request runs the engine at most once.  A request
    that ends at a missing [file] field, at the conversion or at the WAV
    decoding does not touch the engine at all; a request that reaches the
    engine runs it exactly once, on the cold context, with the parameters
    of the block in effect.  Every request that does not complete is
    answered with a JSON error object. *)
Theorem inference_runs_engine_at_most_once (api : whisper_api)
    (sys : system_api) (sparams : server_params)
    (default_params : whisper_params) (req : Request)
    (params : whisper_params) :
  let r := inference_handler api sys sparams default_params req params in
  let effective := effective_params api sys req params in
  match r.(outcome) with
  | engine_failed | completed =>
      exists pcmf32,
        r.(trace)
        = lock_guard whisper_mutex
            [FullParallel ctx (inference_wparams api effective) pcmf32
               effective.(n_processors)]
  | _ =>
      r.(trace) = lock_guard whisper_mutex [] /\
      exists message, r.(response) = error_response message
  end /\
  (r.(outcome) = engine_failed ->
   r.(response) = error_response "failed to process audio").
Proof.
  cbv zeta. unfold effective_params.
  inference_paths api sys sparams req params.
  - match goal with
    | E : load_audio _ _ _ _ = inl _ |- _ =>
        destruct (load_audio_failure _ _ _ _ _ _ E) as [-> | ->]
    end; (split; [split; [reflexivity|eexists; reflexivity]|discriminate]).
  - split; [eexists; reflexivity|discriminate].
  - split; [eexists; reflexivity|reflexivity].
  - split; [split; [reflexivity|eexists; reflexivity]|discriminate].
Qed.

Lemma inference_runs_engine_at_most_once_witness :
  (inference_handler (constant_api 1 no_result) bare_system default_sparams
     (whisper_params_init 4) {| files := [part "file" empty_wav] |}
     (whisper_params_init 4)).(response)
  = error_response "failed to process audio".
Proof.
  apply (proj2 (inference_runs_engine_at_most_once (constant_api 1 no_result)
                  bare_system default_sparams (whisper_params_init 4)
                  {| files := [part "file" empty_wav] |}
                  (whisper_params_init 4))).
  vm_compute. reflexivity.
Defined.

(** The language block assigns to [translate] and [language] only. *)
Lemma coerce_language_members api q t l :
  set_translate t (set_language l (coerce_language api q))
  = set_translate t (set_language l q).
Proof.
  unfold coerce_language. cbv zeta.
  destruct (negb (api.(whisper_is_multilingual) ctx)).
  - destruct (negb (String.eqb q.(language) "en") || q.(translate)).
    + destruct (detect_language (set_translate false (set_language "en" q)));
        vm_compute; reflexivity.
    + destruct q.(detect_language); vm_compute; reflexivity.
  - destruct q.(detect_language); vm_compute; reflexivity.
Qed.

(** X8.  The language block.  With a model that is not multilingual the
    block in effect at the engine call never asks for translation and its
    language is ["en"] when language detection is off and ["auto"] when it
    is on; with language detection on the language is ["auto"] whatever the
    model; with a multilingual model and no detection the overlay is left
    as it is.  The block changes no member but [translate] and
    [language]. *)
Theorem effective_params_language (api : whisper_api) (sys : system_api)
    (req : Request) (params : whisper_params) :
  let requested := get_req_parameters sys req params in
  let effective := effective_params api sys req params in
  (api.(whisper_is_multilingual) ctx = false ->
   effective.(translate) = false /\
   effective.(language)
   = if requested.(detect_language) then "auto" else "en") /\
  (requested.(detect_language) = true -> effective.(language) = "auto") /\
  (api.(whisper_is_multilingual) ctx = true ->
   requested.(detect_language) = false -> effective = requested) /\
  (forall t l,
     set_translate t (set_language l effective)
     = set_translate t (set_language l requested)).
Proof.
  cbv zeta. unfold effective_params, coerce_language.
  set (q := get_req_parameters sys req params).
  split; [|split; [|split]].
  - intros ->. cbn [negb].
    destruct (String.eqb_spec q.(language) "en") as [Hen|Hne]; cbn [negb orb].
    + destruct q.(translate) eqn:Htr.
      * cbn [set_translate set_language detect_language].
        destruct q.(detect_language); cbn; auto.
      * destruct q.(detect_language); cbn [set_language translate language];
          auto.
    + cbn [set_translate set_language detect_language].
      destruct q.(detect_language); cbn; auto.
  - intros Hdetect.
    destruct (negb (api.(whisper_is_multilingual) ctx)).
    + destruct (negb (String.eqb q.(language) "en") || q.(translate)).
      * cbn [set_translate set_language detect_language]. rewrite Hdetect.
        reflexivity.
      * rewrite Hdetect. reflexivity.
    + rewrite Hdetect. reflexivity.
  - intros -> Hdetect. cbn [negb]. now rewrite Hdetect.
  - intros t l. apply coerce_language_members.
Qed.

(** A request for French with translation, on an English-only model: the
    run is a transcription in ["en"]. *)
Lemma effective_params_language_witness :
  let req := {| files := [part "file" empty_wav; part "language" "fr";
                          part "translate" "true"] |} in
  let api := constant_api 0 no_result in
  (get_req_parameters bare_system req (whisper_params_init 4)).(language)
  = "fr" /\
  (effective_params api bare_system req (whisper_params_init 4)).(translate)
  = false /\
  (effective_params api bare_system req (whisper_params_init 4)).(language)
  = "en".
Proof.
  cbv zeta. split; [reflexivity|].
  apply (proj1 (effective_params_language (constant_api 0 no_result)
                  bare_system
                  {| files := [part "file" empty_wav; part "language" "fr";
                               part "translate" "true"] |}
                  (whisper_params_init 4))).
  reflexivity.
Defined.

(** X9.  The parameters /inference gives the engine: the maximum segment
    length is never [0], a requested [0] being replaced by 60 and any other
    value kept; realtime printing is off; a negative [max_context] leaves
    the engine's default text context and any other is passed on; beam
    search is chosen exactly when the beam size is above one, and greedy
    sampling otherwise; token timestamps are asked for exactly for the
    verbose JSON format with timestamps on. *)
Theorem inference_wparams_guards (api : whisper_api)
    (params : whisper_params) :
  let wparams := inference_wparams api params in
  wparams.(Full.max_len) <> 0%Z /\
  (params.(max_len) = 0%Z -> wparams.(Full.max_len) = 60%Z) /\
  (params.(max_len) <> 0%Z -> wparams.(Full.max_len) = params.(max_len)) /\
  wparams.(Full.print_realtime) = false /\
  ((params.(max_context) < 0)%Z ->
   wparams.(Full.n_max_text_ctx)
   = (api.(whisper_full_default_params) WHISPER_SAMPLING_GREEDY)
       .(Full.n_max_text_ctx)) /\
  ((0 <= params.(max_context))%Z ->
   wparams.(Full.n_max_text_ctx) = params.(max_context)) /\
  (wparams.(Full.strategy) = WHISPER_SAMPLING_BEAM_SEARCH
   <-> (1 < params.(beam_size))%Z) /\
  (wparams.(Full.strategy) = WHISPER_SAMPLING_GREEDY
   <-> (params.(beam_size) <= 1)%Z) /\
  (wparams.(Full.token_timestamps) = true
   <-> params.(response_format) = vjson_format /\
       params.(no_timestamps) = false).
Proof.
  cbv zeta. unfold inference_wparams. cbn.
  split; [|split; [|split; [|split; [|split; [|split; [|split; [|split]]]]]]].
  - destruct (Z.eqb_spec params.(max_len) 0); lia.
  - intros ->. reflexivity.
  - intros H. destruct (Z.eqb_spec params.(max_len) 0); [contradiction|
      reflexivity].
  - reflexivity.
  - intros H. destruct (Z.leb_spec 0 params.(max_context)); [lia|reflexivity].
  - intros H. destruct (Z.leb_spec 0 params.(max_context)); [reflexivity|lia].
  - destruct (Z.ltb_spec 1 params.(beam_size)); split; intros H';
      try reflexivity; try discriminate; lia.
  - destruct (Z.ltb_spec 1 params.(beam_size)); split; intros H';
      try reflexivity; try discriminate; lia.
  - split.
    + intros H. apply andb_true_iff in H as [Hts Hfmt]. split.
      * now apply String.eqb_eq in Hfmt.
      * now apply negb_true_iff in Hts.
    + intros [Hfmt Hts]. rewrite Hfmt, Hts. reflexivity.
Qed.

(** The default block asks for no maximum length and gets 60; a requested
    80 is kept. *)
Lemma inference_wparams_guards_witness :
  (whisper_params_init 4).(max_len) = 0%Z /\
  (inference_wparams (constant_api 0 no_result)
     (whisper_params_init 4)).(Full.max_len) = 60%Z /\
  (inference_wparams (constant_api 0 no_result)
     (set_max_len 80 (whisper_params_init 4))).(Full.max_len) = 80%Z /\
  (inference_wparams (constant_api 0 no_result)
     (whisper_params_init 4)).(Full.n_max_text_ctx) = 16384%Z.
Proof.
  split; [reflexivity|]. split; [|split].
  - apply (proj1 (proj2 (inference_wparams_guards (constant_api 0 no_result)
                           (whisper_params_init 4)))).
    reflexivity.
  - apply (proj1 (proj2 (proj2 (inference_wparams_guards
                                  (constant_api 0 no_result)
                                  (set_max_len 80 (whisper_params_init 4)))))).
    discriminate.
  - apply (proj1 (proj2 (proj2 (proj2 (proj2
             (inference_wparams_guards (constant_api 0 no_result)
                (whisper_params_init 4))))))).
    reflexivity.
Defined.


(** *** Fields the overlay does not look at *)

Lemma has_file_add_part req key value k :
  has_file (add_part req key value) k
  = has_file req k || String.eqb key k.
Proof.
  unfold has_file, add_part. cbn [files]. rewrite existsb_app. cbn.
  now rewrite orb_false_r.
Qed.

Lemma get_file_value_add_part req key value k :
  has_file req k = true \/ key <> k ->
  get_file_value (add_part req key value) k = get_file_value req k.
Proof.
  unfold get_file_value, has_file, add_part. cbn [files].
  intros H. induction req.(files) as [|kv rest IH].
  - destruct H as [H|H]; [discriminate|].
    cbn. apply String.eqb_neq in H. now rewrite H.
  - cbn [app find existsb] in *.
    destruct (String.eqb (fst kv) k); [reflexivity|].
    apply IH. destruct H as [H|H]; auto.
Qed.

(** The overlay reads a request only through the fields of its keys. *)
Lemma run_fields_same_fields sys fs req req' params :
  (forall f, In f fs ->
     has_file req' (field_key f) = has_file req (field_key f) /\
     get_file_value req' (field_key f) = get_file_value req (field_key f)) ->
  run_fields sys fs req' params = run_fields sys fs req params.
Proof.
  revert params. induction fs as [|f fs IH]; intros params Hsame;
    [reflexivity|].
  cbn [run_fields].
  destruct (Hsame f (or_introl eq_refl)) as [-> ->].
  destruct (has_file req (field_key f)).
  - destruct (assign_field sys f _ params); [|reflexivity].
    apply IH. intros g Hg. apply Hsame. now right.
  - apply IH. intros g Hg. apply Hsame. now right.
Qed.

Lemma run_fields_none_supplied sys fs req params :
  (forall f, In f fs -> has_file req (field_key f) = false) ->
  run_fields sys fs req params = params.
Proof.
  induction fs as [|f fs IH]; intros Hnone; [reflexivity|].
  cbn [run_fields]. rewrite (Hnone f (or_introl eq_refl)).
  apply IH. intros g Hg. apply Hnone. now right.
Qed.

(** X10.  What the overlay ignores.  A request that supplies none of the
    recognised fields leaves the block as it is.  A further field whose
    name is not a recognised one changes nothing, and neither does a
    further field whose name is already in the request: of two fields of
    one name the first is the one applied. *)
Theorem get_req_parameters_ignores (sys : system_api) (req : Request)
    (params : whisper_params) :
  ((forall f, In f req_fields -> has_file req (field_key f) = false) ->
   get_req_parameters sys req params = params) /\
  (forall key value,
     has_file req key = true \/ ~ In key (map field_key req_fields) ->
     get_req_parameters sys (add_part req key value) params
     = get_req_parameters sys req params).
Proof.
  split.
  - apply run_fields_none_supplied.
  - intros key value H. unfold get_req_parameters.
    apply run_fields_same_fields. intros f Hf.
    destruct H as [Hdup|Hunknown].
    + split.
      * rewrite has_file_add_part.
        destruct (String.eqb_spec key (field_key f)) as [<-|_];
          [now rewrite Hdup|apply orb_false_r].
      * apply get_file_value_add_part.
        destruct (String.eqb_spec key (field_key f)) as [<-|Hne]; auto.
    + assert (Hne : key <> field_key f).
      { intros ->. apply Hunknown. now apply in_map. }
      split.
      * rewrite has_file_add_part. apply String.eqb_neq in Hne.
        rewrite Hne. apply orb_false_r.
      * apply get_file_value_add_part. now right.
Qed.

Lemma get_req_parameters_ignores_witness :
  let req := {| files := [part "file" empty_wav; part "language" "fr"] |} in
  get_req_parameters bare_system {| files := [part "file" empty_wav] |}
    (whisper_params_init 4) = whisper_params_init 4 /\
  get_req_parameters bare_system
    (add_part req "language" (snd (part "language" "de")))
    (whisper_params_init 4)
  = get_req_parameters bare_system req (whisper_params_init 4) /\
  get_req_parameters bare_system
    (add_part req "vad" (snd (part "vad" "true"))) (whisper_params_init 4)
  = get_req_parameters bare_system req (whisper_params_init 4).
Proof.
  cbv zeta. split; [|split].
  - apply (proj1 (get_req_parameters_ignores bare_system
                    {| files := [part "file" empty_wav] |}
                    (whisper_params_init 4))).
    intros f Hf. cbn in Hf.
    repeat (destruct Hf as [<-|Hf]; [reflexivity|]). destruct Hf.
  - apply (proj2 (get_req_parameters_ignores bare_system
                    {| files := [part "file" empty_wav;
                                 part "language" "fr"] |}
                    (whisper_params_init 4))).
    left. reflexivity.
  - apply (proj2 (get_req_parameters_ignores bare_system
                    {| files := [part "file" empty_wav;
                                 part "language" "fr"] |}
                    (whisper_params_init 4))).
    right. cbn. intros H.
    repeat (destruct H as [H|H]; [discriminate H|]). exact H.
Defined.

(** ** POST /stream, POST /hot_stream and POST /load *)

Lemma float_samples_length sys data :
  List.length (float_samples sys data) = Nat.div (List.length data) 4.
Proof.
  induction data as [data IH] using (well_founded_induction
    (Wf_nat.well_founded_ltof _ (@List.length byte))).
  destruct data as [|b0 [|b1 [|b2 [|b3 rest]]]]; try reflexivity.
  cbn [float_samples List.length].
  rewrite IH by (unfold Wf_nat.ltof; simpl; lia).
  replace (S (S (S (S (List.length rest)))))
    with (List.length rest + 1 * 4) by lia.
  rewrite Nat.div_add by lia. lia.
Qed.

Lemma list_byte_of_string_length s :
  List.length (list_byte_of_string s) = String.length s.
Proof.
  unfold list_byte_of_string. rewrite length_map.
  induction s as [|c s IH]; [reflexivity|]. cbn. now rewrite IH.
Qed.

Lemma keep_last_suffix {A} (n : N) (buffer : list A) :
  (n <= vsize buffer)%N ->
  exists dropped, buffer = dropped ++ keep_last n buffer /\
                  vsize (keep_last n buffer) = n.
Proof.
  intros Hn. exists (firstn (N.to_nat (vsize buffer - n)) buffer).
  unfold keep_last. rewrite firstn_skipn. split; [reflexivity|].
  unfold vsize in *. rewrite length_skipn. lia.
Qed.

(** The serializer accepts the response of a streaming handler exactly
    when the text of every segment is valid UTF-8. *)
Lemma dump_accepts_stream (segs : list Segment.segment) (buffer_ms : Z) :
  dump_accepts (JObj [("segments", JArr (map segment_json segs));
                      ("buffer_size_ms", JInt buffer_ms)])
  = forallb (fun seg => utf8_valid seg.(Segment.text)) segs.
Proof.
  cbn [dump_accepts forallb fst snd].
  change (utf8_valid "segments") with true.
  change (utf8_valid "buffer_size_ms") with true.
  cbn [andb]. rewrite andb_true_r.
  induction segs as [|seg segs IH]; [reflexivity|].
  cbn [map forallb]. rewrite IH. f_equal.
  unfold segment_json. cbn [dump_accepts forallb fst snd].
  change (utf8_valid "text") with true.
  change (utf8_valid "t0") with true.
  change (utf8_valid "t1") with true.
  cbn [andb]. now rewrite andb_true_r.
Qed.

(** X11.  The buffer of POST /stream.  A request appends one sample for
    every four bytes of its [audio] field.  Below 17600 buffered samples
    nothing runs and the buffer keeps everything.  From 17600 samples on
    the engine runs on the whole buffer: after a successful run the buffer
    is its last 3200 samples, and the response is the JSON object of the
    segments with 200 ms when the text of every segment is valid UTF-8;
    when one is not, the serialisation throws after the buffer was cut and
    the handler sets no response.  After a failed run the buffer keeps
    everything.  A request without the field leaves the buffer alone. *)
Theorem stream_handler_buffer (api : whisper_api) (sys : system_api)
    (params : whisper_params) (req : Request) (buffer : list Q) :
  let r := stream_handler api sys params req buffer in
  let samples :=
    float_samples sys
      (list_byte_of_string (get_file_value req "audio").(content)) in
  let run := api.(whisper_full) ctx (stream_wparams api params)
               (buffer ++ samples) in
  List.length samples
  = Nat.div (String.length (get_file_value req "audio").(content)) 4 /\
  (has_file req "audio" = false ->
   r.(stream_buffer) = buffer /\
   r.(stream_response_of) = Some (error_response "no audio data")) /\
  (has_file req "audio" = true ->
   (vsize (buffer ++ samples) < 17600)%N ->
   r.(stream_buffer) = buffer ++ samples /\
   r.(stream_trace) = lock_guard whisper_mutex [] /\
   r.(stream_response_of)
   = Some (set_content
             (json_body
                (JObj [("segments", JArr []);
                       ("buffer_size_ms",
                        JInt (Z.of_N (vsize (buffer ++ samples) * 1000
                                      / 16000)))]))
             "application/json")) /\
  (has_file req "audio" = true ->
   (17600 <= vsize (buffer ++ samples))%N ->
   fst run = 0%Z ->
   r.(stream_buffer) = keep_last 3200 (buffer ++ samples) /\
   vsize r.(stream_buffer) = 3200%N /\
   (exists dropped, buffer ++ samples = dropped ++ r.(stream_buffer)) /\
   r.(stream_response_of)
   = if forallb (fun seg => utf8_valid seg.(Segment.text))
          (snd run).(segments)
     then Some (set_content
                  (json_body
                     (JObj [("segments",
                             JArr (map segment_json (snd run).(segments)));
                            ("buffer_size_ms", JInt 200)]))
                  "application/json")
     else None) /\
  (has_file req "audio" = true ->
   (17600 <= vsize (buffer ++ samples))%N ->
   fst run <> 0%Z ->
   r.(stream_buffer) = buffer ++ samples /\
   r.(stream_response_of)
   = Some (error_response "failed to process audio")).
Proof.
  cbv zeta. unfold stream_handler.
  change (WHISPER_SAMPLE_RATE + WHISPER_SAMPLE_RATE / 10)%N with 17600%N.
  change (to_size_t (Z.quot (200 * 16000) 1000)) with 3200%N.
  set (samples := float_samples sys _).
  split; [|split; [|split; [|split]]].
  - subst samples. rewrite float_samples_length.
    now rewrite list_byte_of_string_length.
  - intros ->. cbn [negb]. split; reflexivity.
  - intros -> Hsmall. cbn [negb]. apply N.leb_gt in Hsmall.
    rewrite Hsmall. cbn [stream_buffer stream_trace stream_response_of].
    split; [reflexivity|]. split; [reflexivity|].
    unfold stream_response. cbv zeta.
    now rewrite (dump_accepts_stream []).
  - intros -> Hbig Hok. cbn [negb].
    assert (Hbig' := Hbig). apply N.leb_le in Hbig'. rewrite Hbig'.
    destruct (api.(whisper_full) ctx (stream_wparams api params)
                (buffer ++ samples)) as [status result].
    cbn [fst snd] in *. subst status. cbn [Z.eqb negb].
    assert (Hlt : (3200 <? vsize (buffer ++ samples))%N = true)
      by (apply N.ltb_lt; lia).
    rewrite Hlt. cbn [stream_buffer stream_response_of].
    destruct (keep_last_suffix 3200 (buffer ++ samples) ltac:(lia))
      as (dropped & Hsplit & Hsize).
    split; [reflexivity|]. split; [exact Hsize|].
    split; [exists dropped; exact Hsplit|].
    unfold stream_response. cbv zeta.
    rewrite dump_accepts_stream, Hsize. reflexivity.
  - intros -> Hbig Hfail. cbn [negb].
    apply N.leb_le in Hbig. rewrite Hbig.
    destruct (api.(whisper_full) ctx (stream_wparams api params)
                (buffer ++ samples)) as [status result].
    cbn [fst] in Hfail.
    destruct (Z.eqb_spec status 0) as [->|_]; [congruence|].
    split; reflexivity.
Qed.

(** Four requests: 1.1 s of samples with a run that succeeds, whose one
    segment ends in the middle of a character; the same samples with a run
    that fails; two samples; no field. *)
Lemma stream_handler_buffer_witness :
  let req := {| files := [part "audio"
                            (string_of_list_byte (repeat x00 70400))] |} in
  let cut :=
    {| segments :=
         [{| Segment.text := String "226" (String "130" "");
             Segment.t0 := 0; Segment.t1 := 110; Segment.tokens := [];
             Segment.no_speech_prob := 0%Q;
             Segment.speaker_turn_next := false |}];
       lang_id := 0 |} in
  let r := stream_handler (constant_api 0 cut) bare_system
             (whisper_params_init 4) req [] in
  vsize r.(stream_buffer) = 3200%N /\
  r.(stream_response_of) = None /\
  (stream_handler (constant_api 1 no_result) bare_system
     (whisper_params_init 4) req []).(stream_response_of)
  = Some (error_response "failed to process audio") /\
  (stream_handler (constant_api 0 no_result) bare_system
     (whisper_params_init 4) {| files := [part "audio" "abcdefgh"] |} [])
    .(stream_trace) = lock_guard whisper_mutex [] /\
  (stream_handler (constant_api 0 no_result) bare_system
     (whisper_params_init 4) {| files := [] |} [0%Q]).(stream_buffer)
  = [0%Q].
Proof.
  cbv zeta. split; [|split; [|split; [|split]]].
  - apply (proj1 (proj2 (proj2 (proj2 (stream_handler_buffer
             (constant_api 0 _) bare_system (whisper_params_init 4)
             {| files := [part "audio"
                            (string_of_list_byte (repeat x00 70400))] |}
             []))))).
    + reflexivity.
    + vm_compute. discriminate.
    + reflexivity.
  - destruct (proj1 (proj2 (proj2 (proj2 (stream_handler_buffer
                (constant_api 0
                   {| segments :=
                        [{| Segment.text := String "226" (String "130" "");
                            Segment.t0 := 0; Segment.t1 := 110;
                            Segment.tokens := [];
                            Segment.no_speech_prob := 0%Q;
                            Segment.speaker_turn_next := false |}];
                      lang_id := 0 |})
                bare_system (whisper_params_init 4)
                {| files := [part "audio"
                               (string_of_list_byte (repeat x00 70400))] |}
                [])))))
      as (_ & _ & _ & Hresponse).
    + reflexivity.
    + vm_compute. discriminate.
    + reflexivity.
    + exact Hresponse.
  - apply (proj2 (proj2 (proj2 (proj2 (stream_handler_buffer
             (constant_api 1 no_result) bare_system (whisper_params_init 4)
             {| files := [part "audio"
                            (string_of_list_byte (repeat x00 70400))] |}
             []))))).
    + reflexivity.
    + vm_compute. discriminate.
    + vm_compute. discriminate.
  - apply (proj1 (proj2 (proj2 (stream_handler_buffer
             (constant_api 0 no_result) bare_system (whisper_params_init 4)
             {| files := [part "audio" "abcdefgh"] |} [])))).
    + reflexivity.
    + vm_compute. reflexivity.
  - apply (proj1 (proj2 (stream_handler_buffer
             (constant_api 0 no_result) bare_system (whisper_params_init 4)
             {| files := [] |} [0%Q]))).
    reflexivity.
Defined.

Lemma to_size_t_small x :
  (0 <= x < 18446744073709551616)%Z -> to_size_t x = Z.to_N x.
Proof. intros H. unfold to_size_t. now rewrite Z.mod_small. Qed.

Lemma quot_ms_samples ms :
  (0 <= ms)%Z -> Z.quot (ms * 16000) 1000 = (ms * 16)%Z.
Proof.
  intros H. rewrite Z.quot_div_nonneg by lia.
  replace (ms * 16000)%Z with (ms * 16 * 1000)%Z by lia.
  apply Z.div_mul. lia.
Qed.

Lemma int_mul_fits a b :
  (INT_MIN <= a * b <= INT_MAX)%Z -> int_mul a b = Some (a * b)%Z.
Proof.
  intros [Hlo Hhi]. unfold int_mul. cbv zeta.
  apply Z.leb_le in Hlo, Hhi. now rewrite Hlo, Hhi.
Qed.

Lemma int_mul_overflows a b :
  (INT_MAX < a * b)%Z \/ (a * b < INT_MIN)%Z -> int_mul a b = None.
Proof.
  intros [Hhi|Hlo]; unfold int_mul; cbv zeta.
  - apply Z.leb_gt in Hhi. rewrite Hhi. now rewrite andb_false_r.
  - apply Z.leb_gt in Hlo. now rewrite Hlo.
Qed.

(** X12.  The buffer of the chunked POST /hot_stream, for a window
    [length_ms] and a tail [keep_ms] that are not negative and whose
    products with 16000 fit [int].  Below [16 * length_ms] buffered
    samples nothing runs.  After a successful run the buffer is its last
    [16 * keep_ms] samples when it holds more than that, and is emptied
    otherwise: a tail as long as the buffer keeps nothing; so does the
    default tail of 0 ms.  A window whose product with 16000 is above
    [INT_MAX] or below [INT_MIN] overflows [int]: the handler has no
    defined behaviour. *)
Theorem hot_stream_chunked_buffer (api : whisper_api) (sys : system_api)
    (hparams : Hot.hot_path_params) (params : whisper_params)
    (req : Request) (buffer : list Q) :
  let handled :=
    hot_stream_chunked_handler api sys hparams params req buffer in
  let appended :=
    buffer ++ float_samples sys
                (list_byte_of_string (get_file_value req "audio").(content)) in
  let run := api.(whisper_full) ctx
               (hot_stream_chunked_wparams api hparams params) appended in
  let window := Z.to_N (hparams.(Hot.length_ms) * 16) in
  let tail := Z.to_N (hparams.(Hot.keep_ms) * 16) in
  has_file req "audio" = true ->
  ((INT_MAX < hparams.(Hot.length_ms) * 16000)%Z
   \/ (hparams.(Hot.length_ms) * 16000 < INT_MIN)%Z ->
   handled = None) /\
  ((0 <= hparams.(Hot.length_ms))%Z ->
   (hparams.(Hot.length_ms) * 16000 <= INT_MAX)%Z ->
   (vsize appended < window)%N ->
   exists r,
     handled = Some r /\
     r.(stream_buffer) = appended /\
     r.(stream_trace) = lock_guard whisper_mutex []) /\
  ((0 <= hparams.(Hot.length_ms))%Z ->
   (hparams.(Hot.length_ms) * 16000 <= INT_MAX)%Z ->
   (0 <= hparams.(Hot.keep_ms))%Z ->
   (hparams.(Hot.keep_ms) * 16000 <= INT_MAX)%Z ->
   (window <= vsize appended)%N -> fst run = 0%Z ->
   exists r,
     handled = Some r /\
     r.(stream_trace)
     = lock_guard whisper_mutex
         [FullCall ctx (hot_stream_chunked_wparams api hparams params)
            appended] /\
     r.(stream_buffer)
     = (if (tail <? vsize appended)%N then keep_last tail appended else []) /\
     (tail = 0%N -> r.(stream_buffer) = [])).
Proof.
  cbv zeta. intros Hfile.
  unfold hot_stream_chunked_handler. rewrite Hfile. cbn [negb]. cbv zeta.
  set (appended := buffer ++ float_samples sys _).
  split; [|split]; unfold INT_MAX.
  - intros Hover. now rewrite int_mul_overflows.
  - intros Hlen0 Hlen Hsmall.
    rewrite int_mul_fits by (unfold INT_MIN, INT_MAX; lia).
    rewrite quot_ms_samples by lia. rewrite to_size_t_small by lia.
    apply N.leb_gt in Hsmall. rewrite Hsmall.
    eexists. split; [reflexivity|]. split; reflexivity.
  - intros Hlen0 Hlen Hkeep0 Hkeep Hbig Hok.
    rewrite int_mul_fits by (unfold INT_MIN, INT_MAX; lia).
    rewrite quot_ms_samples by lia. rewrite to_size_t_small by lia.
    apply N.leb_le in Hbig. rewrite Hbig.
    destruct (api.(whisper_full) ctx _ appended) as [status result].
    cbn [fst] in Hok. subst status. cbn [Z.eqb negb].
    rewrite int_mul_fits by (unfold INT_MIN, INT_MAX; lia).
    rewrite quot_ms_samples by lia. rewrite to_size_t_small by lia.
    eexists. split; [reflexivity|].
    cbn [stream_trace stream_buffer].
    split; [reflexivity|]. split; [reflexivity|].
    intros ->.
    destruct (0 <? vsize appended)%N; [|reflexivity].
    unfold keep_last. rewrite N.sub_0_r. unfold vsize. rewrite Nat2N.id.
    apply skipn_all.
Qed.

(** The default window of 2000 ms with two samples: nothing runs.  A
    window and a tail of 0 ms: the run leaves an empty buffer.  A window
    of 134218 ms: the product is above [INT_MAX]. *)
Lemma hot_stream_chunked_buffer_witness :
  let req := {| files := [part "audio" "abcdefgh"] |} in
  let windowed length_ms :=
    {| Hot.step_ms := 256; Hot.length_ms := length_ms; Hot.keep_ms := 0;
       Hot.capture_id := -1; Hot.max_tokens := 32;
       Hot.audio_ctx := 0; Hot.vad_thold := (6 # 10)%Q;
       Hot.freq_thold := 100%Q; Hot.tiny := true;
       Hot.translate := false; Hot.no_fallback := true;
       Hot.print_special := false; Hot.no_timestamps := true;
       Hot.use_gpu := true; Hot.streaming := true;
       Hot.model := "m"; Hot.language := "en" |} in
  (exists r,
     hot_stream_chunked_handler (constant_api 0 no_result) bare_system
       Hot.init (whisper_params_init 4) req [] = Some r /\
     r.(stream_buffer)
     = [] ++ float_samples bare_system (list_byte_of_string "abcdefgh")) /\
  (exists r,
     hot_stream_chunked_handler (constant_api 0 no_result) bare_system
       (windowed 0%Z) (whisper_params_init 4) req [] = Some r /\
     r.(stream_buffer) = []) /\
  hot_stream_chunked_handler (constant_api 0 no_result) bare_system
    (windowed 134218%Z) (whisper_params_init 4) req [] = None.
Proof.
  cbv zeta. split; [|split].
  - destruct (hot_stream_chunked_buffer (constant_api 0 no_result)
                bare_system Hot.init (whisper_params_init 4)
                {| files := [part "audio" "abcdefgh"] |} [] eq_refl)
      as (_ & Hsmall & _).
    destruct Hsmall as (r & Hr & Hbuffer & _).
    + vm_compute. discriminate.
    + vm_compute. discriminate.
    + vm_compute. reflexivity.
    + exists r. split; [exact Hr|exact Hbuffer].
  - destruct (hot_stream_chunked_buffer (constant_api 0 no_result)
                bare_system
                {| Hot.step_ms := 256; Hot.length_ms := 0; Hot.keep_ms := 0;
                   Hot.capture_id := -1; Hot.max_tokens := 32;
                   Hot.audio_ctx := 0; Hot.vad_thold := (6 # 10)%Q;
                   Hot.freq_thold := 100%Q; Hot.tiny := true;
                   Hot.translate := false; Hot.no_fallback := true;
                   Hot.print_special := false; Hot.no_timestamps := true;
                   Hot.use_gpu := true; Hot.streaming := true;
                   Hot.model := "m"; Hot.language := "en" |}
                (whisper_params_init 4)
                {| files := [part "audio" "abcdefgh"] |} [] eq_refl)
      as (_ & _ & Hrun).
    destruct Hrun as (r & Hr & _ & _ & Hempty).
    + vm_compute. discriminate.
    + vm_compute. discriminate.
    + vm_compute. discriminate.
    + vm_compute. discriminate.
    + vm_compute. discriminate.
    + reflexivity.
    + exists r. split; [exact Hr|]. apply Hempty. reflexivity.
  - destruct (hot_stream_chunked_buffer (constant_api 0 no_result)
                bare_system
                {| Hot.step_ms := 256; Hot.length_ms := 134218;
                   Hot.keep_ms := 0;
                   Hot.capture_id := -1; Hot.max_tokens := 32;
                   Hot.audio_ctx := 0; Hot.vad_thold := (6 # 10)%Q;
                   Hot.freq_thold := 100%Q; Hot.tiny := true;
                   Hot.translate := false; Hot.no_fallback := true;
                   Hot.print_special := false; Hot.no_timestamps := true;
                   Hot.use_gpu := true; Hot.streaming := true;
                   Hot.model := "m"; Hot.language := "en" |}
                (whisper_params_init 4)
                {| files := [part "audio" "abcdefgh"] |} [] eq_refl)
      as (Hover & _).
    apply Hover. left. vm_compute. reflexivity.
Defined.

(** X13.  The first POST /hot_stream handler runs the engine exactly when
    the request has a [file] field of at least 44 bytes, and then once, on
    the hot context, on the samples that follow the 44 header bytes, with
    no stereo split.  A successful run is answered with the unstripped
    concatenation of the segment texts and the number of segments. *)
Theorem hot_stream_handler_runs (api : whisper_api)
    (hparams : Hot.hot_path_params) (params : whisper_params)
    (req : Request) :
  let blob := list_byte_of_string (get_file_value req "file").(content) in
  let samples := pcm16_samples (skipn 44 blob) in
  let wparams := hot_stream_wparams api hparams params in
  let run := api.(whisper_full_parallel) hot_ctx wparams samples 1%Z in
  existsb is_inference (snd (hot_stream_handler api hparams params req))
  = has_file req "file" && (44 <=? List.length blob) /\
  (has_file req "file" = true -> 44 <= List.length blob ->
   snd (hot_stream_handler api hparams params req)
   = lock_guard hot_whisper_mutex [FullParallel hot_ctx wparams samples 1%Z]
   /\
   (fst run = 0%Z ->
    fst (hot_stream_handler api hparams params req)
    = set_content
        (json_body
           (JObj [("text",
                   JStr (String.concat ""
                           (map Segment.text (snd run).(segments))));
                  ("is_streaming", JBool true);
                  ("model", JStr "tiny.en");
                  ("processing_time_ms", JInt 0);
                  ("segments",
                   JInt (Z.of_nat (List.length (snd run).(segments))))]))
        "application/json") /\
   (fst run <> 0%Z ->
    fst (hot_stream_handler api hparams params req)
    = error_response "hot path inference failed")).
Proof.
  cbv zeta. unfold hot_stream_handler, read_wav_content.
  destruct (has_file req "file"); cbn [negb andb]; [|split;
    [reflexivity|discriminate]].
  cbv zeta.
  destruct (Nat.ltb_spec
              (List.length
                 (list_byte_of_string (get_file_value req "file").(content)))
              44) as [Hlt|Hge].
  - split; [|intros _ H; lia].
    replace (44 <=? _) with false by (symmetry; apply Nat.leb_gt; exact Hlt).
    reflexivity.
  - cbn [andb].
    destruct (api.(whisper_full_parallel) hot_ctx _ _ 1%Z)
      as [status result] eqn:Hrun.
    split.
    + replace (44 <=? _) with true by (symmetry; now apply Nat.leb_le).
      destruct (status =? 0)%Z; reflexivity.
    + intros _ _. cbn [fst snd].
      destruct (Z.eqb_spec status 0) as [->|Hne]; cbn [negb fst snd].
      * split; [reflexivity|]. split; [reflexivity|congruence].
      * split; [reflexivity|]. split; [congruence|reflexivity].
Qed.

Lemma hot_stream_handler_runs_witness :
  snd (hot_stream_handler (constant_api 0 no_result) Hot.init
         (whisper_params_init 4) {| files := [part "file" empty_wav] |})
  = lock_guard hot_whisper_mutex
      [FullParallel hot_ctx
         (hot_stream_wparams (constant_api 0 no_result) Hot.init
            (whisper_params_init 4))
         (pcm16_samples (skipn 44 (list_byte_of_string empty_wav))) 1%Z].
Proof.
  apply (proj2 (hot_stream_handler_runs (constant_api 0 no_result) Hot.init
                  (whisper_params_init 4)
                  {| files := [part "file" empty_wav] |})).
  - reflexivity.
  - vm_compute. lia.
Defined.




(** ** The error and exception handlers *)

Lemma string_firstn_length n s :
  String.length (string_firstn n s) = Nat.min n (String.length s).
Proof.
  revert s. induction n as [|n IH]; intros s; [reflexivity|].
  destruct s as [|c s]; [reflexivity|]. cbn. now rewrite IH.
Qed.

Lemma string_firstn_all n s :
  String.length s <= n -> string_firstn n s = s.
Proof.
  revert s. induction n as [|n IH]; intros s Hn.
  - destruct s; [reflexivity|cbn in Hn; lia].
  - destruct s as [|c s]; [reflexivity|]. cbn in *. rewrite IH by lia.
    reflexivity.
Qed.

Lemma string_firstn_prefix n s :
  exists rest, s = (string_firstn n s ++ rest)%string.
Proof.
  revert s. induction n as [|n IH]; intros s.
  - exists s. reflexivity.
  - destruct s as [|c s]; [exists ""; reflexivity|].
    destruct (IH s) as [rest Hrest]. exists rest. cbn. now rewrite <- Hrest.
Qed.

(** X15.  Whatever status the error handler is called with, the status it
    leaves is 400, 404 or 500; a response with status 500 is passed through
    untouched, so the body the exception handler wrote is what the client
    gets. *)
Theorem error_handler_statuses (path : string) (status : Z)
    (res : Response) (bufsiz : nat) (what : option string) :
  let status' := fst (error_handler path status res) in
  (status' = 400%Z \/ status' = 404%Z \/ status' = 500%Z) /\
  (status' = 400%Z <-> status = 400%Z) /\
  (status' = 500%Z <-> status = 500%Z) /\
  error_handler path (fst (exception_handler bufsiz what))
    (snd (exception_handler bufsiz what))
  = exception_handler bufsiz what.
Proof.
  cbv zeta. unfold error_handler.
  destruct (Z.eqb_spec status 400) as [->|H400]; cbn [fst].
  - repeat split; auto; discriminate.
  - destruct (Z.eqb_spec status 500) as [->|H500]; cbn [negb fst].
    + repeat split; auto; discriminate.
    + repeat split; auto; try discriminate; intros; contradiction.
Qed.

Lemma error_handler_statuses_witness :
  fst (error_handler "/missing" 403 (error_response "x")) = 404%Z.
Proof.
  destruct (error_handler_statuses "/missing" 403 (error_response "x") 8192
              None) as ([H|[H|H]] & H400 & H500 & _).
  - apply H400 in H. discriminate H.
  - exact H.
  - apply H500 in H. discriminate H.
Defined.

(** X16.  The exception handler answers with status 500 and a plain-text
    body that starts as ["500 Internal Server Error"], a line feed and the
    message of the exception, cut to at most [BUFSIZ - 1] characters and
    complete when it is that short. *)
Theorem exception_handler_body (bufsiz : nat) (what : option string) :
  let message :=
    ("500 Internal Server Error" ++ nl
     ++ match what with Some w => w | None => "Unknown Exception" end)%string
  in
  exists sent,
    exception_handler bufsiz what
    = (500%Z, set_content (text_body sent) "text/plain") /\
    String.length sent <= bufsiz - 1 /\
    (exists cut, message = (sent ++ cut)%string) /\
    (String.length message <= bufsiz - 1 -> sent = message).
Proof.
  cbv zeta. unfold exception_handler. cbv zeta.
  eexists. split; [reflexivity|]. split; [|split].
  - rewrite string_firstn_length. lia.
  - apply string_firstn_prefix.
  - apply string_firstn_all.
Qed.

Lemma exception_handler_body_witness :
  exception_handler 8192 (Some "stoi")
  = (500%Z,
     set_content
       (text_body ("500 Internal Server Error" ++ nl ++ "stoi")%string)
       "text/plain").
Proof.
  destruct (exception_handler_body 8192 (Some "stoi"))
    as (sent & Heq & _ & _ & Hfull).
  rewrite Heq, Hfull; [reflexivity|].
  apply Nat.leb_le. vm_compute. reflexivity.
Defined.

(** ** The session registry *)

Lemma find_connection_app conn l extra :
  find_connection conn (l ++ extra)
  = match find_connection conn l with
    | Some c => Some c
    | None => find_connection conn extra
    end.
Proof.
  unfold find_connection. induction l as [|x l IH]; [reflexivity|].
  cbn [app find]. now destruct (Nat.eqb x.(ws_conn) conn).
Qed.

Lemma find_connection_closed conn other l :
  find_connection other
    (filter (fun c => negb (Nat.eqb c.(ws_conn) conn)) l)
  = if Nat.eqb other conn then None else find_connection other l.
Proof.
  unfold find_connection. induction l as [|x l IH].
  - now destruct (Nat.eqb other conn).
  - cbn [filter find].
    destruct (Nat.eqb_spec x.(ws_conn) conn) as [Hx|Hx]; cbn [negb].
    + rewrite IH.
      destruct (Nat.eqb_spec other conn) as [Ho|Ho]; [reflexivity|].
      destruct (Nat.eqb_spec x.(ws_conn) other) as [Hxo|_]; [congruence|].
      reflexivity.
    + cbn [find]. rewrite IH.
      destruct (Nat.eqb_spec x.(ws_conn) other) as [Hxo|Hxo];
        [|reflexivity].
      destruct (Nat.eqb_spec other conn) as [Ho|_]; [congruence|reflexivity].
Qed.

(** X17.  Opening a session.  Only the path ["/hot_stream"] is accepted;
    any other path is refused and leaves the registry as it is.  An
    accepted connection that was not in the registry is found there
    afterwards with an empty ring, active and stamped with the time of the
    handshake; the sessions of the other connections are what they were. *)
Theorem onWSConnect_registers (st : ws_state) (conn : nat)
    (request_uri : string) (now : Z) :
  (request_uri <> "/hot_stream" ->
   onWSConnect st conn request_uri now = (false, st)) /\
  (request_uri = "/hot_stream" ->
   fst (onWSConnect st conn request_uri now) = true /\
   (find_connection conn st.(active_connections) = None ->
    find_connection conn
      (snd (onWSConnect st conn request_uri now)).(active_connections)
    = Some {| ws_conn := conn; audio_buffer := [];
              last_activity := now; is_active := true |}) /\
   (forall other, other <> conn ->
      find_connection other
        (snd (onWSConnect st conn request_uri now)).(active_connections)
      = find_connection other st.(active_connections))).
Proof.
  unfold onWSConnect. split.
  - intros Hne. apply String.eqb_neq in Hne. now rewrite Hne.
  - intros ->. rewrite String.eqb_refl. cbn [negb fst snd active_connections].
    split; [reflexivity|]. split.
    + intros Hnew. rewrite find_connection_app, Hnew.
      unfold find_connection. cbn. now rewrite Nat.eqb_refl.
    + intros other Hother. rewrite find_connection_app.
      destruct (find_connection other st.(active_connections));
        [reflexivity|].
      unfold find_connection. cbn.
      destruct (Nat.eqb_spec conn other); [congruence|reflexivity].
Qed.

Lemma onWSConnect_registers_witness :
  onWSConnect ws_initial 7 "/inference" 0 = (false, ws_initial) /\
  find_connection 7
    (snd (onWSConnect ws_initial 7 "/hot_stream" 5)).(active_connections)
  = Some {| ws_conn := 7; audio_buffer := [];
            last_activity := 5; is_active := true |}.
Proof.
  split.
  - apply (proj1 (onWSConnect_registers ws_initial 7 "/inference" 0)).
    discriminate.
  - apply (proj2 (onWSConnect_registers ws_initial 7 "/hot_stream" 5));
      reflexivity.
Defined.

(** X18.  Closing a session.  After [onWSClose] the connection is not in
    the registry, the other sessions are what they were, closing again
    changes nothing, and a binary frame that still arrives for the closed
    connection is dropped: no sample is stored and nothing runs. *)
Theorem onWSClose_removes (api : whisper_api) (st : ws_state) (conn : nat)
    (payload : list byte) (now epoch_ms : Z) :
  find_connection conn (onWSClose st conn).(active_connections) = None /\
  (forall other, other <> conn ->
     find_connection other (onWSClose st conn).(active_connections)
     = find_connection other st.(active_connections)) /\
  onWSClose (onWSClose st conn) conn = onWSClose st conn /\
  processAudioData api (onWSClose st conn) conn payload now epoch_ms
  = Some (onWSClose st conn,
          [Lock ws_connections_mutex; Unlock ws_connections_mutex]).
Proof.
  assert (Hgone :
    find_connection conn (onWSClose st conn).(active_connections) = None).
  { unfold onWSClose. cbn [active_connections].
    now rewrite find_connection_closed, Nat.eqb_refl. }
  split; [exact Hgone|]. split; [|split].
  - intros other Hother. unfold onWSClose. cbn [active_connections].
    rewrite find_connection_closed.
    destruct (Nat.eqb_spec other conn); [contradiction|reflexivity].
  - unfold onWSClose. cbn [active_connections ws_whisper_ctx]. f_equal.
    induction st.(active_connections) as [|x l IH]; [reflexivity|].
    cbn [filter]. destruct (negb (Nat.eqb x.(ws_conn) conn)) eqn:E.
    + cbn [filter]. rewrite E. now rewrite IH.
    + exact IH.
  - unfold processAudioData. now rewrite Hgone.
Qed.

Lemma onWSClose_removes_witness :
  find_connection 8
    (onWSClose
       {| active_connections :=
            [{| ws_conn := 7; audio_buffer := []; last_activity := 0;
                is_active := true |};
             {| ws_conn := 8; audio_buffer := [0%Q]; last_activity := 1;
                is_active := true |}];
          ws_whisper_ctx := Some hot_ctx |} 7).(active_connections)
  = Some {| ws_conn := 8; audio_buffer := [0%Q]; last_activity := 1;
            is_active := true |}.
Proof.
  rewrite (proj1 (proj2 (onWSClose_removes (constant_api 0 no_result)
                           {| active_connections :=
                                [{| ws_conn := 7; audio_buffer := [];
                                    last_activity := 0; is_active := true |};
                                 {| ws_conn := 8; audio_buffer := [0%Q];
                                    last_activity := 1; is_active := true |}];
                              ws_whisper_ctx := Some hot_ctx |} 7 [] 0 0))
             8 ltac:(discriminate)).
  reflexivity.
Defined.

(** ** Frames of a session *)

Lemma find_store_other other updated connections :
  updated.(ws_conn) <> other ->
  find_connection other (store_connection updated connections)
  = find_connection other connections.
Proof.
  intros Hne. unfold find_connection.
  induction connections as [|x rest IH]; [reflexivity|].
  cbn [store_connection].
  destruct (Nat.eqb_spec x.(ws_conn) updated.(ws_conn)) as [Hx|Hx];
    cbn [find].
  - destruct (Nat.eqb_spec updated.(ws_conn) other) as [|_]; [contradiction|].
    destruct (Nat.eqb_spec x.(ws_conn) other) as [|_]; [congruence|].
    reflexivity.
  - now rewrite IH.
Qed.

Lemma pruned_ring_bound ring :
  (vsize (pruned_ring ring) <= WHISPER_SAMPLE_RATE * 2)%N.
Proof.
  unfold pruned_ring.
  destruct (N.ltb_spec (WHISPER_SAMPLE_RATE * 2) (vsize ring)) as [Hlt|Hge];
    [|exact Hge].
  rewrite vsize_keep_last; lia.
Qed.

Lemma emit_addressed conn result epoch_ms sent :
  emit conn result epoch_ms = Some sent ->
  Forall (fun e => exists message, e = Send conn OPCODE_TEXT message) sent.
Proof.
  unfold emit.
  destruct (negb (String.eqb (collect_transcription result) ""));
    [|intros [= <-]; constructor].
  destruct (clean_up (collect_transcription result)) as [t|]; [|discriminate].
  destruct (negb (String.eqb t "")); [|intros [= <-]; constructor].
  unfold sendTranscriptionResult. cbv zeta.
  destruct (dump_accepts _); [|discriminate].
  intros [= <-]. repeat constructor. eexists. reflexivity.
Qed.

(** What one binary frame does to the state: the session of the
    connection changes, through its ring and its time stamp, and nothing
    else does; what is sent goes to the connection of the frame. *)
Lemma processAudioData_step api st conn payload now epoch_ms c st' tr :
  find_connection conn st.(active_connections) = Some c ->
  processAudioData api st conn payload now epoch_ms = Some (st', tr) ->
  exists c',
    st' = {| active_connections :=
               store_connection c' st.(active_connections);
             ws_whisper_ctx := st.(ws_whisper_ctx) |} /\
    c'.(ws_conn) = conn /\
    c'.(last_activity) = now /\
    c'.(is_active) = c.(is_active) /\
    c'.(audio_buffer)
    = match st.(ws_whisper_ctx) with
      | Some _ => pruned_ring (c.(audio_buffer) ++ pcm16_samples payload)
      | None => c.(audio_buffer) ++ pcm16_samples payload
      end /\
    Forall (fun e => match e with
                     | Send to _ _ => to = conn
                     | _ => True
                     end) tr.
Proof.
  intros Hfind. unfold processAudioData. rewrite Hfind. cbv zeta.
  pose proof (find_connection_id _ _ _ Hfind) as Hid.
  set (c1 := {| ws_conn := c.(ws_conn);
                audio_buffer := c.(audio_buffer) ++ pcm16_samples payload;
                last_activity := now;
                is_active := c.(is_active) |}).
  assert (Hsmall : (vsize c1.(audio_buffer)
                    < WHISPER_SAMPLE_RATE + WHISPER_SAMPLE_RATE / 10)%N ->
                   c1.(audio_buffer)
                   = match st.(ws_whisper_ctx) with
                     | Some _ => pruned_ring c1.(audio_buffer)
                     | None => c1.(audio_buffer)
                     end).
  { intros Hlt. destruct st.(ws_whisper_ctx); [|reflexivity].
    unfold pruned_ring.
    destruct (N.ltb_spec (WHISPER_SAMPLE_RATE * 2) (vsize c1.(audio_buffer)))
      as [Hbig|_]; [|reflexivity].
    change (WHISPER_SAMPLE_RATE * 2)%N with 32000%N in Hbig.
    change (WHISPER_SAMPLE_RATE + WHISPER_SAMPLE_RATE / 10)%N
      with 17600%N in Hlt.
    lia. }
  destruct (N.leb_spec (WHISPER_SAMPLE_RATE + WHISPER_SAMPLE_RATE / 10)
              (vsize c1.(audio_buffer))) as [Hge|Hlt]; cbv iota.
  - unfold processAudioChunk.
    destruct st.(ws_whisper_ctx) as [wctx|].
    + destruct (N.ltb_spec (vsize c1.(audio_buffer))
                  (WHISPER_SAMPLE_RATE + WHISPER_SAMPLE_RATE / 10))
        as [Hlt|_]; [lia|].
      destruct (api.(whisper_full_parallel) wctx _ _ 1%Z)
        as [status result].
      destruct (if (status =? 0)%Z
                then emit c1.(ws_conn) result epoch_ms
                else Some []) as [sent|] eqn:Hsent; [|discriminate].
      intros [= <- <-]. eexists. split; [reflexivity|].
      cbn [ws_conn audio_buffer last_activity is_active c1].
      repeat split; try assumption.
      repeat constructor.
      destruct (status =? 0)%Z.
      * apply emit_addressed in Hsent. cbn [c1 ws_conn] in Hsent.
        rewrite Hid in Hsent.
        eapply Forall_impl; [|exact Hsent].
        intros e [message ->]. reflexivity.
      * injection Hsent as <-. constructor.
    + intros [= <- <-]. exists c1. repeat split; try assumption.
      repeat constructor.
  - intros [= <- <-]. exists c1. repeat split; try assumption.
    + cbn [c1 audio_buffer] in *. exact (Hsmall Hlt).
    + repeat constructor.
Qed.

Lemma ring_of_step conn st c' c :
  find_connection conn st.(active_connections) = Some c ->
  c'.(ws_conn) = conn ->
  ring_of conn {| active_connections :=
                    store_connection c' st.(active_connections);
                  ws_whisper_ctx := st.(ws_whisper_ctx) |}
  = Some c'.(audio_buffer).
Proof.
  intros Hfind Hid. unfold ring_of. cbn [active_connections].
  now rewrite (find_store_connection conn c' _ c Hfind Hid).
Qed.

(** X19.  A binary frame touches one session.  The sessions of all the
    other connections, rings included, are what they were, the engine
    context pointer is unchanged, the connection of the frame stays in the
    registry, and every frame that is sent goes to the connection the
    binary frame came from. *)
Theorem ws_frame_touches_one_session (api : whisper_api) (st : ws_state)
    (conn : nat) (payload : list byte) (now epoch_ms : Z) (st' : ws_state)
    (tr : list event) :
  processAudioData api st conn payload now epoch_ms = Some (st', tr) ->
  (forall other, other <> conn ->
     find_connection other st'.(active_connections)
     = find_connection other st.(active_connections)) /\
  st'.(ws_whisper_ctx) = st.(ws_whisper_ctx) /\
  (find_connection conn st.(active_connections) <> None ->
   find_connection conn st'.(active_connections) <> None) /\
  Forall (fun e => match e with
                   | Send to _ _ => to = conn
                   | _ => True
                   end) tr.
Proof.
  intros Hrun.
  destruct (find_connection conn st.(active_connections)) as [c|] eqn:Hfind.
  - destruct (processAudioData_step _ _ _ _ _ _ _ _ _ Hfind Hrun)
      as (c' & -> & Hid & _ & _ & _ & Hsent).
    cbn [active_connections ws_whisper_ctx].
    split; [|split; [reflexivity|split; [|exact Hsent]]].
    + intros other Hother. apply find_store_other. congruence.
    + intros _. now rewrite (find_store_connection conn c' _ c Hfind Hid).
  - unfold processAudioData in Hrun. rewrite Hfind in Hrun.
    injection Hrun as <- <-.
    split; [reflexivity|]. split; [reflexivity|].
    split; [now rewrite Hfind|repeat constructor].
Qed.

Lemma ws_frame_touches_one_session_witness :
  let st := {| active_connections :=
                 [{| ws_conn := 7; audio_buffer := []; last_activity := 0;
                     is_active := true |};
                  {| ws_conn := 8; audio_buffer := [0%Q]; last_activity := 1;
                     is_active := true |}];
               ws_whisper_ctx := Some hot_ctx |} in
  exists st' tr,
    processAudioData (constant_api 0 no_result) st 7 [x01; x00] 3 3
    = Some (st', tr) /\
    find_connection 8 st'.(active_connections)
    = find_connection 8 st.(active_connections).
Proof.
  cbv zeta. eexists _, _. split; [vm_compute; reflexivity|].
  refine (proj1 (ws_frame_touches_one_session (constant_api 0 no_result)
                   {| active_connections :=
                        [{| ws_conn := 7; audio_buffer := [];
                            last_activity := 0; is_active := true |};
                         {| ws_conn := 8; audio_buffer := [0%Q];
                            last_activity := 1; is_active := true |}];
                      ws_whisper_ctx := Some hot_ctx |}
                   7 [x01; x00] 3 3 _
                   [Lock ws_connections_mutex; Unlock ws_connections_mutex]
                   _) 8 _).
  - vm_compute. reflexivity.
  - discriminate.
Defined.

(** X20.  A session ring is bounded.  With an engine context in place,
    after any non-empty sequence of binary frames of a registered
    connection the ring holds at most two seconds of samples
    (32000), whatever it held before and however long the frames
    were. *)
Theorem ws_ring_stays_bounded (api : whisper_api)
    (frames : list (list byte * Z * Z)) :
  forall (st : ws_state) (conn : nat) (c : WebSocketConnection)
         (st' : ws_state) (tr : list event),
  st.(ws_whisper_ctx) <> None ->
  find_connection conn st.(active_connections) = Some c ->
  frames <> [] ->
  ws_frames api st conn frames = Some (st', tr) ->
  exists ring,
    ring_of conn st' = Some ring /\
    (vsize ring <= WHISPER_SAMPLE_RATE * 2)%N.
Proof.
  induction frames as [|[[payload now] epoch_ms] rest IH];
    intros st conn c st' tr Hctx Hfind Hne Hrun; [contradiction|].
  cbn [ws_frames] in Hrun.
  destruct (processAudioData api st conn payload now epoch_ms)
    as [[st1 tr1]|] eqn:Hstep; [|discriminate].
  destruct (processAudioData_step _ _ _ _ _ _ _ _ _ Hfind Hstep)
    as (c1 & -> & Hid & _ & _ & Hring & _).
  destruct rest as [|frame rest].
  - cbn [ws_frames] in Hrun. injection Hrun as <- <-.
    exists c1.(audio_buffer). split.
    + exact (ring_of_step conn st c1 c Hfind Hid).
    + rewrite Hring. destruct st.(ws_whisper_ctx); [|contradiction].
      apply pruned_ring_bound.
  - destruct (ws_frames api _ conn (frame :: rest)) as [[st2 tr2]|] eqn:Hrest;
      [|discriminate].
    injection Hrun as <- <-.
    apply (IH {| active_connections :=
                   store_connection c1 st.(active_connections);
                 ws_whisper_ctx := st.(ws_whisper_ctx) |} conn c1 st2 tr2);
      [exact Hctx| |discriminate|exact Hrest].
    cbn [active_connections].
    exact (find_store_connection conn c1 _ c Hfind Hid).
Qed.

(** A frame that brings the ring of a registered session to the trigger:
    the run, and what it sends, after the look-up; the session is left
    with the ring pruned. *)
Lemma processAudioData_run api st conn payload now epoch_ms c wctx sent :
  find_connection conn st.(active_connections) = Some c ->
  st.(ws_whisper_ctx) = Some wctx ->
  let c1 := {| ws_conn := c.(ws_conn);
               audio_buffer := c.(audio_buffer) ++ pcm16_samples payload;
               last_activity := now;
               is_active := c.(is_active) |} in
  let audio_chunk :=
    keep_last (WHISPER_SAMPLE_RATE + WHISPER_SAMPLE_RATE / 10)
      c1.(audio_buffer) in
  (WHISPER_SAMPLE_RATE + WHISPER_SAMPLE_RATE / 10
   <= vsize c1.(audio_buffer))%N ->
  (let '(status, result) :=
     api.(whisper_full_parallel) wctx (ws_wparams api) audio_chunk 1%Z in
   if (status =? 0)%Z then emit c1.(ws_conn) result epoch_ms else Some [])
  = Some sent ->
  processAudioData api st conn payload now epoch_ms
  = Some ({| active_connections :=
               store_connection (after_run c1) st.(active_connections);
             ws_whisper_ctx := st.(ws_whisper_ctx) |},
          [Lock ws_connections_mutex; Unlock ws_connections_mutex]
          ++ FullParallel wctx (ws_wparams api) audio_chunk 1%Z :: sent).
Proof.
  intros Hfind Hctx c1 audio_chunk Hge Hsent.
  unfold processAudioData. rewrite Hfind. cbv zeta. fold c1.
  replace (WHISPER_SAMPLE_RATE + WHISPER_SAMPLE_RATE / 10
           <=? vsize c1.(audio_buffer))%N
    with true by (symmetry; apply N.leb_le; exact Hge).
  rewrite Hctx. unfold processAudioChunk.
  replace (vsize c1.(audio_buffer)
           <? WHISPER_SAMPLE_RATE + WHISPER_SAMPLE_RATE / 10)%N
    with false by (symmetry; apply N.ltb_ge; exact Hge).
  cbv zeta. fold audio_chunk.
  destruct (api.(whisper_full_parallel) wctx (ws_wparams api) audio_chunk
              1%Z) as [status result].
  rewrite Hsent. reflexivity.
Qed.

Lemma ws_frames_one api st conn payload now epoch_ms st' tr :
  processAudioData api st conn payload now epoch_ms = Some (st', tr) ->
  ws_frames api st conn [(payload, now, epoch_ms)] = Some (st', tr ++ []).
Proof. intros Hrun. cbn [ws_frames]. now rewrite Hrun. Qed.

(** A ring of 40000 samples and a frame of one sample: the frame brings
    the ring over the trigger, the engine runs, and the ring the run
    leaves is within the bound. *)
Lemma ws_ring_stays_bounded_witness :
  let api := constant_api 0 no_result in
  let c := {| ws_conn := 7; audio_buffer := repeat 0%Q 40000;
              last_activity := 0; is_active := true |} in
  let st := {| active_connections := [c];
               ws_whisper_ctx := Some hot_ctx |} in
  vsize c.(audio_buffer) = 40000%N /\
  exists st' tr ring,
    ws_frames api st 7 [([x01; x00], 5%Z, 5%Z)] = Some (st', tr) /\
    existsb is_inference tr = true /\
    ring_of 7 st' = Some ring /\
    (vsize ring <= WHISPER_SAMPLE_RATE * 2)%N.
Proof.
  cbv zeta. split; [vm_compute; reflexivity|].
  pose proof (processAudioData_run (constant_api 0 no_result)
                {| active_connections :=
                     [{| ws_conn := 7; audio_buffer := repeat 0%Q 40000;
                         last_activity := 0; is_active := true |}];
                   ws_whisper_ctx := Some hot_ctx |}
                7 [x01; x00] 5 5
                {| ws_conn := 7; audio_buffer := repeat 0%Q 40000;
                   last_activity := 0; is_active := true |}
                hot_ctx [] eq_refl eq_refl) as Hrun.
  cbv zeta in Hrun.
  specialize (Hrun ltac:(vm_compute; discriminate) eq_refl).
  apply ws_frames_one in Hrun.
  match type of Hrun with
  | _ = Some (?st', ?tr) =>
      destruct (ws_ring_stays_bounded (constant_api 0 no_result)
                  [([x01; x00], 5%Z, 5%Z)]
                  {| active_connections :=
                       [{| ws_conn := 7; audio_buffer := repeat 0%Q 40000;
                           last_activity := 0; is_active := true |}];
                     ws_whisper_ctx := Some hot_ctx |}
                  7
                  {| ws_conn := 7; audio_buffer := repeat 0%Q 40000;
                     last_activity := 0; is_active := true |}
                  st' tr)
        as (ring & Hring & Hbound);
        [discriminate|reflexivity|discriminate|exact Hrun|];
      exists st', tr, ring
  end.
  split; [exact Hrun|]. split; [reflexivity|].
  split; [exact Hring|exact Hbound].
Defined.

Lemma vsize_app {A} (l l' : list A) :
  vsize (l ++ l') = (vsize l + vsize l')%N.
Proof. unfold vsize. rewrite length_app. lia. Qed.

(** X21.  Below the trigger the session only collects.  While the ring
    and the frames together hold fewer than 17600 samples (1.1 s), a
    sequence of binary frames returns, runs no inference, sends nothing,
    and leaves in the ring the old samples followed by the samples of the
    frames in arrival order. *)
Theorem ws_collects_below_trigger (api : whisper_api)
    (frames : list (list byte * Z * Z)) :
  forall (st : ws_state) (conn : nat) (c : WebSocketConnection),
  find_connection conn st.(active_connections) = Some c ->
  (vsize (c.(audio_buffer)
          ++ List.concat (map (fun f => pcm16_samples (fst (fst f))) frames))
   < WHISPER_SAMPLE_RATE + WHISPER_SAMPLE_RATE / 10)%N ->
  exists st' tr,
    ws_frames api st conn frames = Some (st', tr) /\
    ring_of conn st'
    = Some (c.(audio_buffer)
            ++ List.concat
                 (map (fun f => pcm16_samples (fst (fst f))) frames)) /\
    existsb is_inference tr = false /\
    sent_frames tr = [].
Proof.
  induction frames as [|[[payload now] epoch_ms] rest IH];
    intros st conn c Hfind Hsmall.
  - exists st, []. cbn [ws_frames map List.concat]. rewrite app_nil_r.
    unfold ring_of. rewrite Hfind. repeat split.
  - cbn [map List.concat fst] in Hsmall |- *.
    rewrite app_assoc in Hsmall |- *.
    set (c1 := {| ws_conn := c.(ws_conn);
                  audio_buffer := c.(audio_buffer) ++ pcm16_samples payload;
                  last_activity := now;
                  is_active := c.(is_active) |}).
    assert (Hstep : processAudioData api st conn payload now epoch_ms
                    = Some ({| active_connections :=
                                 store_connection c1 st.(active_connections);
                               ws_whisper_ctx := st.(ws_whisper_ctx) |},
                            [Lock ws_connections_mutex;
                             Unlock ws_connections_mutex])).
    { unfold processAudioData. rewrite Hfind. cbv zeta. fold c1.
      destruct (N.leb_spec (WHISPER_SAMPLE_RATE + WHISPER_SAMPLE_RATE / 10)
                  (vsize c1.(audio_buffer))) as [Hge|_]; [|reflexivity].
      cbn [c1 audio_buffer] in Hge. rewrite vsize_app in Hsmall. lia. }
    pose proof (find_connection_id _ _ _ Hfind) as Hid.
    destruct (IH {| active_connections :=
                      store_connection c1 st.(active_connections);
                    ws_whisper_ctx := st.(ws_whisper_ctx) |} conn c1)
      as (st' & tr & Hrun & Hring & Hinf & Hsent).
    + cbn [active_connections].
      exact (find_store_connection conn c1 _ c Hfind Hid).
    + exact Hsmall.
    + exists st', ([Lock ws_connections_mutex; Unlock ws_connections_mutex]
                   ++ tr).
      cbn [ws_frames]. rewrite Hstep, Hrun.
      split; [reflexivity|]. split; [exact Hring|].
      split; [exact Hinf|exact Hsent].
Qed.

Lemma ws_collects_below_trigger_witness :
  exists st' tr,
    ws_frames (constant_api 0 no_result)
      {| active_connections :=
           [{| ws_conn := 7; audio_buffer := [0%Q];
               last_activity := 0; is_active := true |}];
         ws_whisper_ctx := Some hot_ctx |}
      7 [([x01; x00], 5%Z, 5%Z); ([x02; x00; x03], 6%Z, 6%Z)]
    = Some (st', tr) /\
    ring_of 7 st'
    = Some ([0%Q]
            ++ List.concat (map (fun f => pcm16_samples (fst (fst f)))
                         [([x01; x00], 5%Z, 5%Z);
                          ([x02; x00; x03], 6%Z, 6%Z)])) /\
    existsb is_inference tr = false /\
    sent_frames tr = [].
Proof.
  apply (ws_collects_below_trigger (constant_api 0 no_result)
           [([x01; x00], 5%Z, 5%Z); ([x02; x00; x03], 6%Z, 6%Z)]
           {| active_connections :=
                [{| ws_conn := 7; audio_buffer := [0%Q];
                    last_activity := 0; is_active := true |}];
              ws_whisper_ctx := Some hot_ctx |}
           7
           {| ws_conn := 7; audio_buffer := [0%Q];
              last_activity := 0; is_active := true |}).
  - reflexivity.
  - vm_compute. reflexivity.
Defined.

(** X22.  A frame that is not binary changes nothing and runs nothing.
    For any opcode but the binary one, the callback returns the state it
    was given, its trace holds no engine event, and it sends either
    nothing or exactly one text frame, the pong, to the connection the
    frame came from; the pong is sent only for a text frame whose payload
    parses. *)
Theorem ws_other_frames_leave_state (api : whisper_api) (sys : system_api)
    (st : ws_state) (conn : nat) (opcode : Z) (payload : list byte)
    (now epoch_ms : Z) :
  opcode <> OPCODE_BINARY ->
  exists tr,
    onWSMsg api sys st conn opcode payload now epoch_ms = Some (st, tr) /\
    (tr = [] \/
     tr = [Send conn OPCODE_TEXT (JObj [("type", JStr "pong")])] /\
     opcode = OPCODE_TEXT /\ sys.(json_parse) payload <> None).
Proof.
  intros Hop. unfold onWSMsg.
  destruct (Z.eqb_spec opcode OPCODE_BINARY) as [|_]; [contradiction|].
  destruct (Z.eqb_spec opcode OPCODE_TEXT) as [Htext|_];
    [|eexists; split; [reflexivity|now left]].
  eexists; split; [reflexivity|].
  unfold processTextMessage.
  destruct (sys.(json_parse) payload) as [j|]; [|now left].
  destruct (json_member "type" j) as [[| | | |type| |]|]; try now left.
  destruct (String.eqb type "ping"); [|now left].
  right. repeat split; [exact Htext|discriminate].
Qed.

Lemma ws_other_frames_leave_state_witness :
  exists tr,
    onWSMsg (constant_api 0 no_result) bare_system ws_initial 7 OPCODE_TEXT
      [x7b; x7d] 0 0
    = Some (ws_initial, tr) /\
    (tr = [] \/
     tr = [Send 7 OPCODE_TEXT (JObj [("type", JStr "pong")])] /\
     OPCODE_TEXT = OPCODE_TEXT /\ bare_system.(json_parse) [x7b; x7d] <> None).
Proof.
  apply (ws_other_frames_leave_state (constant_api 0 no_result) bare_system
           ws_initial 7 OPCODE_TEXT [x7b; x7d] 0 0).
  discriminate.
Defined.

(** ** The command line *)

(** The tests of the chain, one after the other; every test met is kept
    with its outcome. *)
Ltac chain :=
  unfold branch_of;
  repeat match goal with
         | |- context [if arg_is ?a ?s ?l then _ else _] =>
             destruct (arg_is a s l) eqn:?
         | |- context [if String.eqb ?a ?s then _ else _] =>
             destruct (String.eqb a s) eqn:?
         end.

(** An assignment, whatever it converts, with its result named. *)
Ltac assigned :=
  unfold flag, int_value, float_value, string_value, bool_value;
  cbn [branch_preserves];
  try exact I;
  intros;
  repeat match goal with
         | H : option_map _ ?o = Some _ |- _ =>
             destruct o; cbn [option_map] in H; [|discriminate]
         | H : Some _ = Some _ |- _ => injection H as <-
         end.

(** A later test of an option that an earlier test has taken. *)
Ltac shadowed :=
  match goal with
  | Hearly : arg_is ?a _ ?l = false, Hlate : String.eqb ?a ?l = true |- _ =>
      unfold arg_is in Hearly; rewrite Hlate, orb_true_r in Hearly;
      discriminate Hearly
  end.

Section CommandLine.
Variable sys : system_api.

(** An invariant of the assignments of every branch is an invariant of
    the parse. *)
Lemma whisper_params_parse_invariant (I : cli_state -> Prop) :
  (forall arg, branch_preserves I (branch_of sys arg)) ->
  forall n args st ok st',
    List.length args <= n ->
    I st ->
    whisper_params_parse sys args st = returned ok st' ->
    I st'.
Proof.
  intros Hbranch.
  induction n as [|n IH]; intros args st ok st' Hlen Hst Hrun.
  - destruct args; [|cbn in Hlen; lia].
    cbn in Hrun. now injection Hrun as _ <-.
  - destruct args as [|arg rest]; [cbn in Hrun; now injection Hrun as _ <-|].
    cbn [whisper_params_parse] in Hrun. cbn [List.length] in Hlen.
    specialize (Hbranch arg).
    destruct (branch_of sys arg) as [|assign|assign| |];
      cbn [branch_preserves] in Hbranch; try discriminate.
    + apply (IH rest (assign st) ok st'); [lia|now apply Hbranch|exact Hrun].
    + destruct rest as [|value rest'];
        [now injection Hrun as _ <-|].
      destruct (assign value st) as [st1|] eqn:Hassign; [|discriminate].
      cbn [List.length] in Hlen.
      apply (IH rest' st1 ok st'); [lia| |exact Hrun].
      exact (Hbranch value st st1 Hst Hassign).
    + destruct rest as [|value rest']; [now injection Hrun as _ <-|].
      apply (IH (value :: rest') st ok st'); [lia|exact Hst|exact Hrun].
Qed.

Lemma branch_keeps_shadowed (h : Hot.hot_path_params) (arg : string) :
  branch_preserves
    (fun st => shadowed_members st.(cli_hparams) = shadowed_members h)
    (branch_of sys arg).
Proof.
  chain; try shadowed; assigned; assumption.
Qed.

Lemma branch_keeps_diarize (arg : string) :
  branch_preserves (fun st => st.(cli_params).(diarize) = true)
    (branch_of sys arg).
Proof.
  chain; assigned; solve [assumption | reflexivity].
Qed.
End CommandLine.

(** X23.  Seven options of the hot path are out of reach.  The tests for
    [--audio-ctx], [--translate], [--no-fallback], [--print-special],
    [--no-timestamps], [--model] and [--language] that assign to
    [hot_path_params] come after tests of the same strings that assign to
    [whisper_params]; so whatever the command line is, when the parser
    returns these seven members of [hot_path_params] are what they were. *)
Theorem shadowed_hot_options_never_assign (sys : system_api)
    (args : list string) (st : cli_state) (ok : bool) (st' : cli_state) :
  whisper_params_parse sys args st = returned ok st' ->
  st'.(cli_hparams).(Hot.audio_ctx) = st.(cli_hparams).(Hot.audio_ctx) /\
  st'.(cli_hparams).(Hot.translate) = st.(cli_hparams).(Hot.translate) /\
  st'.(cli_hparams).(Hot.no_fallback) = st.(cli_hparams).(Hot.no_fallback) /\
  st'.(cli_hparams).(Hot.print_special)
  = st.(cli_hparams).(Hot.print_special) /\
  st'.(cli_hparams).(Hot.no_timestamps)
  = st.(cli_hparams).(Hot.no_timestamps) /\
  st'.(cli_hparams).(Hot.model) = st.(cli_hparams).(Hot.model) /\
  st'.(cli_hparams).(Hot.language) = st.(cli_hparams).(Hot.language).
Proof.
  intros Hrun.
  pose proof (whisper_params_parse_invariant sys _
                (branch_keeps_shadowed sys st.(cli_hparams))
                (List.length args) args st ok st' (le_n _) eq_refl Hrun)
    as Hkept.
  unfold shadowed_members in Hkept.
  injection Hkept as -> -> -> -> -> -> ->. repeat split.
Qed.

Lemma shadowed_hot_options_never_assign_witness :
  exists st',
    whisper_params_parse bare_system
      ["--translate"; "--model"; "m.bin"; "--audio-ctx"; "3"] (cli_initial 8)
    = returned true st' /\
    st'.(cli_params).(translate) = true /\
    st'.(cli_params).(model) = "m.bin" /\
    st'.(cli_params).(audio_ctx) = 3%Z /\
    st'.(cli_hparams).(Hot.translate) = false /\
    st'.(cli_hparams).(Hot.model) = "models/ggml-tiny.en-q5_1.bin" /\
    st'.(cli_hparams).(Hot.audio_ctx) = 0%Z.
Proof.
  eexists. split; [vm_compute; reflexivity|].
  split; [reflexivity|]. split; [reflexivity|]. split; [reflexivity|].
  destruct (shadowed_hot_options_never_assign bare_system
              ["--translate"; "--model"; "m.bin"; "--audio-ctx"; "3"]
              (cli_initial 8) true _ eq_refl)
    as (Hctx & Htr & _ & _ & _ & Hmodel & _).
  split; [exact Htr|]. split; [exact Hmodel|exact Hctx].
Defined.

(** X24.  The server never starts with tinydiarize on.  No option clears
    [params.diarize], which is initialised to [true]; so whenever [main]
    goes on past its checks, [diarize] is on and [tinydiarize] is off, and
    a command line that the parser accepts with [tinydiarize] switched on
    ends the process with status 0, at the check of the language or at the
    check of the two diarization modes. *)
Theorem main_never_starts_with_tinydiarize (sys : system_api)
    (whisper_lang_id : string -> Z) (hw : Z) (args : list string) :
  (forall st,
     main_arguments sys whisper_lang_id hw args = startup_proceeds st ->
     st.(cli_params).(diarize) = true /\
     st.(cli_params).(tinydiarize) = false) /\
  (forall parsed,
     whisper_params_parse sys args (cli_initial hw) = returned true parsed ->
     parsed.(cli_params).(tinydiarize) = true ->
     main_arguments sys whisper_lang_id hw args = startup_exit 0).
Proof.
  unfold main_arguments.
  destruct (whisper_params_parse sys args (cli_initial hw))
    as [[|] parsed| |] eqn:Hrun;
    try (split; [intros st; discriminate|intros st; discriminate]).
  pose proof (whisper_params_parse_invariant sys _ (branch_keeps_diarize sys)
                (List.length args) args (cli_initial hw) true parsed
                (le_n _) eq_refl Hrun) as Hdiarize.
  cbv beta in Hdiarize. cbv zeta. rewrite Hdiarize. cbn [andb].
  split.
  - intros st. destruct (_ && _); [discriminate|].
    destruct parsed.(cli_params).(tinydiarize) eqn:Htdrz; [discriminate|].
    intros [= <-]. now split.
  - intros st [= <-] Htdrz. rewrite Htdrz.
    now destruct (_ && _).
Qed.

(** [-t 2 --convert] starts the server; [-tdrz] alone is parsed and then
    stopped. *)
Lemma main_never_starts_with_tinydiarize_witness :
  (exists st,
     main_arguments bare_system (fun _ => 0%Z) 8 ["-t"; "2"; "--convert"]
     = startup_proceeds st /\
     st.(cli_params).(diarize) = true /\
     st.(cli_params).(tinydiarize) = false) /\
  main_arguments bare_system (fun _ => 0%Z) 8 ["-tdrz"] = startup_exit 0.
Proof.
  split.
  - eexists. split; [vm_compute; reflexivity|].
    apply (proj1 (main_never_starts_with_tinydiarize bare_system
                    (fun _ => 0%Z) 8 ["-t"; "2"; "--convert"])).
    vm_compute. reflexivity.
  - apply (proj2 (main_never_starts_with_tinydiarize bare_system
                    (fun _ => 0%Z) 8 ["-tdrz"])
             (on_params (set_tinydiarize true) (cli_initial 8))).
    + reflexivity.
    + reflexivity.
Defined.

Lemma parse_false_missing_value (sys : system_api) :
  forall n args st st',
    List.length args <= n ->
    whisper_params_parse sys args st = returned false st' ->
    exists before option,
      args = before ++ [option] /\
      takes_value (branch_of sys option) = true.
Proof.
  induction n as [|n IH]; intros args st st' Hlen Hrun.
  - destruct args; [discriminate|cbn in Hlen; lia].
  - destruct args as [|arg rest]; [discriminate|].
    cbn [whisper_params_parse] in Hrun. cbn [List.length] in Hlen.
    destruct (branch_of sys arg) as [|assign|assign| |] eqn:Hbranch;
      try discriminate.
    + destruct (IH rest (assign st) st') as (before & option & -> & Htakes);
        [lia|exact Hrun|].
      exists (arg :: before), option. now split.
    + destruct rest as [|value rest'].
      * exists [], arg. rewrite Hbranch. now split.
      * destruct (assign value st) as [st1|]; [|discriminate].
        cbn [List.length] in Hlen.
        destruct (IH rest' st1 st') as (before & option & -> & Htakes);
          [lia|exact Hrun|].
        exists (arg :: value :: before), option. now split.
    + destruct rest as [|value rest'].
      * exists [], arg. rewrite Hbranch. now split.
      * destruct (IH (value :: rest') st st')
          as (before & option & Heq & Htakes); [lia|exact Hrun|].
        exists (arg :: before), option. rewrite Heq. now split.
Qed.

(** X25.  The one failure the parser reports.  [whisper_params_parse]
    returns [false], and [main] then returns 1, only when the command line
    ends with an option that reads a following argument; an unknown
    argument is no such failure, it ends the process with status 0. *)
Theorem main_returns_1_on_missing_value (sys : system_api)
    (whisper_lang_id : string -> Z) (hw : Z) (args : list string)
    (code : Z) :
  main_arguments sys whisper_lang_id hw args = startup_return code ->
  code = 1%Z /\
  exists before option,
    args = before ++ [option] /\
    takes_value (branch_of sys option) = true.
Proof.
  unfold main_arguments.
  destruct (whisper_params_parse sys args (cli_initial hw))
    as [[|] parsed| |] eqn:Hrun; try discriminate.
  - cbv zeta. destruct (_ && _); [discriminate|].
    destruct (_ && _); discriminate.
  - intros [= <-]. split; [reflexivity|].
    exact (parse_false_missing_value sys _ args _ parsed (le_n _) Hrun).
Qed.

Lemma main_returns_1_on_missing_value_witness :
  main_arguments bare_system (fun _ => 0%Z) 8 ["-nt"; "--port"]
  = startup_return 1 /\
  exists before option,
    ["-nt"; "--port"] = before ++ [option] /\
    takes_value (branch_of bare_system option) = true.
Proof.
  split; [vm_compute; reflexivity|].
  apply (main_returns_1_on_missing_value bare_system (fun _ => 0%Z) 8
           ["-nt"; "--port"] 1).
  vm_compute. reflexivity.
Defined.

(** X26.  [--backend] does not use its value.  The branch checks that an
    argument follows and then leaves it in place, so for every value the
    parse of [--backend value rest] is the parse of [value rest]: the value
    is read as the next option.  A value that is no option of the server
    ends the process with status 0 through the branch of unknown
    arguments. *)
Theorem backend_value_is_parsed_as_option (sys : system_api)
    (value : string) (rest : list string) (st : cli_state) :
  whisper_params_parse sys ("--backend" :: value :: rest) st
  = whisper_params_parse sys (value :: rest) st /\
  (branch_of sys value = br_unknown ->
   whisper_params_parse sys ("--backend" :: value :: rest) st = exited 0).
Proof.
  assert (Hstep : whisper_params_parse sys ("--backend" :: value :: rest) st
                  = whisper_params_parse sys (value :: rest) st)
    by reflexivity.
  split; [exact Hstep|].
  intros Hunknown.
  rewrite Hstep. cbn [whisper_params_parse]. now rewrite Hunknown.
Qed.

(** [--backend metal -nt] stops at [metal]; in [--backend -nt] the value
    [-nt] is taken as the option it names. *)
Lemma backend_value_is_parsed_as_option_witness :
  whisper_params_parse bare_system ["--backend"; "metal"; "-nt"]
    (cli_initial 8)
  = exited 0 /\
  whisper_params_parse bare_system ["--backend"; "-nt"] (cli_initial 8)
  = returned true (on_params (set_no_timestamps true) (cli_initial 8)).
Proof.
  split.
  - apply (proj2 (backend_value_is_parsed_as_option bare_system "metal"
                    ["-nt"] (cli_initial 8))).
    vm_compute. reflexivity.
  - rewrite (proj1 (backend_value_is_parsed_as_option bare_system "-nt" []
                      (cli_initial 8))).
    reflexivity.
Defined.

Lemma parse_prefix (sys : system_api) (suffix : list string) :
  forall n args st st1,
    List.length args <= n ->
    whisper_params_parse sys args st = returned true st1 ->
    whisper_params_parse sys (args ++ suffix) st
    = whisper_params_parse sys suffix st1.
Proof.
  induction n as [|n IH]; intros args st st1 Hlen Hrun.
  - destruct args; [|cbn in Hlen; lia]. cbn in Hrun.
    now injection Hrun as <-.
  - destruct args as [|arg rest]; [cbn in Hrun; now injection Hrun as <-|].
    cbn [whisper_params_parse app] in Hrun |- *. cbn [List.length] in Hlen.
    destruct (branch_of sys arg) as [|assign|assign| |]; try discriminate.
    + apply IH; [lia|exact Hrun].
    + destruct rest as [|value rest']; [discriminate|].
      cbn [app]. destruct (assign value st) as [st2|]; [|discriminate].
      cbn [List.length] in Hlen. apply IH; [lia|exact Hrun].
    + destruct rest as [|value rest']; [discriminate|].
      cbn [app]. apply (IH (value :: rest')); [lia|exact Hrun].
Qed.

(** X27.  The command line is read left to right in one pass.  When the
    parser accepts a list of arguments, it gives any longer command line
    that starts with them the result of parsing the remaining arguments
    from the structures the first ones left: no option looks back, and
    an accepted prefix never leaves an option waiting for its value. *)
Theorem whisper_params_parse_app (sys : system_api)
    (args suffix : list string) (st st1 : cli_state) :
  whisper_params_parse sys args st = returned true st1 ->
  whisper_params_parse sys (args ++ suffix) st
  = whisper_params_parse sys suffix st1.
Proof.
  intros Hrun. exact (parse_prefix sys suffix _ args st st1 (le_n _) Hrun).
Qed.

Lemma whisper_params_parse_app_witness :
  exists st1,
    whisper_params_parse bare_system ["-t"; "2"] (cli_initial 8)
    = returned true st1 /\
    whisper_params_parse bare_system (["-t"; "2"] ++ ["--port"; "x"])
      (cli_initial 8)
    = whisper_params_parse bare_system ["--port"; "x"] st1.
Proof.
  eexists. split; [vm_compute; reflexivity|].
  apply (whisper_params_parse_app bare_system ["-t"; "2"] ["--port"; "x"]
           (cli_initial 8)).
  vm_compute. reflexivity.
Defined.
